(** * NetPulse / ISP Monitor: a shallow embedding and its properties

    The development follows the two Python programs of the repository:
    - [monitor/netpulse_monitor.py] (class [NetPulseMonitor]), and
    - [existing python script/isp_monitor.py] (class [VisualISPMonitor]).

    Conventions.
    - A Python [float] is a rational ([Q]).  The programs only compare
      latencies, test them for truthiness (a float is falsy exactly when it
      is zero), and average them; rounding is not modelled.
    - A [datetime] is an integer number of microseconds ([Z]); a
      [timedelta] is a difference of two of them.
    - A dict with string keys is a [gmap string _]; the set of websocket
      clients is a [gset]; a SQLite table is the list of its rows in
      insertion order together with its AUTOINCREMENT counter.
    - Everything the programs obtain from outside (the wall clock, the
      outcome of a SQLite transaction, the outcome of an SMTP session) is
      an oracle, indexed by the number of earlier uses, which the [world]
      counts. *)

From Stdlib Require Import ZArith QArith Qround Lia Ascii String.
From stdpp Require Import gmap strings list pretty.

(** ** Time *)

Definition us_per_second : Z := 1000000.
Definition us_per_day : Z := 86400 * us_per_second.

(** [timedelta.total_seconds()] *)
Definition total_seconds (d : Z) : Q := (d # 1000000)%Q.

(** [datetime.date()], and SQLite's [DATE(column)]: the day number. *)
Definition date_of (t : Z) : Z := (t / us_per_day)%Z.

(** [timedelta(days=n)] *)
Definition timedelta_days (n : Z) : Z := (n * us_per_day)%Z.

(** ** Floats and truthiness *)

(** [if x:] for a float [x]. *)
Definition float_truthy (x : Q) : bool := negb (Qeq_bool x 0).

(** [x < y] and [x > y] on floats. *)
Definition float_ltb (x y : Q) : bool := negb (Qle_bool y x).
Definition float_gtb (x y : Q) : bool := float_ltb y x.

(** [if x:] for an optional float (the result of the ping wrappers). *)
Definition opt_float_truthy (x : option Q) : bool :=
  match x with
  | Some q => float_truthy q
  | None => false
  end.

(** [x or 0] for an optional float (SQL NULL is [None]). *)
Definition or_zero (x : option Q) : Q :=
  match x with
  | Some q => if float_truthy q then q else 0%Q
  | None => 0%Q
  end.

(** What [ping3.ping] can give back. *)
Inductive ping_outcome :=
  | PingReply (seconds : Q)   (* the measured delay, in seconds *)
  | PingTimeout               (* [None] *)
  | PingFailed                (* [False]: the host cannot be resolved or reached *)
  | PingRaised.               (* an exception *)

(** ** Strings *)

(** [s.split(':')[0]] *)
Fixpoint before_colon (s : string) : string :=
  match s with
  | EmptyString => EmptyString
  | String c rest =>
      if Ascii.eqb c ":"%char then EmptyString else String c (before_colon rest)
  end.

(** ** Configuration *)

Record target_config := {
  tc_name : string;
  tc_ip : string;
  tc_enabled : option bool          (* the key may be missing *)
}.

Record config := {
  cfg_targets : list target_config;
  latency_threshold : Q;
  max_data_points : nat;
  cooldown_seconds : Q;
  send_alerts : bool;
  retention_days : Z
}.

(** ** The SQLite store *)

Inductive incident_kind := PACKET_LOSS_INCIDENT | HIGH_LATENCY_INCIDENT.

(** The [status] text stored with a ping: ["PACKET_LOSS"],
    ["HIGH_LATENCY_<n>ms"] or ["OK_<n>ms"]. *)
Inductive probe_status :=
  | ST_PACKET_LOSS
  | ST_HIGH_LATENCY (ms : Q)
  | ST_OK (ms : Q).

Record ping_row := {
  pr_id : nat;
  pr_target_name : string;
  pr_target_ip : string;
  pr_timestamp : Z;
  pr_latency : option Q;
  pr_status : probe_status;
  pr_packet_loss : nat
}.

Record incident_row := {
  inc_id : nat;
  inc_target_name : string;
  inc_target_ip : string;
  inc_start_time : Z;
  inc_end_time : option Z;
  inc_duration_minutes : option Q;
  inc_incident_type : incident_kind;
  inc_max_latency : option Q;
  inc_packet_loss_count : nat;
  inc_resolved : bool
}.

Record daily_report_row := {
  dr_id : nat;
  dr_target_name : string;
  dr_report_date : Z;
  dr_total_checks : nat;
  dr_successful_checks : nat;
  dr_packet_loss_count : nat;
  dr_avg_latency : Q;
  dr_max_latency : Q;
  dr_min_latency : Q;
  dr_uptime_percentage : Q;
  dr_incidents_count : nat
}.

(** A table is its rows, oldest first, and the largest rowid it ever
    handed out (SQLite keeps it in [sqlite_sequence] for AUTOINCREMENT
    columns).  The [created_at] columns are filled in by SQLite and never
    read by the program; they are left out. *)
Record database := {
  ping_results : list ping_row;
  ping_results_seq : nat;
  incidents : list incident_row;
  incidents_seq : nat;
  daily_reports : list daily_report_row;
  daily_reports_seq : nat
}.

(** The rowid AUTOINCREMENT gives to the next inserted row. *)
Definition next_rowid (seq : nat) (ids : list nat) : nat :=
  S (Nat.max seq (max_list ids)).

Definition empty_database : database :=
  {| ping_results := []; ping_results_seq := 0;
     incidents := []; incidents_seq := 0;
     daily_reports := []; daily_reports_seq := 0 |}.

Definition set_ping_results (rows : list ping_row) (seq : nat) (d : database) :=
  {| ping_results := rows; ping_results_seq := seq;
     incidents := incidents d; incidents_seq := incidents_seq d;
     daily_reports := daily_reports d; daily_reports_seq := daily_reports_seq d |}.

Definition set_incidents (rows : list incident_row) (seq : nat) (d : database) :=
  {| ping_results := ping_results d; ping_results_seq := ping_results_seq d;
     incidents := rows; incidents_seq := seq;
     daily_reports := daily_reports d; daily_reports_seq := daily_reports_seq d |}.

Definition set_daily_reports (rows : list daily_report_row) (seq : nat) (d : database) :=
  {| ping_results := ping_results d; ping_results_seq := ping_results_seq d;
     incidents := incidents d; incidents_seq := incidents_seq d;
     daily_reports := rows; daily_reports_seq := seq |}.

(** ** The world around the program *)

(** One SMTP session: who it was for and the subject line. *)
Record smtp_attempt := {
  sa_target : string;
  sa_subject : string;
  sa_delivered : bool
}.

Record world := {
  clock_reads : nat;            (* calls of [datetime.now()] so far *)
  db_opens : nat;               (* SQLite transactions attempted so far *)
  db : database;
  outbox : list smtp_attempt    (* SMTP sessions attempted so far, oldest first *)
}.

Definition initial_world (d : database) : world :=
  {| clock_reads := 0; db_opens := 0; db := d; outbox := [] |}.

(** A computation that reads and changes the world. *)
Definition M (A : Type) : Type := world -> A * world.

Definition ret {A} (a : A) : M A := fun w => (a, w).

Definition bind {A B} (m : M A) (k : A -> M B) : M B :=
  fun w => let (a, w') := m w in k a w'.

Notation "'do' x <- m ; k" := (bind m (fun x => k))
  (at level 10, x name, m at level 100, k at level 200).
Notation "'do' ' pat <- m ; k" := (bind m (fun x => match x with pat => k end))
  (at level 10, pat pattern, m at level 100, k at level 200).
Notation "'perform' m ; k" := (bind m (fun _ => k))
  (at level 10, m at level 100, k at level 200).

Definition get_db : M database := fun w => (db w, w).

Definition put_db (d : database) : M unit := fun w =>
  (tt, {| clock_reads := clock_reads w; db_opens := db_opens w;
          db := d; outbox := outbox w |}).

(** ** Per-target monitoring state ([self.targets[name]]) *)

Inductive target_status := st_unknown | st_up | st_degraded | st_down.

Record data_point := {
  dp_timestamp : Z;
  dp_latency : option Q;
  dp_status : probe_status;
  dp_consecutive_failures : nat
}.

Record target_data := {
  td_config : target_config;
  consecutive_failures : nat;
  total_checks : nat;
  last_email_sent : gmap string Z;
  first_failure_time : option Z;
  current_incident_id : option nat;
  recent_data : list data_point;     (* a deque, oldest first *)
  status : target_status;
  last_check : option Z;
  avg_latency : Q;
  packet_loss_rate : Q
}.

Definition set_consecutive_failures (n : nat) (td : target_data) : target_data :=
  {| td_config := td_config td; consecutive_failures := n;
     total_checks := total_checks td; last_email_sent := last_email_sent td;
     first_failure_time := first_failure_time td;
     current_incident_id := current_incident_id td;
     recent_data := recent_data td; status := status td;
     last_check := last_check td; avg_latency := avg_latency td;
     packet_loss_rate := packet_loss_rate td |}.

Definition set_total_checks (n : nat) (td : target_data) : target_data :=
  {| td_config := td_config td; consecutive_failures := consecutive_failures td;
     total_checks := n; last_email_sent := last_email_sent td;
     first_failure_time := first_failure_time td;
     current_incident_id := current_incident_id td;
     recent_data := recent_data td; status := status td;
     last_check := last_check td; avg_latency := avg_latency td;
     packet_loss_rate := packet_loss_rate td |}.

Definition set_last_email_sent (m : gmap string Z) (td : target_data) : target_data :=
  {| td_config := td_config td; consecutive_failures := consecutive_failures td;
     total_checks := total_checks td; last_email_sent := m;
     first_failure_time := first_failure_time td;
     current_incident_id := current_incident_id td;
     recent_data := recent_data td; status := status td;
     last_check := last_check td; avg_latency := avg_latency td;
     packet_loss_rate := packet_loss_rate td |}.

Definition set_first_failure_time (t : option Z) (td : target_data) : target_data :=
  {| td_config := td_config td; consecutive_failures := consecutive_failures td;
     total_checks := total_checks td; last_email_sent := last_email_sent td;
     first_failure_time := t;
     current_incident_id := current_incident_id td;
     recent_data := recent_data td; status := status td;
     last_check := last_check td; avg_latency := avg_latency td;
     packet_loss_rate := packet_loss_rate td |}.

Definition set_current_incident_id (i : option nat) (td : target_data) : target_data :=
  {| td_config := td_config td; consecutive_failures := consecutive_failures td;
     total_checks := total_checks td; last_email_sent := last_email_sent td;
     first_failure_time := first_failure_time td;
     current_incident_id := i;
     recent_data := recent_data td; status := status td;
     last_check := last_check td; avg_latency := avg_latency td;
     packet_loss_rate := packet_loss_rate td |}.

Definition set_recent_data (l : list data_point) (td : target_data) : target_data :=
  {| td_config := td_config td; consecutive_failures := consecutive_failures td;
     total_checks := total_checks td; last_email_sent := last_email_sent td;
     first_failure_time := first_failure_time td;
     current_incident_id := current_incident_id td;
     recent_data := l; status := status td;
     last_check := last_check td; avg_latency := avg_latency td;
     packet_loss_rate := packet_loss_rate td |}.

Definition set_status (s : target_status) (td : target_data) : target_data :=
  {| td_config := td_config td; consecutive_failures := consecutive_failures td;
     total_checks := total_checks td; last_email_sent := last_email_sent td;
     first_failure_time := first_failure_time td;
     current_incident_id := current_incident_id td;
     recent_data := recent_data td; status := s;
     last_check := last_check td; avg_latency := avg_latency td;
     packet_loss_rate := packet_loss_rate td |}.

Definition set_last_check (t : option Z) (td : target_data) : target_data :=
  {| td_config := td_config td; consecutive_failures := consecutive_failures td;
     total_checks := total_checks td; last_email_sent := last_email_sent td;
     first_failure_time := first_failure_time td;
     current_incident_id := current_incident_id td;
     recent_data := recent_data td; status := status td;
     last_check := t; avg_latency := avg_latency td;
     packet_loss_rate := packet_loss_rate td |}.

Definition set_avg_latency (q : Q) (td : target_data) : target_data :=
  {| td_config := td_config td; consecutive_failures := consecutive_failures td;
     total_checks := total_checks td; last_email_sent := last_email_sent td;
     first_failure_time := first_failure_time td;
     current_incident_id := current_incident_id td;
     recent_data := recent_data td; status := status td;
     last_check := last_check td; avg_latency := q;
     packet_loss_rate := packet_loss_rate td |}.

Definition set_packet_loss_rate (q : Q) (td : target_data) : target_data :=
  {| td_config := td_config td; consecutive_failures := consecutive_failures td;
     total_checks := total_checks td; last_email_sent := last_email_sent td;
     first_failure_time := first_failure_time td;
     current_incident_id := current_incident_id td;
     recent_data := recent_data td; status := status td;
     last_check := last_check td; avg_latency := avg_latency td;
     packet_loss_rate := q |}.

(** [deque(maxlen=n).append(x)]: the oldest entries fall out on the left. *)
Definition deque_append {A} (maxlen : nat) (x : A) (l : list A) : list A :=
  let l' := l ++ [x] in drop (length l' - maxlen) l'.

(** [sum(xs)] of floats *)
Definition float_sum (xs : list Q) : Q := foldl Qplus 0%Q xs.

(** [len(xs)] as a float operand *)
Definition float_len {A} (xs : list A) : Q := inject_Z (Z.of_nat (length xs)).

(** [if incident_id:] for the optional rowid kept in the target state. *)
Definition rowid_truthy (i : option nat) : bool :=
  match i with
  | Some n => negb (n =? 0)
  | None => false
  end.

(** ** [netpulse_monitor.py]: class [NetPulseMonitor] *)

Module NetPulse.
Section Monitor.

(** [clock k] is what the [k]-th call of [datetime.now()] returns,
    [db_up k] tells whether the [k]-th SQLite transaction goes through
    (otherwise it raises before changing anything), [smtp_up k] whether
    the [k]-th SMTP session delivers the message. *)
Variable clock : nat -> Z.
Variable db_up : nat -> bool.
Variable smtp_up : nat -> bool.
Variable cfg : config.

Definition now : M Z := fun w =>
  (clock (clock_reads w),
   {| clock_reads := S (clock_reads w); db_opens := db_opens w;
      db := db w; outbox := outbox w |}).

(** [with sqlite3.connect(self.db_path) as conn:] inside [try:]. *)
Definition db_connect : M bool := fun w =>
  (db_up (db_opens w),
   {| clock_reads := clock_reads w; db_opens := S (db_opens w);
      db := db w; outbox := outbox w |}).

(** The SMTP session of [send_email_alert]: connect, [starttls], [login],
    [sendmail], [quit].  Any exception in it makes the attempt fail. *)
Definition smtp_session (target_name subject : string) : M bool := fun w =>
  let ok := smtp_up (length (outbox w)) in
  (ok,
   {| clock_reads := clock_reads w; db_opens := db_opens w; db := db w;
      outbox := outbox w ++ [{| sa_target := target_name;
                                sa_subject := subject;
                                sa_delivered := ok |}] |}).

Definition initial_target_data (tc : target_config) : target_data :=
  {| td_config := tc;
     consecutive_failures := 0;
     total_checks := 0;
     last_email_sent := ∅;
     first_failure_time := None;
     current_incident_id := None;
     recent_data := [];
     status := st_unknown;
     last_check := None;
     avg_latency := 0%Q;
     packet_loss_rate := 0%Q |}.

(** [d[k] = v] on an insertion-ordered dict. *)
Fixpoint dict_set {A} (k : string) (v : A) (d : list (string * A)) : list (string * A) :=
  match d with
  | [] => [(k, v)]
  | (k', v') :: rest =>
      if String.eqb k' k then (k', v) :: rest else (k', v') :: dict_set k v rest
  end.

Fixpoint initialize_targets_from (tcs : list target_config)
    (targets : list (string * target_data)) : list (string * target_data) :=
  match tcs with
  | [] => targets
  | tc :: rest =>
      if negb (default true (tc_enabled tc))
      then initialize_targets_from rest targets
      else initialize_targets_from rest
             (dict_set (tc_name tc) (initial_target_data tc) targets)
  end.

Definition initialize_targets : list (string * target_data) :=
  initialize_targets_from (cfg_targets cfg) [].

(** [ping_target]: [latency * 1000 if latency else None]; an exception is
    logged and gives [None]. *)
Definition ping_target (ping : ping_outcome) : option Q :=
  match ping with
  | PingReply latency =>
      if float_truthy latency then Some (latency * 1000)%Q else None
  | PingTimeout => None
  | PingFailed => None
  | PingRaised => None
  end.

Definition store_ping_result (target_name target_ip : string)
    (latency : option Q) (st : probe_status) : M unit :=
  do ok <- db_connect;
  if ok then
    let packet_loss := match latency with None => 1 | Some _ => 0 end in
    do t <- now;
    do d <- get_db;
    let id := next_rowid (ping_results_seq d) (pr_id <$> ping_results d) in
    put_db (set_ping_results
              (ping_results d ++
                 [{| pr_id := id; pr_target_name := target_name;
                     pr_target_ip := target_ip; pr_timestamp := t;
                     pr_latency := latency; pr_status := st;
                     pr_packet_loss := packet_loss |}])
              id d)
  else ret tt.

Definition start_incident (target_name target_ip : string)
    (incident_type : incident_kind) : M (option nat) :=
  do ok <- db_connect;
  if ok then
    do t <- now;
    do d <- get_db;
    let id := next_rowid (incidents_seq d) (inc_id <$> incidents d) in
    perform put_db (set_incidents
              (incidents d ++
                 [{| inc_id := id; inc_target_name := target_name;
                     inc_target_ip := target_ip; inc_start_time := t;
                     inc_end_time := None; inc_duration_minutes := None;
                     inc_incident_type := incident_type;
                     inc_max_latency := None;
                     inc_packet_loss_count := 0;
                     inc_resolved := false |}])
              id d);
    ret (Some id)
  else ret None.

(** The [UPDATE incidents SET ... WHERE id = ?] of [end_incident]. *)
Definition close_incident_row (incident_id : nat) (end_time : Z)
    (duration_minutes : Q) (max_latency : option Q) (packet_loss_count : nat)
    (r : incident_row) : incident_row :=
  if inc_id r =? incident_id then
    {| inc_id := inc_id r; inc_target_name := inc_target_name r;
       inc_target_ip := inc_target_ip r; inc_start_time := inc_start_time r;
       inc_end_time := Some end_time;
       inc_duration_minutes := Some duration_minutes;
       inc_incident_type := inc_incident_type r;
       inc_max_latency := max_latency;
       inc_packet_loss_count := packet_loss_count;
       inc_resolved := true |}
  else r.

Definition end_incident (incident_id : nat) (max_latency : option Q)
    (packet_loss_count : nat) : M unit :=
  do ok <- db_connect;
  if ok then
    do end_time <- now;
    do d <- get_db;
    match find (fun r => inc_id r =? incident_id) (incidents d) with
    | Some row =>
        let duration_minutes :=
          (total_seconds (end_time - inc_start_time row) / 60)%Q in
        put_db (set_incidents
                  (close_incident_row incident_id end_time duration_minutes
                     max_latency packet_loss_count <$> incidents d)
                  (incidents_seq d) d)
    | None => ret tt
    end
  else ret tt.

(** The defaults of [end_incident]'s keyword parameters. *)
Definition end_incident_default_max_latency : option Q := None.
Definition end_incident_default_packet_loss_count : nat := 0.

Definition email_key (target_name subject : string) : string :=
  target_name +:+ "_" +:+ before_colon subject.

Definition send_email_alert (td : target_data) (target_name subject : string)
    : M target_data :=
  if negb (send_alerts cfg) then ret td
  else
    let key := email_key target_name subject in
    do in_cooldown <-
      match last_email_sent td !! key with
      | Some last_sent =>
          do t <- now;
          ret (float_ltb (total_seconds (t - last_sent)) (cooldown_seconds cfg))
      | None => ret false
      end;
    if in_cooldown then ret td
    else
      do ok <- smtp_session target_name subject;
      if ok then
        do t <- now;
        ret (set_last_email_sent (<[key := t]> (last_email_sent td)) td)
      else ret td.


(** *** [monitor_target]: one pass through the body of the [while] loop *)

(** The [if latency is None: ... elif latency > threshold: ... else: ...]
    block.  It returns the [status] text together with the target state.
    Each branch reads the clock once more while it formats the message
    text (the time shown in the body of the mail). *)
Definition classify_and_track (target_name : string) (latency : option Q)
    (td : target_data) : M (probe_status * target_data) :=
  let ip := tc_ip (td_config td) in
  match latency with
  | None =>
      (* Packet loss *)
      do td <-
        (if consecutive_failures td =? 0 then
           do t <- now;
           do id <- start_incident target_name ip PACKET_LOSS_INCIDENT;
           ret (set_current_incident_id id (set_first_failure_time (Some t) td))
         else ret td);
      let td := set_consecutive_failures (S (consecutive_failures td)) td in
      let td := set_status st_down td in
      perform now;
      do td <- send_email_alert td target_name ("PACKET LOSS: " +:+ target_name);
      ret (ST_PACKET_LOSS, td)
  | Some l =>
      if float_gtb l (latency_threshold cfg) then
        (* High latency *)
        do td <-
          (if consecutive_failures td =? 0 then
             do t <- now;
             do id <- start_incident target_name ip HIGH_LATENCY_INCIDENT;
             ret (set_current_incident_id id (set_first_failure_time (Some t) td))
           else ret td);
        let td := set_consecutive_failures (S (consecutive_failures td)) td in
        let td := set_status st_degraded td in
        perform now;
        do td <- send_email_alert td target_name ("HIGH LATENCY: " +:+ target_name);
        ret (ST_HIGH_LATENCY l, td)
      else
        (* Normal operation *)
        do td <-
          (if 0 <? consecutive_failures td then
             (* Check for recovery *)
             perform
               (if rowid_truthy (current_incident_id td) then
                  end_incident (default 0 (current_incident_id td))
                    end_incident_default_max_latency
                    end_incident_default_packet_loss_count
                else ret tt);
             perform now;
             do td <- send_email_alert td target_name ("RECOVERED: " +:+ target_name);
             let td := set_consecutive_failures 0 td in
             let td := set_first_failure_time None td in
             ret (set_current_incident_id None td)
           else ret td);
        ret (ST_OK l, set_status st_up td)
  end.

(** The part after the block: store the result, extend the recent data,
    refresh the averages.  With an empty deque ([max_data_points = 0])
    the division raises [ZeroDivisionError], which the [except] of the
    loop body swallows: the loss rate keeps its old value. *)
Definition record_result (target_name : string) (latency : option Q)
    (st : probe_status) (td : target_data) : M target_data :=
  perform store_ping_result target_name (tc_ip (td_config td)) latency st;
  do t <- now;
  let point := {| dp_timestamp := t; dp_latency := latency; dp_status := st;
                  dp_consecutive_failures := consecutive_failures td |} in
  let td := set_recent_data
              (deque_append (max_data_points cfg) point (recent_data td)) td in
  let recent_latencies := omap dp_latency (recent_data td) in
  let td := match recent_latencies with
            | [] => td
            | _ => set_avg_latency
                     (float_sum recent_latencies / float_len recent_latencies)%Q td
            end in
  let packet_losses :=
    filter (fun d => dp_latency d = None) (recent_data td) in
  match recent_data td with
  | [] => ret td
  | _ => ret (set_packet_loss_rate
                (float_len packet_losses / float_len (recent_data td) * 100)%Q td)
  end.

Definition monitor_target_iteration (target_name : string)
    (ping : ping_outcome) (td : target_data) : M target_data :=
  let latency := ping_target ping in
  let td := set_total_checks (S (total_checks td)) td in
  do t <- now;
  let td := set_last_check (Some t) td in
  do '(st, td) <- classify_and_track target_name latency td;
  record_result target_name latency st td.

(** The loop, run for as long as there are ping outcomes to consume. *)
Fixpoint monitor_target (target_name : string) (pings : list ping_outcome)
    (td : target_data) : M target_data :=
  match pings with
  | [] => ret td
  | ping :: rest =>
      do td <- monitor_target_iteration target_name ping td;
      monitor_target target_name rest td
  end.


(** *** [generate_daily_reports] *)

(** SQL aggregates over the non-NULL values of a column. *)
Definition sql_avg (xs : list Q) : option Q :=
  match xs with
  | [] => None
  | _ => Some (float_sum xs / float_len xs)%Q
  end.

Definition sql_max (xs : list Q) : option Q :=
  foldl (fun acc x =>
           match acc with
           | None => Some x
           | Some m => Some (if float_ltb m x then x else m)
           end) None xs.

Definition sql_min (xs : list Q) : option Q :=
  foldl (fun acc x =>
           match acc with
           | None => Some x
           | Some m => Some (if float_ltb x m then x else m)
           end) None xs.

(** [WHERE target_name = ? AND DATE(timestamp) = ?] *)
Definition pings_of_day (target_name : string) (report_date : Z)
    (d : database) : list ping_row :=
  filter (fun r => pr_target_name r = target_name ∧
                   date_of (pr_timestamp r) = report_date)
         (ping_results d).

(** [WHERE target_name = ? AND DATE(start_time) = ?] *)
Definition incidents_of_day (target_name : string) (report_date : Z)
    (d : database) : list incident_row :=
  filter (fun r => inc_target_name r = target_name ∧
                   date_of (inc_start_time r) = report_date)
         (incidents d).

(** The row the [INSERT OR REPLACE] writes, for a given rowid. *)
Definition daily_report_of (id : nat) (target_name : string) (report_date : Z)
    (d : database) : daily_report_row :=
  let rows := pings_of_day target_name report_date d in
  let latencies := omap pr_latency rows in
  let total_checks := length rows in
  let successful_checks := length latencies in
  let packet_loss_count :=
    length (filter (fun r => pr_packet_loss r = 1) rows) in
  {| dr_id := id;
     dr_target_name := target_name;
     dr_report_date := report_date;
     dr_total_checks := total_checks;
     dr_successful_checks := successful_checks;
     dr_packet_loss_count := packet_loss_count;
     dr_avg_latency := or_zero (sql_avg latencies);
     dr_max_latency := or_zero (sql_max latencies);
     dr_min_latency := or_zero (sql_min latencies);
     dr_uptime_percentage :=
       (inject_Z (Z.of_nat successful_checks)
          / inject_Z (Z.of_nat total_checks) * 100)%Q;
     dr_incidents_count :=
       length (incidents_of_day target_name report_date d) |}.

(** [INSERT OR REPLACE] under [UNIQUE(target_name, report_date)]: the
    rows in conflict go, the new row comes with a fresh rowid. *)
Definition insert_or_replace_daily_report (target_name : string)
    (report_date : Z) (d : database) : database :=
  let id := next_rowid (daily_reports_seq d) (dr_id <$> daily_reports d) in
  set_daily_reports
    (filter (fun r => ¬ (dr_target_name r = target_name ∧
                          dr_report_date r = report_date))
            (daily_reports d)
       ++ [daily_report_of id target_name report_date d])
    id d.

(** What happens inside one [with sqlite3.connect(...)] of the loop. *)
Definition report_target (target_name : string) (report_date : Z)
    (d : database) : database :=
  if 0 <? length (pings_of_day target_name report_date d)
  then insert_or_replace_daily_report target_name report_date d
  else d.

(** The [for] loop sits inside one [try]: the first transaction that
    fails ends it, and the targets after it get no report. *)
Fixpoint generate_reports_for (report_date : Z) (names : list string) : M unit :=
  match names with
  | [] => ret tt
  | target_name :: rest =>
      do ok <- db_connect;
      if ok then
        do d <- get_db;
        perform put_db (report_target target_name report_date d);
        generate_reports_for report_date rest
      else ret tt
  end.

Definition generate_daily_reports (targets : list (string * target_data)) : M unit :=
  do t <- now;
  generate_reports_for (date_of t) (targets.*1).

(** *** [cleanup_old_data] *)

Definition delete_older_than (retention_date : Z) (d : database) : database :=
  {| ping_results :=
       filter (fun r => ¬ (pr_timestamp r < retention_date)%Z) (ping_results d);
     ping_results_seq := ping_results_seq d;
     incidents :=
       filter (fun r => ¬ (inc_start_time r < retention_date)%Z) (incidents d);
     incidents_seq := incidents_seq d;
     daily_reports :=
       filter (fun r => ¬ (dr_report_date r < date_of retention_date)%Z)
              (daily_reports d);
     daily_reports_seq := daily_reports_seq d |}.

Definition cleanup_old_data : M unit :=
  do t <- now;
  let retention_date := (t - timedelta_days (retention_days cfg))%Z in
  do ok <- db_connect;
  if ok then
    do d <- get_db;
    put_db (delete_older_than retention_date d)
  else ret tt.

End Monitor.

(** *** [broadcast_data]: one pass through the body of the [while] loop *)

Section Broadcast.

(** [round(x, 2)] *)
Variable round2 : Q -> Q.

Record target_view := {
  tv_name : string;
  tv_ip : string;
  tv_status : target_status;
  tv_consecutive_failures : nat;
  tv_total_checks : nat;
  tv_avg_latency : Q;
  tv_packet_loss_rate : Q;
  tv_last_check : option Z;
  tv_recent_data : list data_point
}.

Record dashboard := {
  dash_timestamp : Z;
  dash_targets : list (string * target_view)
}.

(** [xs[-n:]] *)
Definition last_n {A} (n : nat) (xs : list A) : list A :=
  drop (length xs - n) xs.

Definition target_view_of (target_name : string) (td : target_data) : target_view :=
  {| tv_name := target_name;
     tv_ip := tc_ip (td_config td);
     tv_status := status td;
     tv_consecutive_failures := consecutive_failures td;
     tv_total_checks := total_checks td;
     tv_avg_latency := round2 (avg_latency td);
     tv_packet_loss_rate := round2 (packet_loss_rate td);
     tv_last_check := last_check td;
     tv_recent_data := last_n 50 (recent_data td) |}.

Definition dashboard_data (t : Z) (targets : list (string * target_data)) : dashboard :=
  {| dash_timestamp := t;
     dash_targets := (fun '(n, td) => (n, target_view_of n td)) <$> targets |}.

(** What [await client.send(...)] does for one client. *)
Inductive send_outcome :=
  | Sent
  | ConnectionClosed      (* [websockets.exceptions.ConnectionClosed] *)
  | SendRaised.           (* any other exception, which is logged *)

(** The body of [for client in self.websocket_clients]: the first
    component collects [disconnected_clients], the second the messages
    that went out. *)
Definition send_to_client (send : nat -> send_outcome) (msg : dashboard)
    (acc : gset nat * list (nat * dashboard)) (client : nat)
    : gset nat * list (nat * dashboard) :=
  match send client with
  | Sent => (acc.1, acc.2 ++ [(client, msg)])
  | ConnectionClosed => ({[client]} ∪ acc.1, acc.2)
  | SendRaised => ({[client]} ∪ acc.1, acc.2)
  end.

(** One broadcast cycle during which no handler touches the client set:
    the new client set and the messages sent.  (The cycle with the
    handlers running while the sends are awaited is
    [Broadcaster.broadcast_cycle] below.) *)
Definition broadcast_cycle (t : Z) (targets : list (string * target_data))
    (send : nat -> send_outcome) (websocket_clients : gset nat)
    : gset nat * list (nat * dashboard) :=
  if decide (websocket_clients = ∅) then (websocket_clients, [])
  else
    let msg := dashboard_data t targets in
    let '(disconnected_clients, sent) :=
      foldl (send_to_client send msg) (∅, []) (elements websocket_clients) in
    (websocket_clients ∖ disconnected_clients, sent).

End Broadcast.
End NetPulse.

(** ** [isp_monitor.py]: class [VisualISPMonitor] *)

Module ISP.

Record isp_config := {
  target_ip : string;
  latency_threshold : Q;
  cooldown_seconds : Q;
  send_every_failure : bool;
  to_email_list : list string   (* what [parse_email_recipients] makes of [to_email] *)
}.

Record csv_row := {
  csv_timestamp : Z;
  csv_status : string
}.

Record detailed_row := {
  det_timestamp : Z;
  det_latency_ms : Q;
  det_status : string;
  det_consecutive_failures : nat;
  det_notes : string
}.

Record monitor := {
  consecutive_failures : nat;
  total_checks : nat;
  last_email_sent : gmap string Z;
  first_failure_time : option Z;
  timestamps : list Z;            (* the four deques of the graphs *)
  latencies : list Q;
  packet_loss : list nat;
  status_codes : list nat;        (* 0=timeout, 1=ok, 2=high_latency *)
  csv_file : list csv_row;        (* the rows below the header *)
  detailed_csv : list detailed_row
}.

Definition max_data_points : nat := 200.

Definition initial_monitor : monitor :=
  {| consecutive_failures := 0; total_checks := 0; last_email_sent := ∅;
     first_failure_time := None; timestamps := []; latencies := [];
     packet_loss := []; status_codes := []; csv_file := [];
     detailed_csv := [] |}.

Definition set_failures (n : nat) (first : option Z) (m : monitor) : monitor :=
  {| consecutive_failures := n; total_checks := total_checks m;
     last_email_sent := last_email_sent m; first_failure_time := first;
     timestamps := timestamps m; latencies := latencies m;
     packet_loss := packet_loss m; status_codes := status_codes m;
     csv_file := csv_file m; detailed_csv := detailed_csv m |}.

Definition set_total_checks (n : nat) (m : monitor) : monitor :=
  {| consecutive_failures := consecutive_failures m; total_checks := n;
     last_email_sent := last_email_sent m;
     first_failure_time := first_failure_time m;
     timestamps := timestamps m; latencies := latencies m;
     packet_loss := packet_loss m; status_codes := status_codes m;
     csv_file := csv_file m; detailed_csv := detailed_csv m |}.

Definition set_last_email_sent (sent : gmap string Z) (m : monitor) : monitor :=
  {| consecutive_failures := consecutive_failures m;
     total_checks := total_checks m; last_email_sent := sent;
     first_failure_time := first_failure_time m;
     timestamps := timestamps m; latencies := latencies m;
     packet_loss := packet_loss m; status_codes := status_codes m;
     csv_file := csv_file m; detailed_csv := detailed_csv m |}.

(** [s.replace(' ', '_')] *)
Fixpoint replace_spaces (s : string) : string :=
  match s with
  | EmptyString => EmptyString
  | String c rest =>
      String (if Ascii.eqb c " "%char then "_"%char else c) (replace_spaces rest)
  end.

Section Monitor.

Variable clock : nat -> Z.
Variable smtp_up : nat -> bool.
Variable cfg : isp_config.

(** [f"{x:.0f}"] *)
Variable format_0f : Q -> string.

Definition now : M Z := NetPulse.now clock.

Definition smtp_session (subject : string) : M bool :=
  NetPulse.smtp_session smtp_up (target_ip cfg) subject.

(** [ping_target]: the same wrapper as in the newer program. *)
Definition ping_target (ping : ping_outcome) : option Q :=
  match ping with
  | PingReply latency =>
      if float_truthy latency then Some (latency * 1000)%Q else None
  | PingTimeout => None
  | PingFailed => None
  | PingRaised => None
  end.

Definition format_ping_result (latency : option Q) : string :=
  match latency with
  | Some l =>
      if float_truthy l
      then "Reply from " +:+ target_ip cfg +:+ ": bytes=32 time="
             +:+ format_0f l +:+ "ms TTL=119"
      else "Request to " +:+ target_ip cfg +:+ " timed out"
  | None => "Request to " +:+ target_ip cfg +:+ " timed out"
  end.

(** [latency if latency else 0] *)
Definition latency_or_zero (latency : option Q) : Q :=
  match latency with
  | Some l => if float_truthy l then l else 0%Q
  | None => 0%Q
  end.

(** Both files are written here.  (A write that fails is only logged and
    leaves its file without the row: [ISPFiles.log_to_csv] below.) *)
Definition log_to_csv (st : string) (latency : option Q) (notes : string)
    (m : monitor) : M monitor :=
  do timestamp <- now;
  let status_code :=
    match latency with
    | None => 0
    | Some l => if float_gtb l (latency_threshold cfg) then 2 else 1
    end in
  let packet_loss_val := match latency with None => 1 | Some _ => 0 end in
  ret {| consecutive_failures := consecutive_failures m;
         total_checks := total_checks m;
         last_email_sent := last_email_sent m;
         first_failure_time := first_failure_time m;
         timestamps := deque_append max_data_points timestamp (timestamps m);
         latencies :=
           deque_append max_data_points (latency_or_zero latency) (latencies m);
         packet_loss :=
           deque_append max_data_points packet_loss_val (packet_loss m);
         status_codes :=
           deque_append max_data_points status_code (status_codes m);
         csv_file :=
           csv_file m ++ [{| csv_timestamp := timestamp; csv_status := st |}];
         detailed_csv :=
           detailed_csv m ++
             [{| det_timestamp := timestamp;
                 det_latency_ms := latency_or_zero latency;
                 det_status := st;
                 det_consecutive_failures := consecutive_failures m;
                 det_notes := notes |}] |}.

Definition general_key : string := "ANY_ALERT".

(** [send_email]: the cooldown looks at the last alert of any kind. *)
Definition send_email (subject : string) (m : monitor) : M (bool * monitor) :=
  if negb (send_every_failure cfg) then ret (true, m)
  else
    let email_key := replace_spaces subject in
    do in_cooldown <-
      match last_email_sent m !! general_key with
      | Some last_any_alert =>
          do t <- now;
          ret (float_ltb (total_seconds (t - last_any_alert)) (cooldown_seconds cfg))
      | None => ret false
      end;
    if in_cooldown then ret (false, m)
    else
      match to_email_list cfg with
      | [] => ret (false, m)
      | _ =>
          do ok <- smtp_session subject;
          if ok then
            do t1 <- now;
            do t2 <- now;
            ret (true,
                 set_last_email_sent
                   (<[general_key := t2]> (<[email_key := t1]> (last_email_sent m)))
                   m)
          else ret (false, m)
      end.

(** The clock is read for the log line first, then wherever the source
    calls [datetime.now()]: for [first_failure_time], in [log_to_csv],
    for the duration and for the time shown in the message. *)
Definition check_connectivity (ping : ping_outcome) (m : monitor) : M monitor :=
  let m := set_total_checks (S (total_checks m)) m in
  let latency := ping_target ping in
  perform now;
  if opt_float_truthy latency then
    let l := default 0%Q latency in
    let st := format_ping_result latency in
    if float_gtb l (latency_threshold cfg) then
      do m <-
        (if consecutive_failures m =? 0 then
           do t <- now; ret (set_failures (consecutive_failures m) (Some t) m)
         else ret m);
      let m := set_failures (S (consecutive_failures m)) (first_failure_time m) m in
      do m <- log_to_csv st latency "HIGH_LATENCY" m;
      perform (match first_failure_time m with Some _ => perform now; ret tt | None => ret tt end);
      perform now;
      do '(_, m) <-
        send_email ("HIGH LATENCY: " +:+ target_ip cfg +:+ " - " +:+ format_0f l
                      +:+ "ms (Issue #" +:+ pretty (consecutive_failures m) +:+ ")") m;
      ret m
    else
      do m <-
        (if 0 <? consecutive_failures m then
           perform now;
           do '(_, m) <-
             send_email ("RESOLVED: Network Recovered at " +:+ target_ip cfg) m;
           ret (set_failures 0 None m)
         else ret m);
      log_to_csv st latency "OK" m
  else
    do m <-
      (if consecutive_failures m =? 0 then
         do t <- now; ret (set_failures (consecutive_failures m) (Some t) m)
       else ret m);
    let m := set_failures (S (consecutive_failures m)) (first_failure_time m) m in
    let st := format_ping_result None in
    do m <- log_to_csv st None "PACKET_LOSS" m;
    perform (match first_failure_time m with Some _ => perform now; ret tt | None => ret tt end);
    perform now;
    do '(_, m) <-
      send_email ("URGENT: Packet Loss at " +:+ target_ip cfg +:+ " - Failure #"
                    +:+ pretty (consecutive_failures m)) m;
    ret m.

End Monitor.
End ISP.

(** ** Notions used in the statements *)

(** The three health classes of a probe. *)
Inductive health_class := OK | HighLatency | PacketLoss.

Definition class_of_status (st : probe_status) : health_class :=
  match st with
  | ST_PACKET_LOSS => PacketLoss
  | ST_HIGH_LATENCY _ => HighLatency
  | ST_OK _ => OK
  end.

(** Whether a latency reading counts as a failure. *)
Definition is_failure (threshold : Q) (latency : option Q) : bool :=
  match latency with
  | None => true
  | Some l => float_gtb l threshold
  end.

(** The incidents of a target that are still open. *)
Definition open_incidents (target_name : string) (d : database) : list incident_row :=
  filter (fun r => inc_target_name r = target_name /\ inc_resolved r = false)
         (incidents d).

(** The link between the failure counter of a target and its open
    incident, as the loop maintains it. *)
Definition streak_invariant (target_name : string) (td : target_data)
    (d : database) : Prop :=
  match consecutive_failures td with
  | 0 => open_incidents target_name d = []
  | S _ => exists r, open_incidents target_name d = [r] /\
                     current_incident_id td = Some (inc_id r) /\
                     inc_id r <> 0
  end.

(** The link as seen from outside, after any sequence of probes from the
    initial state of a target, over whatever the store holds when the loop
    starts. *)
Definition counter_tracks_open_incident
    (clock : nat -> Z) (db_up smtp_up : nat -> bool) (cfg : config) : Prop :=
  forall target_name tc w pings,
    (forall k, db_up k = true) ->
    let r := NetPulse.monitor_target clock db_up smtp_up cfg target_name pings
               (NetPulse.initial_target_data tc) w in
    (consecutive_failures r.1 = 0 <-> open_incidents target_name (db r.2) = []) /\
    length (open_incidents target_name (db r.2)) <= 1.

(** The status is [up] exactly when no failure is being counted. *)
Definition status_tracks_failures (td : target_data) : Prop :=
  status td = st_up <-> consecutive_failures td = 0.

(** The status of a target never changes while a streak lasts. *)
Definition status_fixed_within_streak
    (clock : nat -> Z) (db_up smtp_up : nat -> bool) (cfg : config) : Prop :=
  forall target_name ping td w,
    0 < consecutive_failures td ->
    status td = st_degraded \/ status td = st_down ->
    is_failure (latency_threshold cfg) (NetPulse.ping_target ping) = true ->
    status (NetPulse.monitor_target_iteration clock db_up smtp_up cfg
              target_name ping td w).1 = status td.

(** How many times the notifier (an SMTP session) has been called. *)
Definition notifier_calls (w : world) : nat := length (outbox w).

(** Other readings of the clock between two alerts. *)
Definition advance (n : nat) (w : world) : world :=
  {| clock_reads := clock_reads w + n; db_opens := db_opens w;
     db := db w; outbox := outbox w |}.

(** The alert [key] is in its cooldown at world [w]. *)
Definition in_cooldown (clock : nat -> Z) (cfg : config) (td : target_data)
    (key : string) (w : world) : Prop :=
  exists last_sent,
    last_email_sent td !! key = Some last_sent /\
    (total_seconds (clock (clock_reads w) - last_sent) < cooldown_seconds cfg)%Q.

(** The cooldown rule with nothing said about the configuration: in the
    cooldown no call, otherwise one call, and the time is recorded exactly
    when the call succeeds. *)
Definition cooldown_rule (clock : nat -> Z) (smtp_up : nat -> bool)
    (cfg : config) : Prop :=
  forall td target_name subject w,
    let key := NetPulse.email_key target_name subject in
    let r := NetPulse.send_email_alert clock smtp_up cfg td target_name subject w in
    (in_cooldown clock cfg td key w ->
       notifier_calls r.2 = notifier_calls w /\
       last_email_sent r.1 = last_email_sent td) /\
    (~ in_cooldown clock cfg td key w ->
       notifier_calls r.2 = S (notifier_calls w) /\
       (smtp_up (notifier_calls w) = true ->
          exists t, last_email_sent r.1 = <[key := t]> (last_email_sent td)) /\
       (smtp_up (notifier_calls w) = false ->
          last_email_sent r.1 = last_email_sent td)).

(** One call of [send_email_alert]: what it does in the cooldown and out
    of it.  The time recorded is the last reading of the clock, taken when
    the SMTP session has returned. *)
Definition alert_contract (clock : nat -> Z) (smtp_up : nat -> bool)
    (cfg : config) (td : target_data) (target_name subject : string)
    (w : world) : Prop :=
  let key := NetPulse.email_key target_name subject in
  let r := NetPulse.send_email_alert clock smtp_up cfg td target_name subject w in
  (in_cooldown clock cfg td key w ->
     notifier_calls r.2 = notifier_calls w /\ r.1 = td) /\
  (~ in_cooldown clock cfg td key w ->
     notifier_calls r.2 = S (notifier_calls w) /\
     (smtp_up (notifier_calls w) = true ->
        last_email_sent r.1 =
          <[key := clock (Nat.pred (clock_reads r.2))]> (last_email_sent td)) /\
     (smtp_up (notifier_calls w) = false -> r.1 = td)).

(** Three alerts of one key in a row, with [n1] and [n2] other readings
    of the clock in between; the worlds after each of them. *)
Definition three_alerts (clock : nat -> Z) (smtp_up : nat -> bool)
    (cfg : config) (td : target_data) (target_name subject : string)
    (n1 n2 : nat) (w : world) : (world * world) * world :=
  let r1 := NetPulse.send_email_alert clock smtp_up cfg td target_name subject w in
  let r2 := NetPulse.send_email_alert clock smtp_up cfg r1.1 target_name subject
              (advance n1 r1.2) in
  let r3 := NetPulse.send_email_alert clock smtp_up cfg r2.1 target_name subject
              (advance n2 r2.2) in
  (r1.2, r2.2, r3.2).

(** A first alert that is delivered, a second one inside the cooldown and
    a third one after it: one call after two alerts, two after three. *)
Definition cooldown_scenario (clock : nat -> Z) (smtp_up : nat -> bool)
    (cfg : config) (td : target_data) (target_name subject : string)
    (n1 n2 : nat) (w : world) : Prop :=
  let key := NetPulse.email_key target_name subject in
  let '(w1, w2, w3) :=
    three_alerts clock smtp_up cfg td target_name subject n1 n2 w in
  let t1 := clock (clock_reads w) in
  let t2 := clock (clock_reads (advance n1 w1)) in
  let t3 := clock (clock_reads (advance n2 w2)) in
  last_email_sent td !! key = None ->
  smtp_up (notifier_calls w) = true ->
  (total_seconds (t2 - t1) < cooldown_seconds cfg)%Q ->
  ~ (total_seconds (t3 - t1) < cooldown_seconds cfg)%Q ->
  notifier_calls w1 = S (notifier_calls w) /\
  notifier_calls w2 = S (notifier_calls w) /\
  notifier_calls w3 = S (S (notifier_calls w)).

(** The rows of [daily_reports] under one (target, date) key. *)
Definition report_key_rows (target_name : string) (report_date : Z)
    (d : database) : list daily_report_row :=
  filter (fun r => dr_target_name r = target_name /\ dr_report_date r = report_date)
         (daily_reports d).

(** A report without its rowid: the values the aggregation computes. *)
Definition report_values (r : daily_report_row) : daily_report_row :=
  {| dr_id := 0;
     dr_target_name := dr_target_name r;
     dr_report_date := dr_report_date r;
     dr_total_checks := dr_total_checks r;
     dr_successful_checks := dr_successful_checks r;
     dr_packet_loss_count := dr_packet_loss_count r;
     dr_avg_latency := dr_avg_latency r;
     dr_max_latency := dr_max_latency r;
     dr_min_latency := dr_min_latency r;
     dr_uptime_percentage := dr_uptime_percentage r;
     dr_incidents_count := dr_incidents_count r |}.

(** The aggregation as idempotent for every target of [self.targets], on
    the sole condition that the second run finds the probe results (and
    the reports) the first one left. *)
Definition reports_idempotent (clock : nat -> Z) (db_up : nat -> bool) : Prop :=
  forall (targets : list (string * target_data)) target_name w w',
    (forall k, db_up k = true) ->
    target_name ∈ targets.*1 ->
    let report_date := date_of (clock (clock_reads w)) in
    let w1 := (NetPulse.generate_daily_reports clock db_up targets w).2 in
    let w2 := (NetPulse.generate_daily_reports clock db_up targets w').2 in
    ping_results (db w') = ping_results (db w1) ->
    daily_reports (db w') = daily_reports (db w1) ->
    date_of (clock (clock_reads w')) = report_date ->
    exists r r',
      report_key_rows target_name report_date (db w1) = [r] /\
      report_key_rows target_name report_date (db w2) = [r'] /\
      report_values r' = report_values r.

(** The loop of [generate_daily_reports] when every transaction goes
    through. *)
Definition report_all (report_date : Z) (names : list string) (d : database)
    : database :=
  foldl (fun d n => NetPulse.report_target n report_date d) d names.

(** An oracle that never fails. *)
Definition always_up (k : nat) : bool := true.

(** ** A concrete setting

    Target "A", a threshold of 150 ms, a cooldown of 300 s, and a clock
    that advances one second per reading. *)
Module Sample.

Definition target_a : target_config :=
  {| tc_name := "A"; tc_ip := "192.0.2.1"; tc_enabled := Some true |}.

Definition cfg : config :=
  {| cfg_targets := [target_a];
     latency_threshold := 150;
     max_data_points := 1000;
     cooldown_seconds := 300;
     send_alerts := true;
     retention_days := 30 |}.

Definition cfg_alerts_off : config :=
  {| cfg_targets := [target_a];
     latency_threshold := 150;
     max_data_points := 1000;
     cooldown_seconds := 300;
     send_alerts := false;
     retention_days := 30 |}.

Definition clock (k : nat) : Z := (Z.of_nat k * us_per_second)%Z.

(** The same clock forty days later. *)
Definition late_clock (k : nat) : Z := (40 * us_per_day + clock k)%Z.

Definition td0 : target_data := NetPulse.initial_target_data target_a.

Definition w0 : world := initial_world empty_database.

(** Replies of 120 ms, 200 ms, 300 ms and 90 ms. *)
Definition reply_120 : ping_outcome := PingReply (120 # 1000).
Definition reply_200 : ping_outcome := PingReply (200 # 1000).
Definition reply_300 : ping_outcome := PingReply (300 # 1000).
Definition reply_90 : ping_outcome := PingReply (90 # 1000).

Definition run (pings : list ping_outcome) : target_data * world :=
  NetPulse.monitor_target clock always_up always_up cfg "A" pings td0 w0.

(** One healthy probe, then the streak of the first claim: two slow
    replies, one lost packet, one healthy reply. *)
Definition streak : list ping_outcome :=
  [reply_120; reply_200; reply_300; PingTimeout; reply_90].

(** A store that holds the probes of [streak]. *)
Definition probed : world := (run streak).2.

(** The same store forty days later, after one more healthy probe. *)
Definition aged : world :=
  (NetPulse.monitor_target late_clock always_up always_up cfg "A" [reply_90]
     (run streak).1 (run streak).2).2.

(** [self.targets] as [initialize_targets] builds it: target "A" alone. *)
Definition targets : list (string * target_data) := NetPulse.initialize_targets cfg.

(** Websocket clients 1, 2 and 3, of which 2 has gone away. *)
Definition clients : gset nat := {[1; 2; 3]}.

Definition send (client : nat) : NetPulse.send_outcome :=
  if client =? 2 then NetPulse.ConnectionClosed else NetPulse.Sent.

(** [f"{x:.0f}"]: round to the nearest integer, ties to even. *)
Definition round_half_even (x : Q) : Z :=
  let f := Qfloor x in
  match ((x - inject_Z f) ?= (1 # 2))%Q with
  | Lt => f
  | Gt => (f + 1)%Z
  | Eq => if Z.even f then f else (f + 1)%Z
  end.

Definition format_0f (x : Q) : string := pretty (round_half_even x).

Definition isp_cfg : ISP.isp_config :=
  {| ISP.target_ip := "192.0.2.1";
     ISP.latency_threshold := 150;
     ISP.cooldown_seconds := 30;
     ISP.send_every_failure := true;
     ISP.to_email_list := ["ops@example.org"%string] |}.

End Sample.

(** ** Notions used in the further properties of the monitoring loop *)

(** The number of failing readings at the head of a list, and at its end. *)
Fixpoint leading_failures (threshold : Q) (latencies : list (option Q)) : nat :=
  match latencies with
  | [] => 0
  | l :: rest =>
      if is_failure threshold l then S (leading_failures threshold rest) else 0
  end.

Definition trailing_failures (threshold : Q) (latencies : list (option Q)) : nat :=
  leading_failures threshold (reverse latencies).

(** The status text the loop gives to a reading. *)
Definition status_of_latency (threshold : Q) (latency : option Q) : probe_status :=
  match latency with
  | None => ST_PACKET_LOSS
  | Some l => if float_gtb l threshold then ST_HIGH_LATENCY l else ST_OK l
  end.

(** A row of [ping_results] without its rowid and its timestamp, and what
    the loop stores for a reading. *)
Definition ping_row_values (r : ping_row)
    : string * string * option Q * probe_status * nat :=
  (pr_target_name r, pr_target_ip r, pr_latency r, pr_status r, pr_packet_loss r).

Definition stored_values (threshold : Q) (target_name target_ip : string)
    (latency : option Q) : string * string * option Q * probe_status * nat :=
  (target_name, target_ip, latency, status_of_latency threshold latency,
   match latency with None => 1 | Some _ => 0 end).

(** An oracle that always fails. *)
Definition never_up (k : nat) : bool := false.

(** The kind of the incident a failing reading opens. *)
Definition kind_of_latency (latency : option Q) : incident_kind :=
  match latency with
  | None => PACKET_LOSS_INCIDENT
  | Some _ => HIGH_LATENCY_INCIDENT
  end.

(** The kinds of the incidents a list of readings opens: one for each
    failing reading that follows a healthy one (or starts the list, when
    [in_streak] is false). *)
Fixpoint streak_kinds (threshold : Q) (in_streak : bool)
    (latencies : list (option Q)) : list incident_kind :=
  match latencies with
  | [] => []
  | l :: rest =>
      if is_failure threshold l then
        (if in_streak then [] else [kind_of_latency l])
          ++ streak_kinds threshold true rest
      else streak_kinds threshold false rest
  end.


(** Whether a streak is running after a list of readings. *)
Fixpoint streak_open (threshold : Q) (in_streak : bool)
    (latencies : list (option Q)) : bool :=
  match latencies with
  | [] => in_streak
  | l :: rest => streak_open threshold (is_failure threshold l) rest
  end.

(** The incidents [new] a target has got since the loop started, after
    the rows [old] that were in the table: all of them are resolved but
    the last one while a streak is running, which is the one the target
    holds the id of. *)
Definition streak_rows (td : target_data) (old new : list incident_row) : Prop :=
  match consecutive_failures td with
  | 0 => Forall (fun r => inc_resolved r = true) new
  | S _ =>
      exists rows r0,
        new = rows ++ [r0] /\
        Forall (fun r => inc_resolved r = true) rows /\
        inc_resolved r0 = false /\
        current_incident_id td = Some (inc_id r0) /\
        inc_id r0 <> 0 /\
        Forall (fun r => inc_id r < inc_id r0) (old ++ rows)
  end.

(** The subject of the alert the loop sends for a reading: a failure
    alert for a failing reading, the recovery alert for a healthy one. *)
Definition alert_subject (threshold : Q) (target_name : string)
    (latency : option Q) : string :=
  match latency with
  | None => "PACKET LOSS: " +:+ target_name
  | Some l =>
      if float_gtb l threshold then "HIGH LATENCY: " +:+ target_name
      else "RECOVERED: " +:+ target_name
  end.

(** ** [websocket_handler]

    The handler adds the client to [self.websocket_clients] when the
    connection is made, waits until it is closed, and then runs its
    [finally] block. *)
Module Websocket.

(** [self.websocket_clients.add(websocket)] *)
Definition handler_connect (websocket : nat) (websocket_clients : gset nat)
    : gset nat :=
  {[websocket]} ∪ websocket_clients.

(** [self.websocket_clients.remove(websocket)] in the [finally] block:
    [set.remove] raises [KeyError] ([None]) for an element that is not in
    the set. *)
Definition handler_finally (websocket : nat) (websocket_clients : gset nat)
    : option (gset nat) :=
  if decide (websocket ∈ websocket_clients)
  then Some (websocket_clients ∖ {[websocket]})
  else None.

End Websocket.

(** Whether a send went through can be tested. *)
#[global] Instance send_outcome_eq_dec : EqDecision NetPulse.send_outcome.
Proof. solve_decision. Defined.

(** ** [stop_monitoring]

    Once the monitoring threads have been told to stop, the final reports
    are written and the old data is pruned. *)
Module Lifecycle.
Section Stop.

Variable clock : nat -> Z.
Variable db_up : nat -> bool.
Variable cfg : config.

Definition stop_monitoring (targets : list (string * target_data)) : M unit :=
  perform NetPulse.generate_daily_reports clock db_up targets;
  NetPulse.cleanup_old_data clock db_up cfg.

End Stop.
End Lifecycle.

(** ** Notions used in the properties of the reports *)

(** The loss flag of a stored probe agrees with its latency, as in every
    row [store_ping_result] writes. *)
Definition loss_flag_consistent (r : ping_row) : Prop :=
  pr_packet_loss r = match pr_latency r with None => 1 | Some _ => 0 end.

(** An oracle that fails at its [n]-th use only. *)
Definition up_except (n : nat) (k : nat) : bool := negb (k =? n).

(** Two targets, for the loops that go over [self.targets]. *)
Module SamplePair.

Definition target_b : target_config :=
  {| tc_name := "B"; tc_ip := "192.0.2.2"; tc_enabled := None |}.

Definition cfg : config :=
  {| cfg_targets := [Sample.target_a; target_b];
     latency_threshold := 150;
     max_data_points := 1000;
     cooldown_seconds := 300;
     send_alerts := true;
     retention_days := 30 |}.

Definition targets : list (string * target_data) := NetPulse.initialize_targets cfg.

End SamplePair.

(** ** [load_config] and [merge_dicts] (the same in both programs) *)

Module Config.

#[local] Set Warnings "-register-all".

(** What [json.load] gives back.  A [dict] keeps its keys in the order
    of the file. *)
Inductive json :=
  | JNull
  | JBool (b : bool)
  | JInt (n : Z)
  | JFloat (q : Q)
  | JStr (s : string)
  | JList (l : list json)
  | JDict (d : list (string * json)).

(** [d.get(k)] on an insertion-ordered dict; [None] when [k not in d]. *)
Fixpoint dict_get {A} (k : string) (d : list (string * A)) : option A :=
  match d with
  | [] => None
  | (k', v) :: rest => if String.eqb k' k then Some v else dict_get k rest
  end.

(** [isinstance(v, dict)] *)
Definition is_dict (v : json) : bool :=
  match v with
  | JDict _ => true
  | _ => false
  end.

(** What one pass through the body of the loop of [merge_dicts] leaves
    under [key], for the value [old] that was there and the [value] of
    [dict2]: the merged dict when both are dicts, [value] otherwise. *)
Fixpoint merge_value (old : option json) (value : json) {struct value} : json :=
  match old, value with
  | Some (JDict dict1), JDict dict2 =>
      JDict
        ((fix merge_dicts (dict1 dict2 : list (string * json)) {struct dict2} :=
            match dict2 with
            | [] => dict1
            | (key, value) :: rest =>
                merge_dicts
                  (NetPulse.dict_set key (merge_value (dict_get key dict1) value)
                     dict1)
                  rest
            end) dict1 dict2)
  | _, _ => value
  end.

(** [merge_dicts(dict1, dict2)]: [dict1] after the call. *)
Fixpoint merge_dicts (dict1 dict2 : list (string * json)) {struct dict2}
    : list (string * json) :=
  match dict2 with
  | [] => dict1
  | (key, value) :: rest =>
      merge_dicts
        (NetPulse.dict_set key (merge_value (dict_get key dict1) value) dict1)
        rest
  end.

(** What [load_config] finds under [self.config_file]. *)
Inductive config_file :=
  | NoFile                       (* [os.path.exists] is false *)
  | Unreadable                   (* [open] or [json.load] raises *)
  | Parsed (user_config : json).

(** [load_config]: [self.config], and what is written to the file.  A
    parsed value that is not a dict makes [dict2.items()] raise before
    anything is merged, and the [except] keeps the defaults. *)
Definition load_config (default_config : list (string * json))
    (file : config_file) : list (string * json) * option (list (string * json)) :=
  match file with
  | NoFile => (default_config, Some default_config)
  | Unreadable => (default_config, None)
  | Parsed (JDict user_config) => (merge_dicts default_config user_config, None)
  | Parsed _ => (default_config, None)
  end.

(** The defaults of [netpulse_monitor.py]. *)
Definition netpulse_default_config : list (string * json) :=
  [("targets",
    JList [JDict [("name", JStr "Primary ISP"); ("ip", JStr "139.167.129.22");
                  ("description", JStr "Main ISP connection");
                  ("enabled", JBool true)];
           JDict [("name", JStr "Google DNS"); ("ip", JStr "8.8.8.8");
                  ("description", JStr "Google Public DNS");
                  ("enabled", JBool true)];
           JDict [("name", JStr "Cloudflare DNS"); ("ip", JStr "1.1.1.1");
                  ("description", JStr "Cloudflare Public DNS");
                  ("enabled", JBool true)]]);
   ("monitoring",
    JDict [("latency_threshold", JInt 150); ("check_interval", JInt 2);
           ("ping_timeout", JInt 5); ("max_data_points", JInt 1000);
           ("report_generation_interval", JInt 3600)]);
   ("email",
    JDict [("smtp_server", JStr "smtp.gmail.com"); ("smtp_port", JInt 587);
           ("from_email", JStr "mohammed.abdul@techolution.com");
           ("to_email", JStr "mohammed.abdul@techolution.com");
           ("username", JStr "mohammed.abdul@techolution.com");
           ("password", JStr "vlzz kqqr mhfp wvui");
           ("cooldown_seconds", JInt 300); ("send_alerts", JBool true)]);
   ("database",
    JDict [("path", JStr "/app/data/netpulse.db"); ("retention_days", JInt 30)]);
   ("api",
    JDict [("websocket_port", JInt 8765); ("data_broadcast_interval", JInt 1)]);
   ("reports",
    JDict [("daily_summary_time", JStr "09:00");
           ("incident_threshold_minutes", JInt 5)])]%string.

(** The defaults of [isp_monitor.py]. *)
Definition isp_default_config : list (string * json) :=
  [("target_ip", JStr "139.167.129.22");
   ("latency_threshold", JInt 150);
   ("check_interval", JInt 2);
   ("ping_timeout", JInt 5);
   ("email",
    JDict [("smtp_server", JStr "smtp.gmail.com"); ("smtp_port", JInt 587);
           ("from_email", JStr "mohammed.abdul@techolution.com");
           ("to_email", JStr "mohammed.abdul@techolution.com");
           ("username", JStr "mohammed.abdul@techolution.com");
           ("password", JStr "vlzz kqqr mhfp wvui");
           ("cooldown_seconds", JInt 30); ("send_every_failure", JBool true)]);
   ("logging",
    JDict [("log_file", JStr "isp_monitor.log");
           ("csv_file", JStr "packet_loss_log.csv");
           ("detailed_csv", JStr "detailed_monitor_log.csv");
           ("log_level", JStr "INFO")]);
   ("graphs",
    JDict [("enable_realtime", JBool false); ("save_graphs", JBool true);
           ("graph_update_interval", JInt 5); ("graph_window_hours", JInt 1)])]%string.

(** [config[k1][k2]...]: [None] where Python raises [KeyError] or
    [TypeError]. *)
Fixpoint get_path (path : list string) (v : json) : option json :=
  match path with
  | [] => Some v
  | k :: rest =>
      match v with
      | JDict d =>
          match dict_get k d with
          | Some v' => get_path rest v'
          | None => None
          end
      | _ => None
      end
  end.

(** A value as [json.load] builds it: no dict has a key twice. *)
Inductive wf_json : json -> Prop :=
  | wf_JNull : wf_json JNull
  | wf_JBool b : wf_json (JBool b)
  | wf_JInt n : wf_json (JInt n)
  | wf_JFloat q : wf_json (JFloat q)
  | wf_JStr s : wf_json (JStr s)
  | wf_JList l : Forall wf_json l -> wf_json (JList l)
  | wf_JDict d :
      NoDup d.*1 -> Forall (fun kv => wf_json kv.2) d -> wf_json (JDict d).

(** The user's file says nothing about [path]: on the way down it has a
    dict without the next key. *)
Fixpoint unmentioned (path : list string) (user : json) : Prop :=
  match path, user with
  | k :: rest, JDict d =>
      match dict_get k d with
      | Some v => unmentioned rest v
      | None => True
      end
  | _, _ => False
  end.

(** A user file that raises the latency threshold and nothing else. *)
Definition sample_user_config : json :=
  JDict [("monitoring", JDict [("latency_threshold", JInt 250)])]%string.

End Config.

(** ** The loop of [isp_monitor.py] *)

Module ISPLoop.
Section Loop.

Variable clock : nat -> Z.
Variable smtp_up : nat -> bool.
Variable cfg : ISP.isp_config.
Variable format_0f : Q -> string.

(** The [while] loop of [start_monitoring], run for as long as there are
    ping outcomes to consume. *)
Fixpoint monitoring_loop (pings : list ping_outcome) (m : ISP.monitor)
    : M ISP.monitor :=
  match pings with
  | [] => ret m
  | ping :: rest =>
      do m <- ISP.check_connectivity clock smtp_up cfg format_0f ping m;
      monitoring_loop rest m
  end.

(** [start_monitoring]: the startup notification, whose text shows the
    time, and then the loop.  The thread that draws the graphs only reads
    the state and is left out. *)
Definition start_monitoring (pings : list ping_outcome) (m : ISP.monitor)
    : M ISP.monitor :=
  perform ISP.now clock;
  do '(_, m) <-
    ISP.send_email clock smtp_up cfg ("ISP Monitor Started - " +:+ ISP.target_ip cfg) m;
  monitoring_loop pings m.

End Loop.
End ISPLoop.

(** ** Notions used in the properties of the older program *)

(** The note and the status code [check_connectivity] logs for a reading,
    its loss flag, and the failure counters of a list of readings, one
    after each reading. *)
Definition isp_note (threshold : Q) (latency : option Q) : string :=
  match latency with
  | None => "PACKET_LOSS"
  | Some l => if float_gtb l threshold then "HIGH_LATENCY" else "OK"
  end.

Definition isp_status_code (threshold : Q) (latency : option Q) : nat :=
  match latency with
  | None => 0
  | Some l => if float_gtb l threshold then 2 else 1
  end.

Definition loss_flag (latency : option Q) : nat :=
  match latency with
  | None => 1
  | Some _ => 0
  end.

Fixpoint running_failures (threshold : Q) (failures : nat)
    (latencies : list (option Q)) : list nat :=
  match latencies with
  | [] => []
  | l :: rest =>
      let failures := if is_failure threshold l then S failures else 0 in
      failures :: running_failures threshold failures rest
  end.

(** The older program right after a first alert has been delivered. *)
Definition after_first_alert : bool * ISP.monitor * world :=
  ISP.send_email Sample.clock always_up Sample.isp_cfg
    "URGENT: Packet Loss at 192.0.2.1 - Failure #1" ISP.initial_monitor Sample.w0.

(** ** Python's [str] methods

    The methods of [str] the two programs use on addresses and log lines.
    A string is a sequence of characters with code points below 256. *)

Module Text.

(** [c.isspace()] *)
Definition isspace (c : ascii) : bool :=
  let n := nat_of_ascii c in
  ((9 <=? n) && (n <=? 13)) || ((28 <=? n) && (n <=? 32)) || (n =? 133) || (n =? 160).

(** [s.lstrip(...)] and [s.rstrip(...)], the characters to remove being
    given by a test. *)
Fixpoint lstrip (p : ascii -> bool) (s : string) : string :=
  match s with
  | EmptyString => EmptyString
  | String c rest => if p c then lstrip p rest else s
  end.

Fixpoint rstrip (p : ascii -> bool) (s : string) : string :=
  match s with
  | EmptyString => EmptyString
  | String c rest =>
      match rstrip p rest with
      | EmptyString => if p c then EmptyString else String c EmptyString
      | r => String c r
      end
  end.

(** [s.strip()] and [s.strip(ch)] for a single character [ch] *)
Definition strip (s : string) : string := lstrip isspace (rstrip isspace s).

Definition strip_char (ch : ascii) (s : string) : string :=
  lstrip (Ascii.eqb ch) (rstrip (Ascii.eqb ch) s).

(** [ch in s] *)
Fixpoint contains (ch : ascii) (s : string) : bool :=
  match s with
  | EmptyString => false
  | String c rest => Ascii.eqb c ch || contains ch rest
  end.

(** [s.split(ch)] *)
Fixpoint split (ch : ascii) (s : string) : list string :=
  match s with
  | EmptyString => [EmptyString]
  | String c rest =>
      if Ascii.eqb c ch then EmptyString :: split ch rest
      else match split ch rest with
           | piece :: pieces => String c piece :: pieces
           | [] => [String c EmptyString]
           end
  end.

(** [sep.join(l)] *)
Fixpoint join (sep : string) (l : list string) : string :=
  match l with
  | [] => EmptyString
  | [s] => s
  | s :: rest => s +:+ sep +:+ join sep rest
  end.

(** [l[k:]] *)
Definition slice_from {A} (k : Z) (l : list A) : list A :=
  let len := Z.of_nat (length l) in
  drop (Z.to_nat (if (k <? 0)%Z then Z.max (len + k) 0 else k)) l.

(** The double quote and the line feed. *)
Definition double_quote : ascii := "034"%char.
Definition line_feed : ascii := "010"%char.

End Text.

(** ** The recipients of the mails *)

Module Mail.

(** [parse_email_recipients] of [isp_monitor.py], for a [to_email] that
    is a string. *)
Definition parse_email_recipients (email_config : string) : list string :=
  if String.eqb email_config "" then []
  else
    let email_str := Text.strip email_config in
    let email_list :=
      if Text.contains "," email_str then
        Text.strip <$> Text.split "," email_str
      else if Text.contains ";" email_str then
        Text.strip <$> Text.split ";" email_str
      else [email_str] in
    filter (fun email => email <> EmptyString /\ Text.contains "@" email = true)
      ((fun email =>
          Text.strip_char "'" (Text.strip_char Text.double_quote (Text.strip email)))
         <$> email_list).

(** [to_emails] in [send_email_alert] of [netpulse_monitor.py]:
    [[email.strip() for email in to_email.split(',')]]. *)
Definition to_emails (to_email : string) : list string :=
  Text.strip <$> Text.split "," to_email.

(** The characters that are stripped from the ends of an address. *)
Definition stripped (c : ascii) : bool :=
  Text.isspace c || Ascii.eqb Text.double_quote c || Ascii.eqb "'" c.

Definition starts_well (p : ascii -> bool) (s : string) : Prop :=
  match s with
  | EmptyString => False
  | String c _ => p c = false
  end.

Fixpoint ends_well (p : ascii -> bool) (s : string) : Prop :=
  match s with
  | EmptyString => False
  | String c EmptyString => p c = false
  | String _ rest => ends_well p rest
  end.

(** An address as it is meant to be written: with an [@], without comma
    or semicolon, and with nothing to strip at its ends. *)
Definition plain_address (a : string) : Prop :=
  starts_well stripped a /\ ends_well stripped a /\
  Text.contains "@" a = true /\
  Text.contains "," a = false /\ Text.contains ";" a = false.

End Mail.

(** ** Reading the log back *)

Module Logs.

(** [get_last_results]: [csv] is what [f.readlines()] gives, [None] when
    the file cannot be read. *)
Definition get_last_results (count : Z) (csv : option (list string)) : string :=
  match csv with
  | Some lines =>
      let last_lines :=
        if (count <? Z.of_nat (length lines))%Z
        then Text.slice_from (- count) lines
        else Text.slice_from 1 lines in
      Text.join (String Text.line_feed EmptyString) (Text.strip <$> last_lines)
  | None => "No previous results available"
  end.

End Logs.

(** The older program with a recipient field that holds no address. *)
Definition isp_cfg_no_address : ISP.isp_config :=
  {| ISP.target_ip := "192.0.2.1";
     ISP.latency_threshold := 150;
     ISP.cooldown_seconds := 30;
     ISP.send_every_failure := true;
     ISP.to_email_list := Mail.parse_email_recipients "ops.example.org" |}.

(** ** [update_graphs] of [isp_monitor.py]

    What the method selects for drawing; the drawing itself and the text
    of the statistics panel are left out. *)

Module Graphs.

Record series := {
  recent_times : list Z;
  recent_latencies : list Q;
  recent_packet_loss : list nat;
  recent_status : list nat
}.

(** The method returns early, fails with an exception that is logged, or
    draws. *)
Inductive update := NotDrawn | GraphError | Drawn (s : series).

(** [xs[::step]] for a positive [step], after [skip] elements to pass
    over first. *)
Fixpoint every {A} (step skip : nat) (xs : list A) : list A :=
  match xs with
  | [] => []
  | x :: rest =>
      match skip with
      | 0 => x :: every step (step - 1) rest
      | S skip => every step skip rest
      end
  end.

(** [[xs[i] for i in indices]]: [None] for an [IndexError]. *)
Definition pick {A} (indices : list nat) (xs : list A) : option (list A) :=
  mapM (fun i => xs !! i) indices.

(** The block that limits the number of points, for [n] recent points. *)
Definition limit_points {A} (n : nat) (xs : list A) : list A :=
  if 100 <? n then every (n / 100) 0 xs else xs.

(** [timedelta(hours=h)] *)
Definition timedelta_hours (h : Z) : Z := (h * 3600 * us_per_second)%Z.

Definition update_graphs (clock : nat -> Z) (graph_window_hours : Z)
    (m : ISP.monitor) : M update :=
  if length (ISP.timestamps m) <? 2 then ret NotDrawn
  else
    do t <- NetPulse.now clock;
    let cutoff_time := (t - timedelta_hours graph_window_hours)%Z in
    let recent_indices :=
      (filter (fun p => (cutoff_time <= p.2)%Z)
              (imap (fun i ts => (i, ts)) (ISP.timestamps m))).*1 in
    match recent_indices with
    | [] => ret NotDrawn
    | _ =>
        match pick recent_indices (ISP.timestamps m),
              pick recent_indices (ISP.latencies m),
              pick recent_indices (ISP.packet_loss m),
              pick recent_indices (ISP.status_codes m) with
        | Some times, Some latencies, Some packet_loss, Some status =>
            let n := length times in
            ret (Drawn {| recent_times := limit_points n times;
                          recent_latencies := limit_points n latencies;
                          recent_packet_loss := limit_points n packet_loss;
                          recent_status := limit_points n status |})
        | _, _, _, _ => ret GraphError
        end
    end.

End Graphs.

(** ** Starting again over an old database *)

(** The database is a file that outlives the process; [initialize_targets]
    gives every target a new state whatever the file holds, and
    [stop_monitoring] writes the reports and deletes old rows without
    closing any incident. *)
Module Restart.

(** The store that a run leaves which is stopped, in good order, after one
    lost packet. *)
Definition stopped : world :=
  (Lifecycle.stop_monitoring Sample.clock always_up Sample.cfg Sample.targets
     (Sample.run [PingTimeout]).2).2.

(** The next process: the loop of target "A" from its initial state, over
    that store. *)
Definition run (pings : list ping_outcome) : target_data * world :=
  NetPulse.monitor_target Sample.clock always_up always_up Sample.cfg "A" pings
    (NetPulse.initial_target_data Sample.target_a) stopped.

End Restart.

(** ** An incident between two runs of the aggregation *)

Module Rerun.

(** The store after a first run of the aggregation over the probes of
    [Sample.streak]. *)
Definition w1 : world :=
  (NetPulse.generate_daily_reports Sample.clock always_up Sample.targets
     Sample.probed).2.

(** The loop of the target then opens an incident; no probe result has
    been stored since the first run. *)
Definition w' : world :=
  (NetPulse.start_incident Sample.clock always_up "A" "192.0.2.1"
     PACKET_LOSS_INCIDENT w1).2.

(** The store after the second run. *)
Definition w2 : world :=
  (NetPulse.generate_daily_reports Sample.clock always_up Sample.targets w').2.

End Rerun.

(** ** [broadcast_data] while the handlers run

    [broadcast_data] and the [websocket_handler] of every connection are
    tasks of one event loop.  While [broadcast_data] is suspended in
    [await client.send(...)] a handler may run: a new connection adds
    itself to [self.websocket_clients], a closed one removes itself in its
    [finally] block.  The [for] loop iterates over the set itself, not
    over a copy, and a set iterator raises [RuntimeError] (Set changed
    size during iteration) when it finds the set with another size than
    it had when the loop began.  That is outside the [try] around the
    send, and outside any other: the exception leaves [broadcast_data],
    whose task ends with it. *)
Module Broadcaster.

(** What a handler does to the set when it gets to run. *)
Inductive handler_step :=
  | Connects (websocket : nat)   (* a new connection: [add] *)
  | Closes (websocket : nat).    (* [wait_closed] has returned: [remove] *)

(** The set, and whether it has been modified since the [for] loop began.
    [KeyError] from [remove] is raised in the task of the handler and
    leaves the set as it was. *)
Definition handler_run (live : gset nat * bool) (step : handler_step)
    : gset nat * bool :=
  match step with
  | Connects websocket =>
      (Websocket.handler_connect websocket live.1,
       live.2 || bool_decide (websocket ∉ live.1))
  | Closes websocket =>
      match Websocket.handler_finally websocket live.1 with
      | Some websocket_clients => (websocket_clients, true)
      | None => live
      end
  end.

(** How a pass through [for client in self.websocket_clients] ends. *)
Inductive cycle_outcome :=
    (* the loop went through all clients and the disconnected ones were
       taken out: the set afterwards, and the messages that went out *)
  | Completed (websocket_clients : gset nat)
              (sent : list (nat * NetPulse.dashboard))
    (* [RuntimeError]: the set as the handlers left it, nothing taken out,
       and the messages that had gone out before *)
  | SetChangedSize (websocket_clients : gset nat)
                   (sent : list (nat * NetPulse.dashboard))
    (* the set was modified and has its old size again: which clients the
       iterator still yields depends on the hash table of the set, which
       is not modelled *)
  | OrderUnknown.

Section Cycle.

Variable round2 : Q -> Q.
Variable send : nat -> NetPulse.send_outcome.

(** [during client]: the handlers that run while the send to [client] is
    awaited (none if the send does not suspend). *)
Variable during : nat -> list handler_step.

(** The [for] loop from one [next()] of the iterator on: [size_at_start]
    is the size of the set when the loop began, [rest] the clients the
    iterator has not yielded yet, [acc] holds [disconnected_clients] and
    the messages sent so far. *)
Fixpoint send_loop (msg : NetPulse.dashboard) (size_at_start : nat)
    (rest : list nat) (live : gset nat * bool)
    (acc : gset nat * list (nat * NetPulse.dashboard)) : cycle_outcome :=
  if decide (size live.1 = size_at_start) then
    if live.2 then OrderUnknown
    else
      match rest with
      | [] => Completed (live.1 ∖ acc.1) acc.2
      | client :: rest =>
          send_loop msg size_at_start rest
            (foldl handler_run live (during client))
            (NetPulse.send_to_client send msg acc client)
      end
  else SetChangedSize live.1 acc.2.

(** One pass through the body of [while self.is_running], up to the
    sleep. *)
Definition broadcast_cycle (t : Z) (targets : list (string * target_data))
    (websocket_clients : gset nat) : cycle_outcome :=
  if decide (websocket_clients = ∅) then Completed websocket_clients []
  else
    send_loop (NetPulse.dashboard_data round2 t targets)
      (size websocket_clients) (elements websocket_clients)
      (websocket_clients, false) (∅, []).

End Cycle.

(** What one pass meets: the time, the targets as they are, how each send
    ends, the handlers that run during each send, and the handlers that
    run during the [asyncio.sleep] after it. *)
Record pass := {
  pass_time : Z;
  pass_targets : list (string * target_data);
  pass_send : nat -> NetPulse.send_outcome;
  pass_during : nat -> list handler_step;
  pass_sleep : list handler_step
}.

(** [broadcast_data]: one pass after the other, as long as no exception
    leaves the loop.  ([is_running] stays true for the length of the
    list.) *)
Fixpoint broadcast_data (round2 : Q -> Q) (passes : list pass)
    (websocket_clients : gset nat) : list cycle_outcome :=
  match passes with
  | [] => []
  | p :: passes =>
      let outcome :=
        broadcast_cycle round2 (pass_send p) (pass_during p) (pass_time p)
          (pass_targets p) websocket_clients in
      outcome ::
      match outcome with
      | Completed websocket_clients _ =>
          broadcast_data round2 passes
            (foldl handler_run (websocket_clients, false) (pass_sleep p)).1
      | _ => []
      end
  end.

(** The handlers leave the set alone. *)
Definition quiet (websocket_clients : gset nat) (steps : list handler_step)
    : Prop :=
  foldl handler_run (websocket_clients, false) steps = (websocket_clients, false).

End Broadcaster.

(** Clients 1, 2 and 3 again, whom the loop meets in the order 2, 3, 1.
    The connection of client 2 has closed, and its handler gets to run
    while the send to client 3 is awaited. *)
Module Closing.

Definition during (client : nat) : list Broadcaster.handler_step :=
  if client =? 3 then [Broadcaster.Closes 2] else [].

Definition first_pass : Broadcaster.pass :=
  {| Broadcaster.pass_time := 0;
     Broadcaster.pass_targets := Sample.targets;
     Broadcaster.pass_send := Sample.send;
     Broadcaster.pass_during := during;
     Broadcaster.pass_sleep := [] |}.

(** A later pass, in which nothing goes wrong. *)
Definition later_pass : Broadcaster.pass :=
  {| Broadcaster.pass_time := 5000000;
     Broadcaster.pass_targets := Sample.targets;
     Broadcaster.pass_send := fun _ => NetPulse.Sent;
     Broadcaster.pass_during := fun _ => [];
     Broadcaster.pass_sleep := [] |}.

End Closing.

(** ** The two logs of [isp_monitor.py] when a write fails

    [log_to_csv] opens and writes each of its two files inside a [try] of
    its own, whose [except] only logs the error: a write that fails
    leaves its file without the row, and everything else goes on. *)
Module ISPFiles.
Section Files.

Variable clock : nat -> Z.
Variable smtp_up : nat -> bool.
Variable cfg : ISP.isp_config.
Variable format_0f : Q -> string.

(** [csv_up k] and [detailed_up k]: whether the plain and the detailed log
    can be opened and written during the [k]-th check of the run. *)
Variable csv_up : nat -> bool.
Variable detailed_up : nat -> bool.

Definition log_to_csv (st : string) (latency : option Q) (notes : string)
    (m : ISP.monitor) : M ISP.monitor :=
  do timestamp <- ISP.now clock;
  let csv_file :=
    if csv_up (ISP.total_checks m) then
      ISP.csv_file m ++
        [{| ISP.csv_timestamp := timestamp; ISP.csv_status := st |}]
    else ISP.csv_file m in
  let detailed_csv :=
    if detailed_up (ISP.total_checks m) then
      ISP.detailed_csv m ++
        [{| ISP.det_timestamp := timestamp;
            ISP.det_latency_ms := ISP.latency_or_zero latency;
            ISP.det_status := st;
            ISP.det_consecutive_failures := ISP.consecutive_failures m;
            ISP.det_notes := notes |}]
    else ISP.detailed_csv m in
  let status_code :=
    match latency with
    | None => 0
    | Some l => if float_gtb l (ISP.latency_threshold cfg) then 2 else 1
    end in
  let packet_loss_val := match latency with None => 1 | Some _ => 0 end in
  ret {| ISP.consecutive_failures := ISP.consecutive_failures m;
         ISP.total_checks := ISP.total_checks m;
         ISP.last_email_sent := ISP.last_email_sent m;
         ISP.first_failure_time := ISP.first_failure_time m;
         ISP.timestamps :=
           deque_append ISP.max_data_points timestamp (ISP.timestamps m);
         ISP.latencies :=
           deque_append ISP.max_data_points (ISP.latency_or_zero latency)
             (ISP.latencies m);
         ISP.packet_loss :=
           deque_append ISP.max_data_points packet_loss_val (ISP.packet_loss m);
         ISP.status_codes :=
           deque_append ISP.max_data_points status_code (ISP.status_codes m);
         ISP.csv_file := csv_file;
         ISP.detailed_csv := detailed_csv |}.

(** [check_connectivity], as in [ISP], over this [log_to_csv]. *)
Definition check_connectivity (ping : ping_outcome) (m : ISP.monitor)
    : M ISP.monitor :=
  let m := ISP.set_total_checks (S (ISP.total_checks m)) m in
  let latency := ISP.ping_target ping in
  perform ISP.now clock;
  if opt_float_truthy latency then
    let l := default 0%Q latency in
    let st := ISP.format_ping_result cfg format_0f latency in
    if float_gtb l (ISP.latency_threshold cfg) then
      do m <-
        (if ISP.consecutive_failures m =? 0 then
           do t <- ISP.now clock;
           ret (ISP.set_failures (ISP.consecutive_failures m) (Some t) m)
         else ret m);
      let m := ISP.set_failures (S (ISP.consecutive_failures m))
                 (ISP.first_failure_time m) m in
      do m <- log_to_csv st latency "HIGH_LATENCY" m;
      perform (match ISP.first_failure_time m with
               | Some _ => perform ISP.now clock; ret tt
               | None => ret tt
               end);
      perform ISP.now clock;
      do '(_, m) <-
        ISP.send_email clock smtp_up cfg
          ("HIGH LATENCY: " +:+ ISP.target_ip cfg +:+ " - " +:+ format_0f l
             +:+ "ms (Issue #" +:+ pretty (ISP.consecutive_failures m) +:+ ")") m;
      ret m
    else
      do m <-
        (if 0 <? ISP.consecutive_failures m then
           perform ISP.now clock;
           do '(_, m) <-
             ISP.send_email clock smtp_up cfg
               ("RESOLVED: Network Recovered at " +:+ ISP.target_ip cfg) m;
           ret (ISP.set_failures 0 None m)
         else ret m);
      log_to_csv st latency "OK" m
  else
    do m <-
      (if ISP.consecutive_failures m =? 0 then
         do t <- ISP.now clock;
         ret (ISP.set_failures (ISP.consecutive_failures m) (Some t) m)
       else ret m);
    let m := ISP.set_failures (S (ISP.consecutive_failures m))
               (ISP.first_failure_time m) m in
    let st := ISP.format_ping_result cfg format_0f None in
    do m <- log_to_csv st None "PACKET_LOSS" m;
    perform (match ISP.first_failure_time m with
             | Some _ => perform ISP.now clock; ret tt
             | None => ret tt
             end);
    perform ISP.now clock;
    do '(_, m) <-
      ISP.send_email clock smtp_up cfg
        ("URGENT: Packet Loss at " +:+ ISP.target_ip cfg +:+ " - Failure #"
           +:+ pretty (ISP.consecutive_failures m)) m;
    ret m.

(** The [while] loop of [start_monitoring], as [ISPLoop.monitoring_loop]. *)
Fixpoint monitoring_loop (pings : list ping_outcome) (m : ISP.monitor)
    : M ISP.monitor :=
  match pings with
  | [] => ret m
  | ping :: rest =>
      do m <- check_connectivity ping m;
      monitoring_loop rest m
  end.

End Files.
End ISPFiles.

(** Of the rows of the checks after the [k]-th, in order, those whose
    write goes through. *)
Fixpoint written {A} (up : nat -> bool) (k : nat) (rows : list A) : list A :=
  match rows with
  | [] => []
  | row :: rows => (if up (S k) then [row] else []) ++ written up (S k) rows
  end.

(** The row of the plain log that goes with a row of the detailed one. *)
Definition plain_row (row : ISP.detailed_row) : ISP.csv_row :=
  {| ISP.csv_timestamp := ISP.det_timestamp row;
     ISP.csv_status := ISP.det_status row |}.

(** A disk on which the detailed log cannot be written during the second
    check. *)
Definition detailed_fails_once : nat -> bool := up_except 2.
(** * Properties *)

(** ** Comparing floats *)

Lemma float_gtb_true (x y : Q) : float_gtb x y = true <-> (y < x)%Q.
Proof.
  unfold float_gtb, float_ltb. rewrite negb_true_iff.
  split.
  - intros H. apply Qnot_le_lt. intros Hle. apply Qle_bool_iff in Hle. congruence.
  - intros H. destruct (Qle_bool x y) eqn:E; [|reflexivity].
    apply Qle_bool_iff in E. exfalso. eapply Qlt_not_le; eauto.
Qed.

Lemma float_gtb_false (x y : Q) : float_gtb x y = false <-> (x <= y)%Q.
Proof.
  unfold float_gtb, float_ltb. rewrite negb_false_iff. apply Qle_bool_iff.
Qed.

Lemma float_ltb_true (x y : Q) : float_ltb x y = true <-> (x < y)%Q.
Proof. apply (float_gtb_true y x). Qed.

Lemma float_ltb_false (x y : Q) : float_ltb x y = false <-> ~ (x < y)%Q.
Proof.
  rewrite <- float_ltb_true. destruct (float_ltb x y); split; congruence.
Qed.


(** ** Running the computations *)

Ltac unfold_monad :=
  cbv [bind ret get_db put_db NetPulse.now NetPulse.db_connect NetPulse.smtp_session].

(** Case analysis on the innermost test the goal is stuck on. *)
Ltac case_step :=
  match goal with
  | |- context [match ?x with _ => _ end] =>
      lazymatch x with
      | context [match _ with _ => _ end] => fail
      | _ => destruct x eqn:?
      end
  end.

Lemma set_last_email_sent_id td :
  set_last_email_sent (last_email_sent td) td = td.
Proof. destruct td; reflexivity. Qed.

(** An alert changes nothing but [last_email_sent], and leaves the store
    alone. *)
Lemma send_email_alert_frame clock smtp_up cfg td target_name subject w :
  let r := NetPulse.send_email_alert clock smtp_up cfg td target_name subject w in
  (exists m, r.1 = set_last_email_sent m td) /\
  db r.2 = db w /\ db_opens r.2 = db_opens w.
Proof.
  unfold NetPulse.send_email_alert. unfold_monad. cbv zeta.
  repeat case_step; simpl; eauto.
  all: split; eauto.
  all: exists (last_email_sent td); symmetry; apply set_last_email_sent_id.
Qed.

Ltac alert_step :=
  match goal with
  | |- context [NetPulse.send_email_alert ?clock ?smtp_up ?cfg ?td ?n ?s ?w] =>
      let H := fresh "Halert" in
      pose proof (send_email_alert_frame clock smtp_up cfg td n s w) as H;
      cbv zeta in H;
      destruct (NetPulse.send_email_alert clock smtp_up cfg td n s w) as [? ?];
      simpl in H; destruct H as ([? ->] & ? & ?)
  end.

(** ** The loop body of [monitor_target] *)

Section Iteration.
Variable clock : nat -> Z.
Variable db_up : nat -> bool.
Variable smtp_up : nat -> bool.
Variable cfg : config.

Lemma classify_status target_name latency td w :
  (NetPulse.classify_and_track clock db_up smtp_up cfg target_name latency td w).1.1 =
    match latency with
    | None => ST_PACKET_LOSS
    | Some l =>
        if float_gtb l (latency_threshold cfg) then ST_HIGH_LATENCY l else ST_OK l
    end.
Proof.
  unfold NetPulse.classify_and_track, bind.
  destruct latency as [l|]; [destruct (float_gtb l _)|];
    repeat match goal with
           | |- context [let (_, _) := ?m in _] => destruct m
           end; reflexivity.
Qed.

Lemma classify_counters target_name latency td w :
  let r := NetPulse.classify_and_track clock db_up smtp_up cfg
             target_name latency td w in
  match latency with
  | None =>
      consecutive_failures r.1.2 = S (consecutive_failures td) /\
      status r.1.2 = st_down
  | Some l =>
      if float_gtb l (latency_threshold cfg)
      then consecutive_failures r.1.2 = S (consecutive_failures td) /\
           status r.1.2 = st_degraded
      else consecutive_failures r.1.2 = 0 /\ status r.1.2 = st_up
  end.
Proof.
  unfold NetPulse.classify_and_track, NetPulse.start_incident, NetPulse.end_incident.
  unfold_monad. cbv zeta.
  destruct latency as [l|]; [destruct (float_gtb l _)|].
  all: repeat (first [alert_step | case_step]; simpl).
  all: try (split; reflexivity).
  all: split; [|reflexivity].
  all: match goal with
       | H : (0 <? _) = false |- _ => apply Nat.ltb_ge in H; simpl in *; lia
       end.
Qed.

Lemma record_result_frame target_name latency st td w :
  let r := NetPulse.record_result clock db_up cfg target_name latency st td w in
  consecutive_failures r.1 = consecutive_failures td /\
  status r.1 = status td /\
  current_incident_id r.1 = current_incident_id td /\
  last_email_sent r.1 = last_email_sent td /\
  incidents (db r.2) = incidents (db w) /\
  incidents_seq (db r.2) = incidents_seq (db w) /\
  outbox r.2 = outbox w.
Proof.
  unfold NetPulse.record_result, NetPulse.store_ping_result.
  unfold_monad. cbv zeta.
  repeat (case_step; simpl); repeat split; reflexivity.
Qed.

(** Splitting a pass through the loop body into its two halves. *)
Ltac split_iteration lemma :=
  unfold NetPulse.monitor_target_iteration, bind, NetPulse.now;
  cbv beta iota zeta;
  match goal with
  | |- context [NetPulse.classify_and_track clock db_up smtp_up cfg ?n ?l ?td ?w] =>
      let Hc := fresh "Hc" in
      pose proof (lemma n l td w) as Hc; cbv zeta in Hc;
      let st := fresh "st" in
      let td' := fresh "td'" in
      let w' := fresh "w'" in
      destruct (NetPulse.classify_and_track clock db_up smtp_up cfg n l td w)
        as [[st td'] w'];
      simpl in Hc; cbv beta iota;
      let Hr := fresh "Hr" in
      pose proof (record_result_frame n l st td' w') as Hr; cbv zeta in Hr
  end.

Lemma iteration_status target_name ping td w :
  let r := NetPulse.monitor_target_iteration clock db_up smtp_up cfg
             target_name ping td w in
  status r.1 =
    match NetPulse.ping_target ping with
    | None => st_down
    | Some l => if float_gtb l (latency_threshold cfg) then st_degraded else st_up
    end /\
  (is_failure (latency_threshold cfg) (NetPulse.ping_target ping) = true ->
   consecutive_failures r.1 = S (consecutive_failures td)) /\
  (status r.1 = st_up <-> consecutive_failures r.1 = 0).
Proof.
  split_iteration classify_counters.
  destruct Hr as (Hcf & Hst & _). rewrite Hcf, Hst. unfold is_failure.
  destruct (NetPulse.ping_target ping) as [l|];
    [destruct (float_gtb l _)|]; destruct Hc as [-> ->];
    (split; [reflexivity | split; [intros; first [discriminate | reflexivity] |]]);
    split; intros; first [discriminate | lia | reflexivity].
Qed.

(** A failing probe inside a streak leaves the incident alone. *)
Lemma classify_streak_frame target_name latency td w :
  0 < consecutive_failures td ->
  is_failure (latency_threshold cfg) latency = true ->
  let r := NetPulse.classify_and_track clock db_up smtp_up cfg
             target_name latency td w in
  current_incident_id r.1.2 = current_incident_id td /\
  db r.2 = db w.
Proof.
  intros Hcf Hfail.
  unfold NetPulse.classify_and_track.
  destruct (consecutive_failures td) as [|n] eqn:En; [lia|].
  unfold is_failure in Hfail.
  destruct latency as [l|]; [rewrite Hfail|]; unfold_monad; simpl.
  all: alert_step; simpl; split; [reflexivity | assumption].
Qed.

Lemma iteration_streak_frame target_name ping td w :
  0 < consecutive_failures td ->
  is_failure (latency_threshold cfg) (NetPulse.ping_target ping) = true ->
  let r := NetPulse.monitor_target_iteration clock db_up smtp_up cfg
             target_name ping td w in
  current_incident_id r.1 = current_incident_id td /\
  incidents (db r.2) = incidents (db w).
Proof.
  intros Hcf Hfail.
  split_iteration (fun n l td0 w0 =>
                     classify_streak_frame n l td0 w0).
  destruct Hr as (_ & _ & Hid & _ & Hinc & _). rewrite Hid, Hinc.
  destruct Hc as [-> ->]; [exact Hcf | exact Hfail |]. split; reflexivity.
Qed.

Lemma monitor_target_cons target_name ping rest td w :
  NetPulse.monitor_target clock db_up smtp_up cfg target_name (ping :: rest) td w =
  let r := NetPulse.monitor_target_iteration clock db_up smtp_up cfg
             target_name ping td w in
  NetPulse.monitor_target clock db_up smtp_up cfg target_name rest r.1 r.2.
Proof.
  simpl. unfold bind at 1.
  destruct (NetPulse.monitor_target_iteration _ _ _ _ _ _ _ _); reflexivity.
Qed.

Lemma monitor_target_status target_name pings :
  pings <> [] -> forall td w,
  status_tracks_failures
    (NetPulse.monitor_target clock db_up smtp_up cfg target_name pings td w).1.
Proof.
  induction pings as [|ping rest IH]; [congruence|].
  intros _ td w. rewrite monitor_target_cons. cbv zeta.
  destruct rest as [|ping' rest'].
  - simpl. apply iteration_status.
  - apply IH. discriminate.
Qed.

End Iteration.

(** ** Classification *)

(** C3.  The class of a probe depends on the measured latency and the
    threshold only: no latency gives PacketLoss, a latency strictly above
    the threshold gives HighLatency, and every other latency, one equal to
    the threshold included, gives OK.  Neither the state of the target nor
    the world nor the oracles have a say. *)
Theorem C3_classification_by_latency_and_threshold
    clock db_up smtp_up cfg target_name latency td w :
  let class :=
    class_of_status
      (NetPulse.classify_and_track clock db_up smtp_up cfg
         target_name latency td w).1.1 in
  (class = PacketLoss <-> latency = None) /\
  (class = HighLatency <->
     exists l, latency = Some l /\ (latency_threshold cfg < l)%Q) /\
  (class = OK <->
     exists l, latency = Some l /\ (l <= latency_threshold cfg)%Q) /\
  (forall clock' db_up' smtp_up' target_name' td' w',
     class_of_status
       (NetPulse.classify_and_track clock' db_up' smtp_up' cfg
          target_name' latency td' w').1.1 = class).
Proof.
  cbv zeta. rewrite classify_status.
  split; [|split; [|split]].
  4: { intros. rewrite classify_status. reflexivity. }
  all: destruct latency as [l|]; simpl.
  all: try (destruct (float_gtb l (latency_threshold cfg)) eqn:E; simpl;
            [apply float_gtb_true in E | apply float_gtb_false in E]).
  all: split; intros H; try discriminate H; try reflexivity.
  all: try (destruct H as (l' & H & H'); first [discriminate H | injection H as <-]).
  all: try (eexists; split; [reflexivity | assumption]).
  all: exfalso; eapply Qlt_not_le; eauto.
Qed.

(** ** Status and failure counter *)

(** C5, as amended.  After every processed probe the status is [up]
    exactly when the failure counter is 0; before the first probe the
    counter is 0 and the status is [unknown]. *)
Theorem C5_status_up_iff_no_failures_after_a_probe
    clock db_up smtp_up cfg target_name tc pings w :
  pings <> [] ->
  status_tracks_failures
    (NetPulse.monitor_target clock db_up smtp_up cfg target_name pings
       (NetPulse.initial_target_data tc) w).1 /\
  status (NetPulse.initial_target_data tc) = st_unknown /\
  consecutive_failures (NetPulse.initial_target_data tc) = 0.
Proof.
  intros Hne. split; [|split; reflexivity].
  apply monitor_target_status. exact Hne.
Qed.

Lemma C5_after_a_probe_witness :
  [Sample.reply_200; PingTimeout; Sample.reply_90] <> [] /\
  status_tracks_failures
    (Sample.run [Sample.reply_200; PingTimeout; Sample.reply_90]).1.
Proof.
  split; [discriminate|].
  apply (C5_status_up_iff_no_failures_after_a_probe Sample.clock always_up
           always_up Sample.cfg "A" Sample.target_a
           [Sample.reply_200; PingTimeout; Sample.reply_90] Sample.w0).
  discriminate.
Defined.

(** C5 as stated fails before the first probe: the counter is 0 while the
    status is [unknown], not [up]. *)
Lemma C5_initial_state_counterexample :
  consecutive_failures (Sample.run []).1 = 0 /\
  status (Sample.run []).1 = st_unknown /\
  ~ (forall pings, status_tracks_failures (Sample.run pings).1).
Proof.
  split; [reflexivity|]. split; [reflexivity|].
  intros H. specialize (H []). destruct H as [_ H].
  specialize (H eq_refl). discriminate H.
Qed.

(** C4, as amended.  Inside a streak a failing probe sets the status by
    its own kind, [down] for a lost packet and [degraded] for a slow
    reply, whatever the status was; the counter goes up by one and the
    incident of the streak stays the same, untouched in the store. *)
Theorem C4_status_follows_the_latest_failure
    clock db_up smtp_up cfg target_name ping td w :
  0 < consecutive_failures td ->
  is_failure (latency_threshold cfg) (NetPulse.ping_target ping) = true ->
  let r := NetPulse.monitor_target_iteration clock db_up smtp_up cfg
             target_name ping td w in
  status r.1 = match NetPulse.ping_target ping with
               | Some _ => st_degraded
               | None => st_down
               end /\
  consecutive_failures r.1 = S (consecutive_failures td) /\
  current_incident_id r.1 = current_incident_id td /\
  incidents (db r.2) = incidents (db w).
Proof.
  intros Hcf Hfail r.
  destruct (iteration_status clock db_up smtp_up cfg target_name ping td w)
    as (Hst & Hn & _).
  destruct (iteration_streak_frame clock db_up smtp_up cfg target_name ping td w
              Hcf Hfail) as [Hid Hinc].
  fold r in Hst, Hn, Hid, Hinc.
  repeat split; auto.
  rewrite Hst. unfold is_failure in Hfail.
  destruct (NetPulse.ping_target ping); [rewrite Hfail|]; reflexivity.
Qed.

Lemma C4_latest_failure_witness :
  let td := (Sample.run [Sample.reply_200]).1 in
  let w := (Sample.run [Sample.reply_200]).2 in
  let r := NetPulse.monitor_target_iteration Sample.clock always_up always_up
             Sample.cfg "A" PingTimeout td w in
  status td = st_degraded /\
  status r.1 = st_down /\
  consecutive_failures r.1 = 2 /\
  current_incident_id r.1 = current_incident_id td /\
  incidents (db r.2) = incidents (db w).
Proof.
  intros td w r.
  split; [vm_compute; reflexivity|].
  apply (C4_status_follows_the_latest_failure Sample.clock always_up always_up
           Sample.cfg "A" PingTimeout td w).
  - vm_compute. lia.
  - reflexivity.
Defined.

(** C4 as stated fails on a slow reply followed by a lost packet: the
    status goes from [degraded] to [down] inside one streak. *)
Lemma C4_degraded_to_down_counterexample :
  let td := (Sample.run [Sample.reply_200]).1 in
  let w := (Sample.run [Sample.reply_200]).2 in
  let r := NetPulse.monitor_target_iteration Sample.clock always_up always_up
             Sample.cfg "A" PingTimeout td w in
  (consecutive_failures td = 1 /\ status td = st_degraded) /\
  (consecutive_failures r.1 = 2 /\ status r.1 = st_down) /\
  ~ status_fixed_within_streak Sample.clock always_up always_up Sample.cfg.
Proof.
  intros td w r.
  split; [split; vm_compute; reflexivity|].
  split; [split; vm_compute; reflexivity|].
  intros H.
  specialize (H "A"%string PingTimeout td w).
  assert (Hcf : 0 < consecutive_failures td) by (vm_compute; lia).
  specialize (H Hcf (or_introl eq_refl) eq_refl).
  vm_compute in H. discriminate H.
Qed.

(** ** Failure counter and open incident *)

Lemma streak_invariant_idle target_name td d :
  consecutive_failures td = 0 ->
  open_incidents target_name d = [] ->
  streak_invariant target_name td d.
Proof. unfold streak_invariant. intros -> H. exact H. Qed.

Lemma streak_invariant_open target_name td d r :
  consecutive_failures td <> 0 ->
  open_incidents target_name d = [r] ->
  current_incident_id td = Some (inc_id r) ->
  inc_id r <> 0 ->
  streak_invariant target_name td d.
Proof.
  unfold streak_invariant. intros Hcf Hopen Hid Hnz.
  destruct (consecutive_failures td); [congruence|]. eauto.
Qed.

Lemma streak_invariant_ext target_name td td' d d' :
  consecutive_failures td' = consecutive_failures td ->
  current_incident_id td' = current_incident_id td ->
  incidents d' = incidents d ->
  streak_invariant target_name td d ->
  streak_invariant target_name td' d'.
Proof.
  unfold streak_invariant, open_incidents. intros -> -> ->. trivial.
Qed.

Lemma streak_invariant_sound target_name td d :
  streak_invariant target_name td d ->
  (consecutive_failures td = 0 <-> open_incidents target_name d = []) /\
  length (open_incidents target_name d) <= 1.
Proof.
  unfold streak_invariant.
  destruct (consecutive_failures td) as [|n].
  - intros ->. simpl. split; [tauto | lia].
  - intros (r & -> & _). simpl. split; [|lia].
    split; discriminate.
Qed.

(** The row [start_incident] inserts is open and belongs to the target. *)
Lemma open_incidents_insert target_name ip (d : database) id t kind seq :
  open_incidents target_name
    (set_incidents
       (incidents d ++
          [{| inc_id := id; inc_target_name := target_name;
              inc_target_ip := ip; inc_start_time := t;
              inc_end_time := None; inc_duration_minutes := None;
              inc_incident_type := kind; inc_max_latency := None;
              inc_packet_loss_count := 0; inc_resolved := false |}])
       seq d) =
  open_incidents target_name d ++
    [{| inc_id := id; inc_target_name := target_name;
        inc_target_ip := ip; inc_start_time := t;
        inc_end_time := None; inc_duration_minutes := None;
        inc_incident_type := kind; inc_max_latency := None;
        inc_packet_loss_count := 0; inc_resolved := false |}].
Proof.
  unfold open_incidents. simpl. rewrite filter_app.
  rewrite filter_singleton_True; [reflexivity | exact [] | split; reflexivity].
Qed.

(** Closing the one open incident of a target leaves it with none. *)
Lemma open_incidents_close target_name (d : database) r end_time dur ml plc seq :
  open_incidents target_name d = [r] ->
  open_incidents target_name
    (set_incidents
       (NetPulse.close_incident_row (inc_id r) end_time dur ml plc <$> incidents d)
       seq d) = [].
Proof.
  intros Hopen. apply elem_of_nil_inv. intros x Hx.
  unfold open_incidents in Hx. simpl in Hx.
  apply list_elem_of_filter in Hx. destruct Hx as [[Hname Hres] Hx].
  apply list_elem_of_fmap in Hx. destruct Hx as (r0 & -> & Hr0).
  unfold NetPulse.close_incident_row in Hname, Hres.
  destruct (inc_id r0 =? inc_id r) eqn:E; [discriminate Hres|].
  assert (Hin : r0 ∈ open_incidents target_name d).
  { unfold open_incidents. apply list_elem_of_filter. auto. }
  rewrite Hopen in Hin. apply list_elem_of_singleton in Hin. subst r0.
  rewrite Nat.eqb_refl in E. discriminate E.
Qed.

(** The [SELECT] of [end_incident] finds the open incident. *)
Lemma find_open_incident target_name (d : database) r :
  open_incidents target_name d = [r] ->
  exists row, find (fun r0 => inc_id r0 =? inc_id r) (incidents d) = Some row.
Proof.
  intros Hopen.
  destruct (find _ (incidents d)) as [row|] eqn:E; [eauto|].
  exfalso.
  assert (Hin : r ∈ open_incidents target_name d)
    by (rewrite Hopen; apply list_elem_of_singleton; reflexivity).
  unfold open_incidents in Hin. apply list_elem_of_filter in Hin.
  destruct Hin as [_ Hin]. apply list_elem_of_In in Hin.
  pose proof (find_none _ _ E r Hin) as Hf. simpl in Hf.
  rewrite Nat.eqb_refl in Hf. discriminate Hf.
Qed.

Section StoreUp.
Variable clock : nat -> Z.
Variable db_up : nat -> bool.
Variable smtp_up : nat -> bool.
Variable cfg : config.
Hypothesis db_ok : forall k, db_up k = true.

Ltac use_alert_db :=
  alert_step; simpl;
  match goal with H : db _ = _ |- _ => rewrite H end.

Lemma classify_invariant target_name latency td w :
  streak_invariant target_name td (db w) ->
  let r := NetPulse.classify_and_track clock db_up smtp_up cfg
             target_name latency td w in
  streak_invariant target_name r.1.2 (db r.2).
Proof.
  intros Hinv.
  unfold streak_invariant in Hinv.
  unfold NetPulse.classify_and_track, NetPulse.start_incident, NetPulse.end_incident.
  unfold_monad. cbv zeta.
  destruct (consecutive_failures td) as [|n] eqn:Ecf.
  - (* no streak is running *)
    destruct latency as [l|]; [destruct (float_gtb l _)|];
      simpl; rewrite ?db_ok; simpl.
    + use_alert_db.
      eapply streak_invariant_open; simpl;
        [discriminate | rewrite open_incidents_insert, Hinv; reflexivity
        | reflexivity | unfold next_rowid; simpl; discriminate].
    + apply streak_invariant_idle; [exact Ecf | exact Hinv].
    + use_alert_db.
      eapply streak_invariant_open; simpl;
        [discriminate | rewrite open_incidents_insert, Hinv; reflexivity
        | reflexivity | unfold next_rowid; simpl; discriminate].
  - (* a streak is running *)
    destruct Hinv as (r & Hopen & Hid & Hnz).
    destruct latency as [l|]; [destruct (float_gtb l _)|]; simpl.
    + use_alert_db. eapply streak_invariant_open; simpl; eauto.
    + rewrite Hid. simpl.
      apply Nat.eqb_neq in Hnz. rewrite Hnz. simpl.
      rewrite db_ok. simpl.
      destruct (find_open_incident target_name (db w) r Hopen) as [row Hrow].
      rewrite Hrow. simpl.
      use_alert_db.
      apply streak_invariant_idle; [reflexivity|].
      apply open_incidents_close. exact Hopen.
    + use_alert_db. eapply streak_invariant_open; simpl; eauto.
Qed.

Lemma iteration_invariant target_name ping td w :
  streak_invariant target_name td (db w) ->
  let r := NetPulse.monitor_target_iteration clock db_up smtp_up cfg
             target_name ping td w in
  streak_invariant target_name r.1 (db r.2).
Proof.
  intros Hinv.
  unfold NetPulse.monitor_target_iteration, bind, NetPulse.now.
  cbv beta iota zeta.
  match goal with
  | |- context [NetPulse.classify_and_track _ _ _ _ ?n ?l ?td0 ?w0] =>
      assert (Hinv0 : streak_invariant target_name td0 (db w0))
        by (eapply streak_invariant_ext; [| | | exact Hinv]; reflexivity);
      pose proof (classify_invariant n l td0 w0 Hinv0) as Hc; cbv zeta in Hc;
      destruct (NetPulse.classify_and_track clock db_up smtp_up cfg n l td0 w0)
        as [[st td'] w']
  end.
  simpl in Hc. cbv beta iota.
  pose proof (record_result_frame clock db_up cfg target_name
                (NetPulse.ping_target ping) st td' w') as Hr.
  cbv zeta in Hr. destruct Hr as (Hcf & _ & Hid & _ & Hinc & _).
  eapply streak_invariant_ext; eauto.
Qed.

Lemma monitor_target_invariant target_name pings :
  forall td w,
  streak_invariant target_name td (db w) ->
  let r := NetPulse.monitor_target clock db_up smtp_up cfg target_name pings td w in
  streak_invariant target_name r.1 (db r.2).
Proof.
  induction pings as [|ping rest IH]; intros td w Hinv.
  - exact Hinv.
  - rewrite monitor_target_cons. cbv zeta. apply IH.
    apply iteration_invariant. exact Hinv.
Qed.

End StoreUp.

(** C2.  When the transactions of the store go through and the store
    holds no open incident of the target when its loop starts (a new
    database, or one whose last run ended outside a streak), then after
    every sequence of probes the failure counter of the target is 0
    exactly when it has no open incident, and it never has more than
    one. *)
Theorem C2_no_failures_iff_no_open_incident
    clock db_up smtp_up cfg target_name tc w pings :
  (forall k, db_up k = true) ->
  open_incidents target_name (db w) = [] ->
  let r := NetPulse.monitor_target clock db_up smtp_up cfg target_name pings
             (NetPulse.initial_target_data tc) w in
  (consecutive_failures r.1 = 0 <-> open_incidents target_name (db r.2) = []) /\
  length (open_incidents target_name (db r.2)) <= 1.
Proof.
  intros Hup Hopen r. apply streak_invariant_sound.
  apply monitor_target_invariant; [exact Hup|].
  apply streak_invariant_idle; [reflexivity | exact Hopen].
Qed.

Lemma C2_open_incident_witness :
  let r := Sample.run [Sample.reply_200; PingTimeout; Sample.reply_90; PingTimeout] in
  (consecutive_failures r.1 = 0 <-> open_incidents "A" (db r.2) = []) /\
  length (open_incidents "A" (db r.2)) <= 1.
Proof.
  apply (C2_no_failures_iff_no_open_incident Sample.clock always_up always_up
           Sample.cfg "A" Sample.target_a Sample.w0
           [Sample.reply_200; PingTimeout; Sample.reply_90; PingTimeout]).
  - reflexivity.
  - reflexivity.
Defined.

(** C2 as stated fails when the program is started again over the
    database of a run that was stopped during a streak: the incident of
    that streak is still open, the new process starts the target with a
    counter of 0, opens a second incident at the next failure and closes
    only its own at the recovery. *)
Lemma C2_restart_counterexample :
  (consecutive_failures (Restart.run []).1 = 0 /\
   length (open_incidents "A" (db (Restart.run []).2)) = 1) /\
  (consecutive_failures (Restart.run [PingTimeout]).1 = 1 /\
   length (open_incidents "A" (db (Restart.run [PingTimeout]).2)) = 2) /\
  (consecutive_failures (Restart.run [PingTimeout; Sample.reply_90]).1 = 0 /\
   length (open_incidents "A"
             (db (Restart.run [PingTimeout; Sample.reply_90]).2)) = 1) /\
  ~ counter_tracks_open_incident Sample.clock always_up always_up Sample.cfg.
Proof.
  split; [split; vm_compute; reflexivity|].
  split; [split; vm_compute; reflexivity|].
  split; [split; vm_compute; reflexivity|].
  intros H.
  destruct (H "A"%string Sample.target_a Restart.stopped [PingTimeout])
    as [_ Hle]; [intros k; reflexivity|].
  vm_compute in Hle. lia.
Qed.

(** Without the store the counter runs ahead of the incidents: a lost
    packet counts as a failure although no incident could be opened. *)
Example store_down_breaks_the_link :
  let r := NetPulse.monitor_target Sample.clock (fun _ => false) always_up
             Sample.cfg "A" [PingTimeout] Sample.td0 Sample.w0 in
  consecutive_failures r.1 = 1 /\ open_incidents "A" (db r.2) = [].
Proof. vm_compute. split; reflexivity. Qed.

(** ** The incident of a streak *)

(** C1, on the code.  The probes 120 ms, 200 ms, 300 ms, timeout, 90 ms
    with a threshold of 150 ms leave one incident: it is of type
    HIGH_LATENCY, and the healthy probe closes it.  It is closed with the
    defaults of [end_incident], though: 0 packet losses where the streak
    had one, and no maximum latency where 300 ms was seen. *)
Theorem C1_incident_closed_without_its_measurements :
  let after_ok := Sample.run [Sample.reply_120] in
  let in_streak := Sample.run [Sample.reply_120; Sample.reply_200;
                               Sample.reply_300; PingTimeout] in
  let r := Sample.run Sample.streak in
  status after_ok.1 = st_up /\
  (exists row,
     incidents (db in_streak.2) = [row] /\
     inc_incident_type row = HIGH_LATENCY_INCIDENT /\
     inc_resolved row = false) /\
  (exists row,
     incidents (db r.2) = [row] /\
     inc_incident_type row = HIGH_LATENCY_INCIDENT /\
     inc_resolved row = true /\
     is_Some (inc_end_time row) /\
     inc_packet_loss_count row = 0 /\
     inc_max_latency row = None).
Proof.
  cbv zeta. split; [vm_compute; reflexivity|]. split.
  - eexists. split; [vm_compute; reflexivity|]. split; reflexivity.
  - eexists. split; [vm_compute; reflexivity|].
    repeat split; try reflexivity. eexists; reflexivity.
Qed.

(** Whatever the streak, the recovery branch calls [end_incident] with
    its defaults: the row it closes loses the two measurements. *)
Lemma close_incident_row_defaults id end_time dur r :
  inc_id r = id ->
  let r' := NetPulse.close_incident_row id end_time dur
              NetPulse.end_incident_default_max_latency
              NetPulse.end_incident_default_packet_loss_count r in
  inc_resolved r' = true /\
  inc_end_time r' = Some end_time /\
  inc_incident_type r' = inc_incident_type r /\
  inc_packet_loss_count r' = 0 /\
  inc_max_latency r' = None.
Proof.
  intros <-. unfold NetPulse.close_incident_row. rewrite Nat.eqb_refl.
  simpl. repeat split; reflexivity.
Qed.

(** ** A reply that took no time *)









(** ** The cooldown of alerts *)

Lemma send_email_alert_contract clock smtp_up cfg td target_name subject w :
  send_alerts cfg = true ->
  alert_contract clock smtp_up cfg td target_name subject w.
Proof.
  intros Hon. unfold alert_contract, in_cooldown, notifier_calls.
  unfold NetPulse.send_email_alert. rewrite Hon. unfold_monad. cbv zeta. simpl.
  destruct (last_email_sent td !! NetPulse.email_key target_name subject)
    as [last_sent|] eqn:Elast; simpl.
  - destruct (float_ltb _ _) eqn:Elt; simpl.
    + split; [intros _; split; reflexivity|].
      intros Hnot. exfalso. apply Hnot. exists last_sent. split; [reflexivity|].
      apply float_ltb_true. exact Elt.
    + apply float_ltb_false in Elt. split.
      * intros (l' & [= <-] & Hlt). contradiction.
      * intros _.
        destruct (smtp_up (length (outbox w))); simpl; rewrite length_app; simpl;
          (split; [lia | split; intros; first [discriminate | reflexivity]]).
  - split.
    + intros (l' & Hl & _). discriminate Hl.
    + intros _.
      destruct (smtp_up (length (outbox w))); simpl; rewrite length_app; simpl;
        (split; [lia | split; intros; first [discriminate | reflexivity]]).
Qed.

(** With alerts switched off nothing happens at all. *)
Lemma send_email_alert_switched_off clock smtp_up cfg td target_name subject w :
  send_alerts cfg = false ->
  NetPulse.send_email_alert clock smtp_up cfg td target_name subject w = (td, w).
Proof. intros Hoff. unfold NetPulse.send_email_alert. rewrite Hoff. reflexivity. Qed.

Lemma first_alert_sent clock smtp_up cfg td target_name subject w :
  send_alerts cfg = true ->
  last_email_sent td !! NetPulse.email_key target_name subject = None ->
  smtp_up (notifier_calls w) = true ->
  let r := NetPulse.send_email_alert clock smtp_up cfg td target_name subject w in
  last_email_sent r.1 !! NetPulse.email_key target_name subject
    = Some (clock (clock_reads w)) /\
  notifier_calls r.2 = S (notifier_calls w).
Proof.
  intros Hon Hnone Hup. unfold notifier_calls in *.
  unfold NetPulse.send_email_alert. rewrite Hon, Hnone. unfold_monad. simpl.
  rewrite Hup. simpl. rewrite lookup_insert_eq, length_app. simpl.
  split; [reflexivity | lia].
Qed.

Lemma cooldown_scenario_holds clock smtp_up cfg td target_name subject n1 n2 w :
  send_alerts cfg = true ->
  cooldown_scenario clock smtp_up cfg td target_name subject n1 n2 w.
Proof.
  intros Hon. unfold cooldown_scenario, three_alerts. cbv zeta.
  intros Hnone Hup Hin Hout.
  destruct (first_alert_sent clock smtp_up cfg td target_name subject w Hon Hnone Hup)
    as [Hkey1 Hcalls1].
  set (r1 := NetPulse.send_email_alert clock smtp_up cfg td target_name subject w) in *.
  destruct (send_email_alert_contract clock smtp_up cfg r1.1 target_name subject
              (advance n1 r1.2) Hon) as [Hsup _].
  destruct Hsup as [Hcalls2 Htd2].
  { exists (clock (clock_reads w)). split; [exact Hkey1 | exact Hin]. }
  set (r2 := NetPulse.send_email_alert clock smtp_up cfg r1.1 target_name subject
               (advance n1 r1.2)) in *.
  destruct (send_email_alert_contract clock smtp_up cfg r2.1 target_name subject
              (advance n2 r2.2) Hon) as [_ Hsend].
  destruct Hsend as [Hcalls3 _].
  { intros (last_sent & Hl & Hlt). rewrite Htd2, Hkey1 in Hl.
    injection Hl as <-. apply Hout. exact Hlt. }
  unfold notifier_calls, advance in *. simpl in *.
  repeat split; lia.
Qed.

(** C6, as amended.  With [send_alerts] switched on: an alert whose key
    was last sent less than [cooldown_seconds] ago makes no call of the
    notifier and changes nothing; any other alert makes exactly one call,
    after which the time then read is recorded for the key when the call
    succeeded, and nothing is recorded when it failed.  Hence, when a
    first alert of a key is delivered, a second one of the same key inside
    the cooldown makes no further call, and a third one after the cooldown
    makes the second call. *)
Theorem C6_alert_cooldown
    clock smtp_up cfg td target_name subject n1 n2 w :
  send_alerts cfg = true ->
  alert_contract clock smtp_up cfg td target_name subject w /\
  cooldown_scenario clock smtp_up cfg td target_name subject n1 n2 w.
Proof.
  intros Hon. split.
  - apply send_email_alert_contract. exact Hon.
  - apply cooldown_scenario_holds. exact Hon.
Qed.

Lemma C6_three_alerts_witness :
  let '(w1, w2, w3) :=
    three_alerts Sample.clock always_up Sample.cfg Sample.td0
      "A" "PACKET LOSS: A" 10 400 Sample.w0 in
  notifier_calls w1 = 1 /\ notifier_calls w2 = 1 /\ notifier_calls w3 = 2.
Proof.
  destruct (C6_alert_cooldown Sample.clock always_up Sample.cfg Sample.td0
              "A" "PACKET LOSS: A" 10 400 Sample.w0 eq_refl) as [_ Hs].
  unfold cooldown_scenario in Hs.
  destruct (three_alerts _ _ _ _ _ _ _ _ _) as [[w1 w2] w3] eqn:E.
  vm_compute in E. injection E as <- <- <-.
  apply Hs.
  - reflexivity.
  - reflexivity.
  - vm_compute. reflexivity.
  - vm_compute. discriminate.
Defined.

(** C6 as stated fails when the configuration switches alerts off: no
    alert of the key was ever sent, so it is not in its cooldown, and yet
    the notifier is not called. *)
Lemma C6_alerts_off_counterexample :
  let r := NetPulse.send_email_alert Sample.clock always_up Sample.cfg_alerts_off
             Sample.td0 "A" "PACKET LOSS: A" Sample.w0 in
  (last_email_sent Sample.td0 !! NetPulse.email_key "A" "PACKET LOSS: A" = None /\
   notifier_calls Sample.w0 = 0 /\
   notifier_calls r.2 = 0) /\
  ~ cooldown_rule Sample.clock always_up Sample.cfg_alerts_off.
Proof.
  cbv zeta. split; [repeat split; vm_compute; reflexivity|].
  intros H.
  destruct (H Sample.td0 "A"%string "PACKET LOSS: A"%string Sample.w0) as [_ Hcall].
  destruct Hcall as [Hcalls _].
  - intros (last_sent & Hl & _). vm_compute in Hl. discriminate Hl.
  - vm_compute in Hcalls. discriminate Hcalls.
Qed.

(** The older program has one cooldown for all alerts: after a delivered
    alert, an alert with another subject one reading of the clock later
    is dropped without a call. *)
Example isp_cooldown_is_shared :
  let r1 := ISP.send_email Sample.clock always_up Sample.isp_cfg
              "URGENT: Packet Loss at 192.0.2.1 - Failure #1"
              ISP.initial_monitor Sample.w0 in
  let r2 := ISP.send_email Sample.clock always_up Sample.isp_cfg
              "RESOLVED: Network Recovered at 192.0.2.1" r1.1.2 r1.2 in
  r1.1.1 = true /\ notifier_calls r1.2 = 1 /\
  r2.1.1 = false /\ notifier_calls r2.2 = 1.
Proof. vm_compute. repeat split; reflexivity. Qed.

(** ** Daily reports *)

Section Reports.
Variable report_date : Z.

Lemma report_target_probes target_name d :
  ping_results (NetPulse.report_target target_name report_date d) = ping_results d /\
  incidents (NetPulse.report_target target_name report_date d) = incidents d.
Proof.
  unfold NetPulse.report_target, NetPulse.insert_or_replace_daily_report.
  destruct (0 <? _); split; reflexivity.
Qed.

Lemma pings_of_day_ext target_name d d' :
  ping_results d' = ping_results d ->
  NetPulse.pings_of_day target_name report_date d' =
  NetPulse.pings_of_day target_name report_date d.
Proof. unfold NetPulse.pings_of_day. intros ->. reflexivity. Qed.

Lemma report_values_ext id id' target_name d d' :
  ping_results d' = ping_results d ->
  incidents d' = incidents d ->
  report_values (NetPulse.daily_report_of id' target_name report_date d') =
  report_values (NetPulse.daily_report_of id target_name report_date d).
Proof.
  intros Hp Hi.
  unfold report_values, NetPulse.daily_report_of, NetPulse.pings_of_day,
    NetPulse.incidents_of_day. simpl. rewrite Hp, Hi. reflexivity.
Qed.

Lemma report_target_other target_name other d :
  target_name <> other ->
  report_key_rows target_name report_date
    (NetPulse.report_target other report_date d) =
  report_key_rows target_name report_date d.
Proof.
  intros Hne.
  unfold NetPulse.report_target, NetPulse.insert_or_replace_daily_report.
  destruct (0 <? _); [|reflexivity].
  unfold report_key_rows. simpl.
  rewrite filter_app, filter_singleton_False, app_nil_r.
  - rewrite list_filter_filter. apply list_filter_iff.
    intros r. split; [tauto|]. intros [Hn Hd]. repeat split; try assumption.
    intros [Hn' _]. congruence.
  - exact [].
  - simpl. intros [Hn _]. congruence.
Qed.

Lemma report_target_same target_name d :
  NetPulse.pings_of_day target_name report_date d <> [] ->
  exists id,
    report_key_rows target_name report_date
      (NetPulse.report_target target_name report_date d) =
    [NetPulse.daily_report_of id target_name report_date d].
Proof.
  intros Hne.
  unfold NetPulse.report_target.
  destruct (NetPulse.pings_of_day target_name report_date d) as [|p ps] eqn:E;
    [congruence|].
  simpl. unfold NetPulse.insert_or_replace_daily_report.
  eexists. unfold report_key_rows. simpl.
  rewrite filter_app, filter_singleton_True.
  - rewrite list_filter_filter.
    rewrite (list_filter_iff _ (fun _ => False)) by tauto.
    replace (filter (fun _ : daily_report_row => False) (daily_reports d))
      with (@nil daily_report_row); [reflexivity|].
    symmetry. apply elem_of_nil_inv. intros x Hx.
    apply list_elem_of_filter in Hx. tauto.
  - exact [].
  - simpl. split; reflexivity.
Qed.

Lemma report_target_idle target_name d :
  NetPulse.pings_of_day target_name report_date d = [] ->
  NetPulse.report_target target_name report_date d = d.
Proof. unfold NetPulse.report_target. intros ->. reflexivity. Qed.

Lemma report_all_probes names : forall d,
  ping_results (report_all report_date names d) = ping_results d /\
  incidents (report_all report_date names d) = incidents d.
Proof.
  induction names as [|n rest IH]; intros d; [split; reflexivity|].
  simpl. destruct (IH (NetPulse.report_target n report_date d)) as [-> ->].
  apply report_target_probes.
Qed.

Lemma report_all_untouched target_name names : forall d,
  NetPulse.pings_of_day target_name report_date d = [] \/ target_name ∉ names ->
  report_key_rows target_name report_date (report_all report_date names d) =
  report_key_rows target_name report_date d.
Proof.
  induction names as [|n rest IH]; intros d H; [reflexivity|].
  simpl. rewrite IH.
  - destruct (decide (target_name = n)) as [<-|Hne].
    + destruct H as [H|H].
      * rewrite report_target_idle by exact H. reflexivity.
      * exfalso. apply H. left.
    + apply report_target_other. exact Hne.
  - destruct H as [H|H].
    + left. rewrite (pings_of_day_ext _ d); [exact H | apply report_target_probes].
    + right. intros Hin. apply H. right. exact Hin.
Qed.

Lemma report_all_written target_name names : forall d,
  target_name ∈ names ->
  NetPulse.pings_of_day target_name report_date d <> [] ->
  report_values <$> report_key_rows target_name report_date (report_all report_date names d) =
  [report_values (NetPulse.daily_report_of 0 target_name report_date d)].
Proof.
  induction names as [|n rest IH]; intros d Hin Hne.
  - apply elem_of_nil in Hin. contradiction.
  - simpl.
    destruct (report_target_probes n d) as [Hp Hi].
    destruct (decide (target_name ∈ rest)) as [Hrest|Hrest].
    + rewrite IH; [| exact Hrest | rewrite (pings_of_day_ext _ d); assumption].
      f_equal. apply report_values_ext; assumption.
    + apply elem_of_cons in Hin. destruct Hin as [<-|Hin]; [|contradiction].
      rewrite report_all_untouched by (right; exact Hrest).
      destruct (report_target_same target_name d Hne) as [id ->].
      reflexivity.
Qed.
End Reports.

Lemma generate_reports_for_db db_up report_date names :
  (forall k, db_up k = true) ->
  forall w,
  db (NetPulse.generate_reports_for db_up report_date names w).2 =
  report_all report_date names (db w).
Proof.
  intros Hup. induction names as [|n rest IH]; intros w; [reflexivity|].
  simpl. unfold_monad. rewrite Hup. simpl. rewrite IH. reflexivity.
Qed.

Lemma generate_daily_reports_db clock db_up targets w :
  (forall k, db_up k = true) ->
  db (NetPulse.generate_daily_reports clock db_up targets w).2 =
  report_all (date_of (clock (clock_reads w))) (targets.*1) (db w).
Proof.
  intros Hup. unfold NetPulse.generate_daily_reports. unfold_monad.
  rewrite generate_reports_for_db by exact Hup. reflexivity.
Qed.

(** C7.  Two runs of the aggregation on the same date, with the store
    unchanged in between (no new probe result and no new incident: the
    number of incidents is counted anew) and its transactions going
    through: a target with a probe result on that date has exactly one
    report row for the date after the first run, and whenever the first
    run leaves one row under the (target, date) key, the second run leaves
    one row under it too, with the same values.  (The row is written anew,
    so its rowid is a new one.)  For a target without a probe result on
    that date a run writes nothing under the key. *)
Theorem C7_daily_report_idempotent
    clock db_up (targets : list (string * target_data)) target_name w w' :
  (forall k, db_up k = true) ->
  target_name ∈ targets.*1 ->
  let report_date := date_of (clock (clock_reads w)) in
  let w1 := (NetPulse.generate_daily_reports clock db_up targets w).2 in
  let w2 := (NetPulse.generate_daily_reports clock db_up targets w').2 in
  db w' = db w1 ->
  date_of (clock (clock_reads w')) = report_date ->
  (NetPulse.pings_of_day target_name report_date (db w) <> [] ->
   exists r, report_key_rows target_name report_date (db w1) = [r]) /\
  (forall r,
     report_key_rows target_name report_date (db w1) = [r] ->
     exists r',
       report_key_rows target_name report_date (db w2) = [r'] /\
       report_values r' = report_values r) /\
  (NetPulse.pings_of_day target_name report_date (db w) = [] ->
   report_key_rows target_name report_date (db w1) =
   report_key_rows target_name report_date (db w)).
Proof.
  intros Hup Hin report_date w1 w2 Hdb Hdate.
  assert (H1 : db w1 = report_all report_date (targets.*1) (db w))
    by (apply generate_daily_reports_db; exact Hup).
  assert (H2 : db w2 = report_all report_date (targets.*1) (db w1)).
  { unfold w2. rewrite generate_daily_reports_db by exact Hup.
    rewrite Hdate, Hdb. reflexivity. }
  destruct (report_all_probes report_date (targets.*1) (db w)) as [Hp Hi].
  rewrite <- H1 in Hp, Hi.
  destruct (NetPulse.pings_of_day target_name report_date (db w)) as [|p ps] eqn:E.
  - split; [congruence|]. split.
    + intros r Hr. exists r. split; [|reflexivity].
      rewrite H2, report_all_untouched; [exact Hr|].
      left. rewrite (pings_of_day_ext _ _ (db w)); assumption.
    + intros _. rewrite H1. apply report_all_untouched. left. exact E.
  - assert (Hne : NetPulse.pings_of_day target_name report_date (db w) <> [])
      by (rewrite E; discriminate).
    assert (Hne1 : NetPulse.pings_of_day target_name report_date (db w1) <> [])
      by (rewrite (pings_of_day_ext _ _ (db w)); assumption).
    pose proof (report_all_written report_date target_name _ (db w) Hin Hne) as Hw1.
    pose proof (report_all_written report_date target_name _ (db w1) Hin Hne1) as Hw2.
    rewrite <- H1 in Hw1. rewrite <- H2 in Hw2.
    split; [|split; [|intros Hnone; discriminate Hnone]].
    + intros _.
      destruct (report_key_rows target_name report_date (db w1)) as [|r [|r0 rs]];
        try discriminate Hw1. eauto.
    + intros r Hr.
      destruct (report_key_rows target_name report_date (db w2)) as [|r' [|r0 rs]];
        try discriminate Hw2.
      exists r'. split; [reflexivity|].
      rewrite Hr in Hw1.
      apply (f_equal (fun l => l !! 0)) in Hw1, Hw2.
      cbn [fmap list_fmap lookup list_lookup] in Hw1, Hw2.
      rewrite (report_values_ext _ 0 0 _ _ _ Hp Hi) in Hw2.
      congruence.
Qed.

Lemma C7_rerun_witness :
  let w1 := (NetPulse.generate_daily_reports Sample.clock always_up
               Sample.targets Sample.probed).2 in
  let w2 := (NetPulse.generate_daily_reports Sample.clock always_up
               Sample.targets w1).2 in
  (NetPulse.pings_of_day "A" 0 (db Sample.probed) <> [] /\
   date_of (Sample.clock (clock_reads w1)) = 0%Z) /\
  (exists r, report_key_rows "A" 0 (db w1) = [r]) /\
  (forall r,
     report_key_rows "A" 0 (db w1) = [r] ->
     exists r',
       report_key_rows "A" 0 (db w2) = [r'] /\
       report_values r' = report_values r).
Proof.
  cbv zeta.
  assert (Hne : NetPulse.pings_of_day "A" 0 (db Sample.probed) <> [])
    by (vm_compute; discriminate).
  assert (Hdate : date_of (Sample.clock (clock_reads
            (NetPulse.generate_daily_reports Sample.clock always_up
               Sample.targets Sample.probed).2)) = 0%Z)
    by (vm_compute; reflexivity).
  split; [repeat split; assumption|].
  destruct (C7_daily_report_idempotent Sample.clock always_up Sample.targets "A"
              Sample.probed
              (NetPulse.generate_daily_reports Sample.clock always_up
                 Sample.targets Sample.probed).2) as (Hfirst & Hsecond & _).
  - reflexivity.
  - vm_compute. left.
  - reflexivity.
  - vm_compute. reflexivity.
  - split; [apply Hfirst; exact Hne | exact Hsecond].
Defined.

(** C7 as stated fails in two ways.  An incident that starts between the
    two runs adds no probe result, and the second run counts it: the row
    of the key goes from one incident to two.  And a target without a
    probe result on the date gets no row at all. *)
Lemma C7_new_incident_counterexample :
  (ping_results (db Rerun.w') = ping_results (db Rerun.w1) /\
   daily_reports (db Rerun.w') = daily_reports (db Rerun.w1) /\
   date_of (Sample.clock (clock_reads Rerun.w')) = 0%Z) /\
  (dr_incidents_count <$> report_key_rows "A" 0 (db Rerun.w1) = [1] /\
   dr_incidents_count <$> report_key_rows "A" 0 (db Rerun.w2) = [2]) /\
  report_key_rows "A" 0
    (db (NetPulse.generate_daily_reports Sample.clock always_up Sample.targets
           Sample.w0).2) = [] /\
  ~ reports_idempotent Sample.clock always_up.
Proof.
  split; [split; [|split]; vm_compute; reflexivity|].
  split; [split; vm_compute; reflexivity|].
  split; [vm_compute; reflexivity|].
  intros H.
  destruct (H Sample.targets "A"%string Sample.probed Rerun.w')
    as (r & r' & H1 & H2 & Hv).
  - intros k. reflexivity.
  - vm_compute. apply list_elem_of_here.
  - vm_compute. reflexivity.
  - vm_compute. reflexivity.
  - vm_compute. reflexivity.
  - apply (f_equal dr_incidents_count) in Hv.
    vm_compute in H1, H2.
    injection H1 as <-. injection H2 as <-.
    vm_compute in Hv. discriminate Hv.
Qed.

(** ** Retention *)

Lemma cleanup_old_data_db clock db_up cfg w :
  db_up (db_opens w) = true ->
  db (NetPulse.cleanup_old_data clock db_up cfg w).2 =
  NetPulse.delete_older_than
    (clock (clock_reads w) - timedelta_days (retention_days cfg))%Z (db w).
Proof.
  intros Hup. unfold NetPulse.cleanup_old_data. unfold_monad. simpl.
  rewrite Hup. reflexivity.
Qed.

(** C8.  When its transaction goes through, the pruning with the cutoff
    [now - retention_days] keeps of every table exactly the rows that are
    not older than the cutoff, unchanged and in their order: the probe
    results by their timestamp, the incidents by their start time, and
    the daily reports by their date against the date of the cutoff. *)
Theorem C8_retention_pruning clock db_up cfg w :
  db_up (db_opens w) = true ->
  let cutoff := (clock (clock_reads w) - timedelta_days (retention_days cfg))%Z in
  let d := db w in
  let d' := db (NetPulse.cleanup_old_data clock db_up cfg w).2 in
  (forall r, r ∈ ping_results d' <->
             r ∈ ping_results d /\ (cutoff <= pr_timestamp r)%Z) /\
  (forall r, r ∈ incidents d' <->
             r ∈ incidents d /\ (cutoff <= inc_start_time r)%Z) /\
  (forall r, r ∈ daily_reports d' <->
             r ∈ daily_reports d /\ (date_of cutoff <= dr_report_date r)%Z) /\
  ping_results d' = filter (fun r => (cutoff <= pr_timestamp r)%Z) (ping_results d) /\
  incidents d' = filter (fun r => (cutoff <= inc_start_time r)%Z) (incidents d) /\
  daily_reports d' =
    filter (fun r => (date_of cutoff <= dr_report_date r)%Z) (daily_reports d).
Proof.
  intros Hup cutoff d d'.
  assert (Hp : ping_results d' =
               filter (fun r => (cutoff <= pr_timestamp r)%Z) (ping_results d)).
  { unfold d'. rewrite cleanup_old_data_db by exact Hup. simpl.
    apply list_filter_iff. intros r. fold cutoff. lia. }
  assert (Hi : incidents d' =
               filter (fun r => (cutoff <= inc_start_time r)%Z) (incidents d)).
  { unfold d'. rewrite cleanup_old_data_db by exact Hup. simpl.
    apply list_filter_iff. intros r. fold cutoff. lia. }
  assert (Hr : daily_reports d' =
               filter (fun r => (date_of cutoff <= dr_report_date r)%Z)
                      (daily_reports d)).
  { unfold d'. rewrite cleanup_old_data_db by exact Hup. simpl.
    apply list_filter_iff. intros r. fold cutoff. lia. }
  rewrite Hp, Hi, Hr.
  split; [|split; [|split; [|auto]]];
    intros r; rewrite list_elem_of_filter; tauto.
Qed.

Lemma C8_pruning_witness :
  let cutoff :=
    (Sample.late_clock (clock_reads Sample.aged)
       - timedelta_days (retention_days Sample.cfg))%Z in
  let d := db Sample.aged in
  let d' := db (NetPulse.cleanup_old_data Sample.late_clock always_up
                  Sample.cfg Sample.aged).2 in
  (length (ping_results d) = 6 /\ length (ping_results d') = 1 /\
   length (incidents d) = 1 /\ length (incidents d') = 0) /\
  (forall r, r ∈ ping_results d' <->
             r ∈ ping_results d /\ (cutoff <= pr_timestamp r)%Z) /\
  (forall r, r ∈ incidents d' <->
             r ∈ incidents d /\ (cutoff <= inc_start_time r)%Z) /\
  (forall r, r ∈ daily_reports d' <->
             r ∈ daily_reports d /\ (date_of cutoff <= dr_report_date r)%Z) /\
  ping_results d' = filter (fun r => (cutoff <= pr_timestamp r)%Z) (ping_results d) /\
  incidents d' = filter (fun r => (cutoff <= inc_start_time r)%Z) (incidents d) /\
  daily_reports d' =
    filter (fun r => (date_of cutoff <= dr_report_date r)%Z) (daily_reports d).
Proof.
  cbv zeta. split; [repeat split; vm_compute; reflexivity|].
  apply (C8_retention_pruning Sample.late_clock always_up Sample.cfg Sample.aged).
  reflexivity.
Defined.

(** A report dated on the day of the cutoff stays, whatever the hour of
    the cutoff: reports are compared by their date. *)
Lemma report_of_cutoff_day_is_kept retention_date (d : database) r :
  r ∈ daily_reports d ->
  dr_report_date r = date_of retention_date ->
  r ∈ daily_reports (NetPulse.delete_older_than retention_date d).
Proof.
  intros Hin Hdate. unfold NetPulse.delete_older_than. simpl.
  apply list_elem_of_filter. split; [lia | exact Hin].
Qed.

(** ** Broadcasting *)

Lemma send_loop_spec send (msg : NetPulse.dashboard) (l : list nat) :
  forall acc c,
  let r := foldl (NetPulse.send_to_client send msg) acc l in
  (c ∈ r.1 <-> c ∈ acc.1 \/ (c ∈ l /\ send c <> NetPulse.Sent)) /\
  ((c, msg) ∈ r.2 <-> (c, msg) ∈ acc.2 \/ (c ∈ l /\ send c = NetPulse.Sent)).
Proof.
  induction l as [|a rest IH]; intros acc c; simpl.
  - split; split; try tauto; intros [H|[H _]]; try assumption;
      apply elem_of_nil in H; contradiction.
  - destruct (IH (NetPulse.send_to_client send msg acc a) c) as [IH1 IH2].
    rewrite IH1, IH2. clear IH IH1 IH2.
    unfold NetPulse.send_to_client.
    destruct (send a) eqn:Ea; simpl;
      rewrite ?elem_of_union, ?elem_of_singleton, ?elem_of_app,
        ?list_elem_of_singleton, !elem_of_cons.
    all: split; split; intros H.
    all: repeat match goal with
         | H : _ \/ _ |- _ => destruct H
         | H : _ /\ _ |- _ => destruct H
         | H : (_, _) = (_, _) |- _ => injection H as ->
         end; subst; try congruence; try tauto.
    all: try (right; split; [left; reflexivity | congruence]).
    all: try (left; right; reflexivity).
Qed.

(** In an undisturbed cycle a subscriber whose send fails, because its
    connection is closed or for any other reason, is out of the subscriber
    set when the cycle ends; and every subscriber whose send succeeds gets
    the snapshot of the cycle and stays in the set, whatever happens to
    the others. *)
Lemma broadcast_cycle_drops_failed_subscribers
    round2 t targets send (websocket_clients : gset nat) client :
  client ∈ websocket_clients ->
  let r := NetPulse.broadcast_cycle round2 t targets send websocket_clients in
  (send client <> NetPulse.Sent -> client ∉ r.1) /\
  (send client = NetPulse.Sent ->
     client ∈ r.1 /\ (client, NetPulse.dashboard_data round2 t targets) ∈ r.2).
Proof.
  intros Hin. unfold NetPulse.broadcast_cycle.
  destruct (decide (websocket_clients = ∅)) as [->|Hne].
  { apply not_elem_of_empty in Hin. contradiction. }
  pose proof (send_loop_spec send (NetPulse.dashboard_data round2 t targets)
                (elements websocket_clients) (∅, []) client) as Hloop.
  cbv zeta in Hloop.
  destruct (foldl _ _ (elements websocket_clients)) as [disconnected sent].
  simpl in *. destruct Hloop as [Hd Hs].
  assert (Hel : client ∈ elements websocket_clients)
    by (apply elem_of_elements; exact Hin).
  split.
  - intros Hfail Hmem. apply elem_of_difference in Hmem. destruct Hmem as [_ Hnot].
    apply Hnot. apply Hd. right. split; assumption.
  - intros Hok. split.
    + apply elem_of_difference. split; [exact Hin|].
      intros Hmem. apply Hd in Hmem. destruct Hmem as [Hmem|[_ Hmem]].
      * apply not_elem_of_empty in Hmem. exact Hmem.
      * contradiction.
    + apply Hs. right. split; assumption.
Qed.

Lemma send_loop_messages send (msg : NetPulse.dashboard) (l : list nat) :
  forall acc,
  (foldl (NetPulse.send_to_client send msg) acc l).2 =
  acc.2 ++ ((fun c => (c, msg)) <$>
              filter (fun c => send c = NetPulse.Sent) l).
Proof.
  induction l as [|a rest IH]; intros acc.
  - simpl. rewrite app_nil_r. reflexivity.
  - cbn [foldl]. rewrite IH. unfold NetPulse.send_to_client. rewrite filter_cons.
    destruct (decide (send a = NetPulse.Sent)) as [E|E].
    + rewrite E. simpl. rewrite <- app_assoc. reflexivity.
    + destruct (send a); [congruence| |]; reflexivity.
Qed.

Lemma fmap_fst_pair {A B} (b : B) (l : list A) :
  ((fun a => (a, b)) <$> l).*1 = l.
Proof.
  induction l as [|a l IH]; [reflexivity|].
  rewrite !fmap_cons, IH. reflexivity.
Qed.

(** ** The broadcast while the handlers run *)

Section LiveCycle.
Variable round2 : Q -> Q.
Variable send : nat -> NetPulse.send_outcome.
Variable during : nat -> list Broadcaster.handler_step.
Variable msg : NetPulse.dashboard.
Variable websocket_clients : gset nat.

(** As long as the handlers leave the set alone, the loop is the fold
    over the clients. *)
Lemma send_loop_quiet (rest : list nat) :
  forall acc,
  (forall c, c ∈ rest -> Broadcaster.quiet websocket_clients (during c)) ->
  Broadcaster.send_loop send during msg (size websocket_clients) rest
    (websocket_clients, false) acc =
  let r := foldl (NetPulse.send_to_client send msg) acc rest in
  Broadcaster.Completed (websocket_clients ∖ r.1) r.2.
Proof.
  induction rest as [|client rest IH]; intros acc Hq.
  - simpl. rewrite decide_True by reflexivity. reflexivity.
  - cbn [Broadcaster.send_loop fst snd]. rewrite decide_True by reflexivity.
    rewrite (Hq client) by apply list_elem_of_here.
    rewrite IH; [reflexivity|].
    intros c Hc. apply Hq. apply list_elem_of_further. exact Hc.
Qed.

(** The first change of size ends the loop at the next client. *)
Lemma send_loop_size_change (before after : list nat) client :
  forall acc,
  (forall c, c ∈ before -> Broadcaster.quiet websocket_clients (during c)) ->
  let live := (foldl Broadcaster.handler_run (websocket_clients, false)
                 (during client)).1 in
  size live <> size websocket_clients ->
  Broadcaster.send_loop send during msg (size websocket_clients)
    (before ++ client :: after) (websocket_clients, false) acc =
  Broadcaster.SetChangedSize live
    (foldl (NetPulse.send_to_client send msg) acc (before ++ [client])).2.
Proof.
  induction before as [|b before IH]; intros acc Hq live Hsize.
  - cbn [app Broadcaster.send_loop fst snd foldl].
    rewrite decide_True by reflexivity.
    destruct after as [|a after]; cbn [Broadcaster.send_loop];
      rewrite decide_False by exact Hsize; reflexivity.
  - cbn [app Broadcaster.send_loop fst snd foldl].
    rewrite decide_True by reflexivity.
    rewrite (Hq b) by apply list_elem_of_here.
    apply IH; [|exact Hsize].
    intros c Hc. apply Hq. apply list_elem_of_further. exact Hc.
Qed.

End LiveCycle.

(** A pass during which no handler changes the set is the cycle of
    [NetPulse.broadcast_cycle]. *)
Lemma broadcast_cycle_quiet round2 send during t targets
    (websocket_clients : gset nat) :
  (forall c, c ∈ websocket_clients ->
     Broadcaster.quiet websocket_clients (during c)) ->
  Broadcaster.broadcast_cycle round2 send during t targets websocket_clients =
  let r := NetPulse.broadcast_cycle round2 t targets send websocket_clients in
  Broadcaster.Completed r.1 r.2.
Proof.
  intros Hq. unfold Broadcaster.broadcast_cycle, NetPulse.broadcast_cycle.
  destruct (decide (websocket_clients = ∅)) as [E|E]; [reflexivity|].
  rewrite send_loop_quiet.
  - cbv zeta.
    destruct (foldl _ _ (elements websocket_clients)) as [disconnected sent].
    reflexivity.
  - intros c Hc. apply Hq. apply elem_of_elements. exact Hc.
Qed.

(** C9.  A handler that changes the size of the client set while a send
    of the cycle is awaited (a connection added, or a closed one removed
    by its [finally]) ends the broadcast: the iterator raises at the next
    client, the clients that come after in the loop get nothing, nothing
    is taken out of the set by the cycle, and [broadcast_data] makes no
    further pass. *)
Theorem C9_set_change_ends_the_broadcast
    round2 p passes (websocket_clients : gset nat) before client after :
  elements websocket_clients = before ++ client :: after ->
  (forall c, c ∈ before ->
     Broadcaster.quiet websocket_clients (Broadcaster.pass_during p c)) ->
  let live := (foldl Broadcaster.handler_run (websocket_clients, false)
                 (Broadcaster.pass_during p client)).1 in
  size live <> size websocket_clients ->
  exists sent,
    Broadcaster.broadcast_data round2 (p :: passes) websocket_clients =
      [Broadcaster.SetChangedSize live sent] /\
    (forall c, c ∈ after -> c ∉ sent.*1) /\
    (forall c, c ∈ sent.*1 -> Broadcaster.pass_send p c = NetPulse.Sent).
Proof.
  intros Hel Hq live Hsize.
  set (msg := NetPulse.dashboard_data round2 (Broadcaster.pass_time p)
                (Broadcaster.pass_targets p)).
  exists (foldl (NetPulse.send_to_client (Broadcaster.pass_send p) msg) (∅, [])
            (before ++ [client])).2.
  assert (Hne : websocket_clients <> ∅).
  { intros ->. rewrite elements_empty in Hel. destruct before; discriminate Hel. }
  split; [|split].
  - cbn [Broadcaster.broadcast_data]. unfold Broadcaster.broadcast_cycle.
    rewrite decide_False by exact Hne. rewrite Hel. fold msg.
    rewrite (send_loop_size_change (Broadcaster.pass_send p)
               (Broadcaster.pass_during p) msg websocket_clients before after
               client (∅, []) Hq Hsize).
    reflexivity.
  - intros c Hc. rewrite send_loop_messages. cbn [snd app].
    rewrite fmap_fst_pair, list_elem_of_filter. intros [_ Hin].
    pose proof (NoDup_elements websocket_clients) as Hnd. rewrite Hel in Hnd.
    replace (before ++ client :: after) with ((before ++ [client]) ++ after) in Hnd
      by (rewrite <- app_assoc; reflexivity).
    apply NoDup_app in Hnd. destruct Hnd as (_ & Hdis & _).
    exact (Hdis c Hin Hc).
  - intros c. rewrite send_loop_messages. cbn [snd app].
    rewrite fmap_fst_pair, list_elem_of_filter. intros [Hs _]. exact Hs.
Qed.

Lemma C9_closing_client_witness :
  (elements Sample.clients = [2] ++ 3 :: [1] /\
   Sample.send 2 = NetPulse.ConnectionClosed /\
   Sample.send 3 = NetPulse.Sent /\ Sample.send 1 = NetPulse.Sent) /\
  exists sent,
    Broadcaster.broadcast_data Qred [Closing.first_pass; Closing.later_pass]
      Sample.clients = [Broadcaster.SetChangedSize {[1; 3]} sent] /\
    (forall c, c ∈ [1] -> c ∉ sent.*1) /\
    (forall c, c ∈ sent.*1 -> Sample.send c = NetPulse.Sent).
Proof.
  split; [split; [|split; [|split]]; vm_compute; reflexivity|].
  apply (C9_set_change_ends_the_broadcast Qred Closing.first_pass
           [Closing.later_pass] Sample.clients [2] 3 [1]).
  - vm_compute. reflexivity.
  - intros c Hc. apply list_elem_of_singleton in Hc. subst c.
    vm_compute. reflexivity.
  - vm_compute. lia.
Defined.

(** With no handler in the way the cycle does what it is written for: a
    client whose send fails is out of the set when the cycle ends, and a
    client whose send goes through gets the snapshot and stays. *)
Lemma quiet_cycle_drops_failed_subscribers
    round2 send during t targets (websocket_clients : gset nat) client :
  (forall c, c ∈ websocket_clients ->
     Broadcaster.quiet websocket_clients (during c)) ->
  client ∈ websocket_clients ->
  exists clients sent,
    Broadcaster.broadcast_cycle round2 send during t targets websocket_clients =
      Broadcaster.Completed clients sent /\
    (send client <> NetPulse.Sent -> client ∉ clients) /\
    (send client = NetPulse.Sent ->
       client ∈ clients /\ (client, NetPulse.dashboard_data round2 t targets) ∈ sent).
Proof.
  intros Hq Hin. rewrite broadcast_cycle_quiet by exact Hq. cbv zeta.
  eexists _, _. split; [reflexivity|].
  exact (broadcast_cycle_drops_failed_subscribers round2 t targets send
           websocket_clients client Hin).
Qed.


(** * Further properties *)

(** ** The counters of the monitoring loop *)

Lemma monitor_target_snoc clock db_up smtp_up cfg target_name pings ping td w :
  NetPulse.monitor_target clock db_up smtp_up cfg target_name (pings ++ [ping]) td w =
  let r := NetPulse.monitor_target clock db_up smtp_up cfg target_name pings td w in
  NetPulse.monitor_target_iteration clock db_up smtp_up cfg target_name ping r.1 r.2.
Proof.
  revert td w. induction pings as [|p rest IH]; intros td w.
  - simpl. unfold bind, ret.
    destruct (NetPulse.monitor_target_iteration _ _ _ _ _ _ _ _); reflexivity.
  - rewrite <- app_comm_cons, !monitor_target_cons. cbv zeta. apply IH.
Qed.

Lemma trailing_failures_snoc threshold latencies l :
  trailing_failures threshold (latencies ++ [l]) =
  if is_failure threshold l then S (trailing_failures threshold latencies) else 0.
Proof. unfold trailing_failures. rewrite reverse_snoc. reflexivity. Qed.

Lemma iteration_counter clock db_up smtp_up cfg target_name ping td w :
  consecutive_failures
    (NetPulse.monitor_target_iteration clock db_up smtp_up cfg
       target_name ping td w).1 =
  if is_failure (latency_threshold cfg) (NetPulse.ping_target ping)
  then S (consecutive_failures td) else 0.
Proof.
  destruct (iteration_status clock db_up smtp_up cfg target_name ping td w)
    as (Hst & Hfail & Hup).
  destruct (is_failure _ _) eqn:E; [apply Hfail; reflexivity|].
  apply Hup. rewrite Hst. unfold is_failure in E.
  destruct (NetPulse.ping_target ping); [rewrite E; reflexivity | discriminate].
Qed.

(** X1.  Whatever the store and the mail server do, after any sequence of
    probes the failure counter of a target is the number of failing
    probes at the end of the sequence, and its status is that of the last
    probe. *)
Theorem X1_counter_is_trailing_failures
    clock db_up smtp_up cfg target_name tc pings w :
  let r := NetPulse.monitor_target clock db_up smtp_up cfg target_name pings
             (NetPulse.initial_target_data tc) w in
  consecutive_failures r.1 =
    trailing_failures (latency_threshold cfg) (NetPulse.ping_target <$> pings) /\
  status r.1 =
    match last pings with
    | None => st_unknown
    | Some ping =>
        match NetPulse.ping_target ping with
        | None => st_down
        | Some l =>
            if float_gtb l (latency_threshold cfg) then st_degraded else st_up
        end
    end.
Proof.
  induction pings as [|ping pings IH] using rev_ind; [split; reflexivity|].
  cbv zeta in *. rewrite monitor_target_snoc. cbv zeta.
  rewrite fmap_app, list_fmap_singleton, trailing_failures_snoc, last_snoc.
  rewrite iteration_counter. destruct IH as [-> _].
  split; [reflexivity|]. apply iteration_status.
Qed.

(** ** The rolling window *)

Lemma classify_window clock db_up smtp_up cfg target_name latency td w :
  let r := NetPulse.classify_and_track clock db_up smtp_up cfg
             target_name latency td w in
  recent_data r.1.2 = recent_data td /\
  total_checks r.1.2 = total_checks td /\
  avg_latency r.1.2 = avg_latency td /\
  packet_loss_rate r.1.2 = packet_loss_rate td.
Proof.
  unfold NetPulse.classify_and_track, NetPulse.start_incident, NetPulse.end_incident.
  unfold_monad. cbv zeta.
  destruct latency as [l|]; [destruct (float_gtb l _)|].
  all: repeat (first [alert_step | case_step]; simpl).
  all: repeat split; reflexivity.
Qed.

Lemma fmap_deque_append {A B} (f : A -> B) (n : nat) (x : A) (l : list A) :
  f <$> deque_append n x l = deque_append n (f x) (f <$> l).
Proof.
  unfold deque_append.
  rewrite fmap_drop, fmap_app, !length_app, length_fmap. reflexivity.
Qed.

Lemma record_result_window clock db_up cfg target_name latency st td w :
  let r := NetPulse.record_result clock db_up cfg target_name latency st td w in
  dp_latency <$> recent_data r.1 =
    deque_append (max_data_points cfg) latency (dp_latency <$> recent_data td) /\
  total_checks r.1 = total_checks td.
Proof.
  unfold NetPulse.record_result, NetPulse.store_ping_result.
  unfold_monad. cbv zeta.
  destruct (db_up (db_opens w)); simpl.
  all: match goal with
       | |- context [deque_append ?n ?x ?l] =>
           pose proof (fmap_deque_append dp_latency n x l) as Hrd;
           simpl in Hrd; set (rd := deque_append n x l) in *; clearbody rd
       end.
  all: repeat (case_step; simpl); split; first [exact Hrd | reflexivity].
Qed.

Lemma iteration_window clock db_up smtp_up cfg target_name ping td w :
  let r := NetPulse.monitor_target_iteration clock db_up smtp_up cfg
             target_name ping td w in
  dp_latency <$> recent_data r.1 =
    deque_append (max_data_points cfg) (NetPulse.ping_target ping)
      (dp_latency <$> recent_data td) /\
  total_checks r.1 = S (total_checks td).
Proof.
  unfold NetPulse.monitor_target_iteration, bind, NetPulse.now.
  cbv beta iota zeta.
  match goal with
  | |- context [NetPulse.classify_and_track _ _ _ _ ?n ?l ?td0 ?w0] =>
      pose proof (classify_window clock db_up smtp_up cfg n l td0 w0) as Hc;
      cbv zeta in Hc;
      destruct (NetPulse.classify_and_track clock db_up smtp_up cfg n l td0 w0)
        as [[st td'] w']
  end.
  simpl in Hc. cbv beta iota. destruct Hc as (Hrd & Htc & _).
  pose proof (record_result_window clock db_up cfg target_name
                (NetPulse.ping_target ping) st td' w') as Hr.
  cbv zeta in Hr. destruct Hr as [-> ->]. rewrite Hrd, Htc. split; reflexivity.
Qed.

Lemma deque_append_last_n {A} (n : nat) (x : A) (l : list A) :
  deque_append n x (NetPulse.last_n n l) = NetPulse.last_n n (l ++ [x]).
Proof.
  unfold deque_append, NetPulse.last_n.
  rewrite !length_app, length_drop. simpl.
  destruct (decide (n = 0)) as [->|Hn].
  - rewrite !Nat.sub_0_r, drop_all. simpl.
    rewrite Nat.sub_diag. simpl.
    rewrite drop_ge by (rewrite length_app; simpl; lia). reflexivity.
  - rewrite (drop_app_le (drop _ l)) by (rewrite length_drop; lia).
    rewrite drop_drop.
    rewrite (drop_app_le l) by lia.
    f_equal. f_equal. lia.
Qed.

Lemma monitor_target_window clock db_up smtp_up cfg target_name tc pings w :
  let r := NetPulse.monitor_target clock db_up smtp_up cfg target_name pings
             (NetPulse.initial_target_data tc) w in
  dp_latency <$> recent_data r.1 =
    NetPulse.last_n (max_data_points cfg) (NetPulse.ping_target <$> pings) /\
  total_checks r.1 = length pings.
Proof.
  cbv zeta. induction pings as [|ping pings IH] using rev_ind.
  - split; [|reflexivity]. simpl. unfold NetPulse.last_n. rewrite drop_nil. reflexivity.
  - rewrite monitor_target_snoc. cbv zeta.
    destruct (iteration_window clock db_up smtp_up cfg target_name ping
                (NetPulse.monitor_target clock db_up smtp_up cfg target_name pings
                   (NetPulse.initial_target_data tc) w).1
                (NetPulse.monitor_target clock db_up smtp_up cfg target_name pings
                   (NetPulse.initial_target_data tc) w).2) as [-> ->].
    destruct IH as [-> ->].
    rewrite deque_append_last_n, fmap_app, list_fmap_singleton, length_app.
    simpl. split; [reflexivity | lia].
Qed.

(** X2.  After any sequence of probes the rolling window of a target holds
    the latencies of the latest [max_data_points] probes, oldest first
    (all of them while there are fewer), and [total_checks] is the number
    of probes. *)
Theorem X2_window_holds_the_latest_probes
    clock db_up smtp_up cfg target_name tc pings w :
  let r := NetPulse.monitor_target clock db_up smtp_up cfg target_name pings
             (NetPulse.initial_target_data tc) w in
  dp_latency <$> recent_data r.1 =
    NetPulse.last_n (max_data_points cfg) (NetPulse.ping_target <$> pings) /\
  length (recent_data r.1) = Nat.min (length pings) (max_data_points cfg) /\
  total_checks r.1 = length pings.
Proof.
  cbv zeta.
  destruct (monitor_target_window clock db_up smtp_up cfg target_name tc pings w)
    as [Hw Ht].
  split; [exact Hw|]. split; [|exact Ht].
  apply (f_equal length) in Hw. rewrite length_fmap in Hw. rewrite Hw.
  unfold NetPulse.last_n. rewrite length_drop, length_fmap. lia.
Qed.
Lemma share_bounds {A B} (part : list A) (whole : list B) :
  length part <= length whole ->
  0 < length whole ->
  (0 <= float_len part / float_len whole * 100 <= 100)%Q.
Proof.
  intros Hle Hpos. unfold float_len.
  assert (Hb : (0 < inject_Z (Z.of_nat (length whole)))%Q).
  { rewrite <- (Zlt_Qlt 0). lia. }
  assert (Ha : (0 <= inject_Z (Z.of_nat (length part)))%Q).
  { rewrite <- (Zle_Qle 0). lia. }
  assert (Hab : (inject_Z (Z.of_nat (length part))
                 <= inject_Z (Z.of_nat (length whole)))%Q).
  { rewrite <- Zle_Qle. lia. }
  split.
  - apply Qmult_le_0_compat; [|discriminate].
    apply Qle_shift_div_l; [exact Hb|]. rewrite Qmult_0_l. exact Ha.
  - apply Qle_trans with (1 * 100)%Q; [|discriminate].
    apply Qmult_le_compat_r; [|discriminate].
    apply Qle_shift_div_r; [exact Hb|]. rewrite Qmult_1_l. exact Hab.
Qed.

Lemma length_filter_fmap {A B} (f : A -> B) (P : B -> Prop)
    `{!forall y, Decision (P y)} (l : list A) :
  length (filter (fun x => P (f x)) l) = length (filter P (f <$> l)).
Proof.
  induction l as [|a l IH]; [reflexivity|].
  rewrite fmap_cons, !filter_cons. destruct (decide (P (f a))); simpl; lia.
Qed.

Lemma record_result_rate clock db_up cfg target_name latency st td w :
  let r := NetPulse.record_result clock db_up cfg target_name latency st td w in
  packet_loss_rate r.1 =
    match recent_data r.1 with
    | [] => packet_loss_rate td
    | _ => (float_len (filter (fun d => dp_latency d = None) (recent_data r.1))
              / float_len (recent_data r.1) * 100)%Q
    end.
Proof.
  unfold NetPulse.record_result, NetPulse.store_ping_result.
  unfold_monad. cbv zeta.
  destruct (db_up (db_opens w)); simpl.
  all: match goal with
       | |- context [deque_append ?n ?x ?l] =>
           set (rd := deque_append n x l) in *; clearbody rd
       end.
  all: repeat (case_step; simpl); reflexivity.
Qed.

Lemma iteration_rate clock db_up smtp_up cfg target_name ping td w :
  let r := NetPulse.monitor_target_iteration clock db_up smtp_up cfg
             target_name ping td w in
  packet_loss_rate r.1 =
    match recent_data r.1 with
    | [] => packet_loss_rate td
    | _ => (float_len (filter (fun d => dp_latency d = None) (recent_data r.1))
              / float_len (recent_data r.1) * 100)%Q
    end.
Proof.
  unfold NetPulse.monitor_target_iteration, bind, NetPulse.now.
  cbv beta iota zeta.
  match goal with
  | |- context [NetPulse.classify_and_track _ _ _ _ ?n ?l ?td0 ?w0] =>
      pose proof (classify_window clock db_up smtp_up cfg n l td0 w0) as Hc;
      cbv zeta in Hc;
      destruct (NetPulse.classify_and_track clock db_up smtp_up cfg n l td0 w0)
        as [[st td'] w']
  end.
  simpl in Hc. cbv beta iota. destruct Hc as (_ & _ & _ & Hrate).
  rewrite record_result_rate, Hrate. reflexivity.
Qed.

Lemma rate_in_bounds_step clock db_up smtp_up cfg target_name ping td w :
  (0 <= packet_loss_rate td <= 100)%Q ->
  (0 <= packet_loss_rate
          (NetPulse.monitor_target_iteration clock db_up smtp_up cfg
             target_name ping td w).1 <= 100)%Q.
Proof.
  intros Hold. rewrite iteration_rate.
  destruct (recent_data _) as [|d rest] eqn:E; [exact Hold|].
  apply share_bounds; [apply length_filter | simpl; lia].
Qed.

(** X3.  The packet loss rate of a target always lies between 0 and 100;
    once a probe has been made (and the window is not of size 0) it is the
    share, in percent, of the probes in the rolling window that got no
    reply. *)
Theorem X3_packet_loss_rate_is_the_share_of_lost_probes
    clock db_up smtp_up cfg target_name tc pings w :
  let r := NetPulse.monitor_target clock db_up smtp_up cfg target_name pings
             (NetPulse.initial_target_data tc) w in
  let window :=
    NetPulse.last_n (max_data_points cfg) (NetPulse.ping_target <$> pings) in
  (0 <= packet_loss_rate r.1 <= 100)%Q /\
  (0 < max_data_points cfg -> pings <> [] ->
   packet_loss_rate r.1 =
     (float_len (filter (fun l => l = None) window) / float_len window * 100)%Q).
Proof.
  cbv zeta. split.
  - induction pings as [|ping pings IH] using rev_ind.
    + simpl. split; discriminate.
    + rewrite monitor_target_snoc. cbv zeta. apply rate_in_bounds_step. exact IH.
  - intros Hmax Hne.
    destruct (monitor_target_window clock db_up smtp_up cfg target_name tc pings w)
      as [Hw _].
    destruct pings as [|ping pings _] using rev_ind; [congruence|].
    rewrite monitor_target_snoc in *. cbv zeta in *.
    rewrite iteration_rate.
    set (r := NetPulse.monitor_target_iteration _ _ _ _ _ _ _ _) in *.
    rewrite <- Hw.
    destruct (recent_data r.1) as [|d rest] eqn:E.
    + exfalso. apply (f_equal length) in Hw.
      simpl in Hw.
      unfold NetPulse.last_n in Hw.
      rewrite length_drop, length_fmap, length_app in Hw. simpl in Hw. lia.
    + unfold float_len.
      rewrite <- (length_filter_fmap dp_latency (fun l => l = None)).
      rewrite length_fmap. reflexivity.
Qed.
(** ** What the loop remembers about a streak *)

Lemma classify_tracking clock db_up smtp_up cfg target_name latency td w :
  (consecutive_failures td = 0 ->
   first_failure_time td = None /\ current_incident_id td = None) ->
  (consecutive_failures td <> 0 -> is_Some (first_failure_time td)) ->
  let r := NetPulse.classify_and_track clock db_up smtp_up cfg
             target_name latency td w in
  (consecutive_failures r.1.2 = 0 ->
   first_failure_time r.1.2 = None /\ current_incident_id r.1.2 = None) /\
  (consecutive_failures r.1.2 <> 0 -> is_Some (first_failure_time r.1.2)) /\
  last_check r.1.2 = last_check td.
Proof.
  intros Hidle Hbusy.
  unfold NetPulse.classify_and_track, NetPulse.start_incident, NetPulse.end_incident.
  unfold_monad. cbv zeta.
  destruct latency as [l|]; [destruct (float_gtb l _)|].
  all: repeat (first [alert_step | case_step]; simpl).
  all: repeat match goal with
         | H : (_ =? _) = true |- _ => apply Nat.eqb_eq in H
         | H : (_ =? _) = false |- _ => apply Nat.eqb_neq in H
         | H : (_ <? _) = true |- _ => apply Nat.ltb_lt in H
         | H : (_ <? _) = false |- _ => apply Nat.ltb_ge in H
         end.
  all: split; [|split; [|reflexivity]]; intros Hcf; simpl in *;
    first [discriminate Hcf | congruence | eauto | apply Hidle; lia
          | apply Hbusy; lia | split; reflexivity].
Qed.

Lemma record_result_tracking clock db_up cfg target_name latency st td w :
  let r := NetPulse.record_result clock db_up cfg target_name latency st td w in
  first_failure_time r.1 = first_failure_time td /\
  last_check r.1 = last_check td.
Proof.
  unfold NetPulse.record_result, NetPulse.store_ping_result.
  unfold_monad. cbv zeta.
  repeat (case_step; simpl); split; reflexivity.
Qed.

Lemma iteration_tracking clock db_up smtp_up cfg target_name ping td w :
  (consecutive_failures td = 0 ->
   first_failure_time td = None /\ current_incident_id td = None) ->
  (consecutive_failures td <> 0 -> is_Some (first_failure_time td)) ->
  let r := NetPulse.monitor_target_iteration clock db_up smtp_up cfg
             target_name ping td w in
  (consecutive_failures r.1 = 0 ->
   first_failure_time r.1 = None /\ current_incident_id r.1 = None) /\
  (consecutive_failures r.1 <> 0 -> is_Some (first_failure_time r.1)) /\
  is_Some (last_check r.1).
Proof.
  intros Hidle Hbusy.
  unfold NetPulse.monitor_target_iteration, bind, NetPulse.now.
  cbv beta iota zeta.
  match goal with
  | |- context [NetPulse.classify_and_track _ _ _ _ ?n ?l ?td0 ?w0] =>
      pose proof (classify_tracking clock db_up smtp_up cfg n l td0 w0 Hidle Hbusy)
        as Hc;
      cbv zeta in Hc;
      destruct (NetPulse.classify_and_track clock db_up smtp_up cfg n l td0 w0)
        as [[st td'] w']
  end.
  simpl in Hc. cbv beta iota. destruct Hc as (Hc0 & Hc1 & Hlc).
  pose proof (record_result_frame clock db_up cfg target_name
                (NetPulse.ping_target ping) st td' w') as Hr.
  pose proof (record_result_tracking clock db_up cfg target_name
                (NetPulse.ping_target ping) st td' w') as Ht.
  cbv zeta in Hr, Ht. destruct Hr as (Hcf & _ & Hid & _). destruct Ht as [Hfft Hl].
  rewrite Hcf, Hid, Hfft, Hl, Hlc. eauto.
Qed.

(** X4.  Whatever the store and the mail server do, after any sequence of
    probes a target has a first failure time exactly when its failure
    counter is positive, it has no current incident while the counter is
    0, and it has a time of last check exactly when it has been probed. *)
Theorem X4_a_streak_is_remembered_while_it_lasts
    clock db_up smtp_up cfg target_name tc pings w :
  let r := NetPulse.monitor_target clock db_up smtp_up cfg target_name pings
             (NetPulse.initial_target_data tc) w in
  (first_failure_time r.1 = None <-> consecutive_failures r.1 = 0) /\
  (consecutive_failures r.1 = 0 -> current_incident_id r.1 = None) /\
  (last_check r.1 = None <-> pings = []).
Proof.
  cbv zeta.
  assert (H : let r := NetPulse.monitor_target clock db_up smtp_up cfg target_name
                         pings (NetPulse.initial_target_data tc) w in
              (consecutive_failures r.1 = 0 ->
               first_failure_time r.1 = None /\ current_incident_id r.1 = None) /\
              (consecutive_failures r.1 <> 0 -> is_Some (first_failure_time r.1)) /\
              (last_check r.1 = None <-> pings = [])).
  { induction pings as [|ping pings IH] using rev_ind.
    - simpl. repeat split; congruence.
    - cbv zeta in *. rewrite monitor_target_snoc. cbv zeta.
      destruct IH as (Hidle & Hbusy & _).
      set (r := NetPulse.monitor_target _ _ _ _ _ pings _ _) in *.
      destruct (iteration_tracking clock db_up smtp_up cfg target_name ping
                  r.1 r.2 Hidle Hbusy) as (H0 & H1 & [t Ht]).
      split; [exact H0 | split; [exact H1|]].
      rewrite Ht. split; [discriminate|]. intros E.
      destruct pings; discriminate E. }
  cbv zeta in H. destruct H as (Hidle & Hbusy & Hlast).
  split; [|split; [apply Hidle | exact Hlast]].
  split; [|apply Hidle].
  intros Hnone. destruct (decide (consecutive_failures
    (NetPulse.monitor_target clock db_up smtp_up cfg target_name pings
       (NetPulse.initial_target_data tc) w).1 = 0)) as [E|E]; [exact E|].
  destruct (Hbusy E) as [t Ht]. congruence.
Qed.
(** ** What the loop stores *)

Lemma classify_store clock db_up smtp_up cfg target_name latency td w :
  let r := NetPulse.classify_and_track clock db_up smtp_up cfg
             target_name latency td w in
  ping_results (db r.2) = ping_results (db w) /\
  ping_results_seq (db r.2) = ping_results_seq (db w) /\
  td_config r.1.2 = td_config td.
Proof.
  unfold NetPulse.classify_and_track, NetPulse.start_incident, NetPulse.end_incident.
  unfold_monad. cbv zeta.
  destruct latency as [l|]; [destruct (float_gtb l _)|].
  all: repeat (first [alert_step | case_step]; simpl).
  all: repeat match goal with H : db _ = _ |- _ => rewrite H end.
  all: repeat split; reflexivity.
Qed.

Lemma record_result_store clock db_up cfg target_name latency st td w :
  let r := NetPulse.record_result clock db_up cfg target_name latency st td w in
  td_config r.1 = td_config td /\
  if db_up (db_opens w) then
    exists id t,
      ping_results (db r.2) =
        ping_results (db w) ++
          [{| pr_id := id; pr_target_name := target_name;
              pr_target_ip := tc_ip (td_config td); pr_timestamp := t;
              pr_latency := latency; pr_status := st;
              pr_packet_loss := match latency with None => 1 | Some _ => 0 end |}]
  else db r.2 = db w.
Proof.
  unfold NetPulse.record_result, NetPulse.store_ping_result.
  unfold_monad. cbv zeta.
  destruct (db_up (db_opens w)); simpl.
  all: match goal with
       | |- context [deque_append ?n ?x ?l] =>
           set (rd := deque_append n x l) in *; clearbody rd
       end.
  all: repeat (case_step; simpl); split; eauto.
Qed.

Lemma iteration_store clock db_up smtp_up cfg target_name ping td w :
  (forall k, db_up k = true) ->
  let r := NetPulse.monitor_target_iteration clock db_up smtp_up cfg
             target_name ping td w in
  td_config r.1 = td_config td /\
  exists row,
    ping_results (db r.2) = ping_results (db w) ++ [row] /\
    ping_row_values row =
      stored_values (latency_threshold cfg) target_name (tc_ip (td_config td))
        (NetPulse.ping_target ping).
Proof.
  intros db_ok.
  unfold NetPulse.monitor_target_iteration, bind, NetPulse.now.
  cbv beta iota zeta.
  match goal with
  | |- context [NetPulse.classify_and_track _ _ _ _ ?n ?l ?td0 ?w0] =>
      pose proof (classify_store clock db_up smtp_up cfg n l td0 w0) as Hc;
      pose proof (classify_status clock db_up smtp_up cfg n l td0 w0) as Hs;
      cbv zeta in Hc;
      destruct (NetPulse.classify_and_track clock db_up smtp_up cfg n l td0 w0)
        as [[st td'] w']
  end.
  simpl in Hc, Hs. cbv beta iota. destruct Hc as (Hrows & _ & Hcfg).
  pose proof (record_result_store clock db_up cfg target_name
                (NetPulse.ping_target ping) st td' w') as Hr.
  cbv zeta in Hr. rewrite db_ok in Hr. destruct Hr as (Hcfg' & id & t & Hr).
  rewrite Hcfg in Hr. subst st.
  rewrite Hcfg', Hcfg, Hr, Hrows. split; [reflexivity|].
  eexists. split; reflexivity.
Qed.

(** X5.  When the transactions of the store go through, a run of the loop
    adds one row to [ping_results] for each probe, in the order of the
    probes and after the rows that were there: the row carries the name
    and the address of the target, the latency read, its status text, and
    a loss flag that is 1 exactly when there was no latency. *)
Theorem X5_one_stored_row_per_probe
    clock db_up smtp_up cfg target_name pings td w :
  (forall k, db_up k = true) ->
  let r := NetPulse.monitor_target clock db_up smtp_up cfg target_name pings td w in
  exists rows,
    ping_results (db r.2) = ping_results (db w) ++ rows /\
    ping_row_values <$> rows =
      stored_values (latency_threshold cfg) target_name (tc_ip (td_config td))
        <$> (NetPulse.ping_target <$> pings).
Proof.
  intros db_ok. cbv zeta.
  assert (H : let r := NetPulse.monitor_target clock db_up smtp_up cfg target_name
                         pings td w in
              td_config r.1 = td_config td /\
              exists rows,
                ping_results (db r.2) = ping_results (db w) ++ rows /\
                ping_row_values <$> rows =
                  stored_values (latency_threshold cfg) target_name
                    (tc_ip (td_config td)) <$> (NetPulse.ping_target <$> pings)).
  { induction pings as [|ping pings IH] using rev_ind.
    - simpl. split; [reflexivity|]. exists []. rewrite app_nil_r. split; reflexivity.
    - cbv zeta in *. rewrite monitor_target_snoc. cbv zeta.
      set (r := NetPulse.monitor_target _ _ _ _ _ pings _ _) in *.
      destruct IH as (Hcfg & rows & Hrows & Hvals).
      destruct (iteration_store clock db_up smtp_up cfg target_name ping r.1 r.2
                  db_ok) as (Hcfg' & row & Hrow & Hval).
      split; [congruence|].
      exists (rows ++ [row]). rewrite Hrow, Hrows, <- app_assoc.
      split; [reflexivity|].
      rewrite !fmap_app, !list_fmap_singleton, Hvals, Hval, Hcfg. reflexivity. }
  apply H.
Qed.

Lemma X5_stored_rows_witness :
  (forall k, always_up k = true) /\
  exists rows,
    ping_results (db (Sample.run Sample.streak).2) =
      ping_results (db Sample.w0) ++ rows /\
    ping_row_values <$> rows =
      stored_values (latency_threshold Sample.cfg) "A"
        (tc_ip (td_config Sample.td0))
        <$> (NetPulse.ping_target <$> Sample.streak).
Proof.
  split; [reflexivity|].
  apply (X5_one_stored_row_per_probe Sample.clock always_up always_up Sample.cfg
           "A" Sample.streak Sample.td0 Sample.w0).
  reflexivity.
Defined.

Lemma classify_store_down clock db_up smtp_up cfg target_name latency td w :
  (forall k, db_up k = false) ->
  current_incident_id td = None ->
  let r := NetPulse.classify_and_track clock db_up smtp_up cfg
             target_name latency td w in
  db r.2 = db w /\ current_incident_id r.1.2 = None.
Proof.
  intros db_down Hid.
  unfold NetPulse.classify_and_track, NetPulse.start_incident, NetPulse.end_incident.
  unfold_monad. cbv zeta. rewrite Hid. simpl.
  destruct latency as [l|]; [destruct (float_gtb l _)|].
  all: repeat (first [alert_step | rewrite db_down | case_step]; simpl).
  all: repeat match goal with H : db _ = _ |- _ => rewrite H end.
  all: split; first [reflexivity | assumption].
Qed.

(** X6.  When no transaction of the store goes through, a run of the loop
    leaves the store as it was and the target never holds an incident id,
    however many probes fail. *)
Theorem X6_nothing_is_stored_while_the_store_is_down
    clock db_up smtp_up cfg target_name tc pings w :
  (forall k, db_up k = false) ->
  let r := NetPulse.monitor_target clock db_up smtp_up cfg target_name pings
             (NetPulse.initial_target_data tc) w in
  db r.2 = db w /\ current_incident_id r.1 = None.
Proof.
  intros db_down. cbv zeta.
  induction pings as [|ping pings IH] using rev_ind; [split; reflexivity|].
  rewrite monitor_target_snoc. cbv zeta.
  set (r := NetPulse.monitor_target _ _ _ _ _ pings _ _) in *.
  destruct IH as [Hdb Hid]. rewrite <- Hdb.
  unfold NetPulse.monitor_target_iteration, bind, NetPulse.now.
  cbv beta iota zeta.
  match goal with
  | |- context [NetPulse.classify_and_track _ _ _ _ ?n ?l ?td0 ?w0] =>
      pose proof (classify_store_down clock db_up smtp_up cfg n l td0 w0
                    db_down Hid) as Hc;
      cbv zeta in Hc;
      destruct (NetPulse.classify_and_track clock db_up smtp_up cfg n l td0 w0)
        as [[st td'] w']
  end.
  simpl in Hc. cbv beta iota. destruct Hc as [Hdb' Hid'].
  pose proof (record_result_store clock db_up cfg target_name
                (NetPulse.ping_target ping) st td' w') as Hs.
  pose proof (record_result_frame clock db_up cfg target_name
                (NetPulse.ping_target ping) st td' w') as Hr.
  cbv zeta in Hs, Hr. rewrite db_down in Hs.
  destruct Hs as [_ Hs]. destruct Hr as (_ & _ & Hcid & _).
  rewrite Hs, Hcid, Hdb', Hid'. split; reflexivity.
Qed.

Lemma X6_store_down_witness :
  (forall k, never_up k = false) /\
  db (NetPulse.monitor_target Sample.clock never_up always_up Sample.cfg "A"
        Sample.streak Sample.td0 Sample.w0).2 = db Sample.w0 /\
  current_incident_id
    (NetPulse.monitor_target Sample.clock never_up always_up Sample.cfg "A"
       Sample.streak Sample.td0 Sample.w0).1 = None.
Proof.
  split; [reflexivity|].
  apply (X6_nothing_is_stored_while_the_store_is_down Sample.clock never_up
           always_up Sample.cfg "A" Sample.target_a Sample.streak Sample.w0).
  reflexivity.
Defined.
(** ** One incident per streak *)

Lemma streak_open_snoc threshold b latencies l :
  streak_open threshold b (latencies ++ [l]) = is_failure threshold l.
Proof.
  revert b. induction latencies as [|x rest IH]; intros b; [reflexivity|].
  simpl. apply IH.
Qed.

Lemma streak_kinds_snoc threshold b latencies l :
  streak_kinds threshold b (latencies ++ [l]) =
  streak_kinds threshold b latencies ++
    (if is_failure threshold l
     then (if streak_open threshold b latencies then [] else [kind_of_latency l])
     else []).
Proof.
  revert b. induction latencies as [|x rest IH]; intros b.
  - simpl. destruct (is_failure threshold l); [|reflexivity].
    rewrite app_nil_r. reflexivity.
  - simpl. destruct (is_failure threshold x); rewrite IH.
    + rewrite app_assoc. reflexivity.
    + reflexivity.
Qed.

Lemma streak_open_trailing threshold latencies :
  streak_open threshold false latencies =
  negb (trailing_failures threshold latencies =? 0).
Proof.
  destruct latencies as [|l latencies _] using rev_ind; [reflexivity|].
  rewrite streak_open_snoc, trailing_failures_snoc.
  destruct (is_failure threshold l); reflexivity.
Qed.

Lemma close_incident_row_other id end_time dur ml plc (rows : list incident_row) :
  Forall (fun r => inc_id r < id) rows ->
  NetPulse.close_incident_row id end_time dur ml plc <$> rows = rows.
Proof.
  induction 1 as [|r rows Hr _ IH]; [reflexivity|].
  rewrite fmap_cons, IH. f_equal.
  unfold NetPulse.close_incident_row.
  destruct (inc_id r =? id) eqn:E; [|reflexivity].
  apply Nat.eqb_eq in E. lia.
Qed.

Lemma next_rowid_fresh {A} (f : A -> nat) seq (rows : list A) :
  Forall (fun r => f r < next_rowid seq (f <$> rows)) rows.
Proof.
  apply Forall_forall. intros r Hr. unfold next_rowid.
  assert (f r <= max_list (f <$> rows)).
  { apply max_list_elem_of_le. apply list_elem_of_fmap. eauto. }
  lia.
Qed.

Lemma find_last_row id (rows : list incident_row) r0 :
  inc_id r0 = id ->
  Forall (fun r => inc_id r < id) rows ->
  find (fun r => inc_id r =? id) (rows ++ [r0]) = Some r0.
Proof.
  intros Hid. induction 1 as [|r rows Hr _ IH].
  - simpl. rewrite Hid, Nat.eqb_refl. reflexivity.
  - simpl. destruct (inc_id r =? id) eqn:E; [|exact IH].
    apply Nat.eqb_eq in E. lia.
Qed.

Section Incidents.
Variable clock : nat -> Z.
Variable db_up : nat -> bool.
Variable smtp_up : nat -> bool.
Variable cfg : config.
Hypothesis db_ok : forall k, db_up k = true.

Ltac use_alert_db :=
  alert_step; simpl;
  match goal with H : db _ = _ |- _ => rewrite H end.

(** A failing reading with no streak running opens an incident. *)
Lemma classify_opens target_name latency td w :
  consecutive_failures td = 0 ->
  is_failure (latency_threshold cfg) latency = true ->
  let r := NetPulse.classify_and_track clock db_up smtp_up cfg
             target_name latency td w in
  exists r0,
    incidents (db r.2) = incidents (db w) ++ [r0] /\
    inc_incident_type r0 = kind_of_latency latency /\
    inc_target_name r0 = target_name /\
    inc_resolved r0 = false /\
    current_incident_id r.1.2 = Some (inc_id r0) /\
    inc_id r0 <> 0 /\
    Forall (fun r' => inc_id r' < inc_id r0) (incidents (db w)).
Proof.
  intros Hcf Hfail.
  unfold NetPulse.classify_and_track, NetPulse.start_incident.
  unfold_monad. cbv zeta. rewrite Hcf. unfold is_failure in Hfail.
  destruct latency as [l|]; [rewrite Hfail|]; simpl; rewrite db_ok; simpl.
  all: use_alert_db; simpl.
  all: eexists; split; [reflexivity|]; simpl.
  all: repeat split; try discriminate; apply next_rowid_fresh.
Qed.

(** A healthy reading with no streak running leaves the incidents alone. *)
Lemma classify_idle target_name latency td w :
  consecutive_failures td = 0 ->
  is_failure (latency_threshold cfg) latency = false ->
  let r := NetPulse.classify_and_track clock db_up smtp_up cfg
             target_name latency td w in
  incidents (db r.2) = incidents (db w).
Proof.
  intros Hcf Hfail.
  unfold NetPulse.classify_and_track.
  unfold_monad. cbv zeta. rewrite Hcf. unfold is_failure in Hfail.
  destruct latency as [l|]; [rewrite Hfail|discriminate]; reflexivity.
Qed.

(** A healthy reading closes the incident of the running streak. *)
Lemma classify_closes target_name latency td w rows r0 :
  consecutive_failures td <> 0 ->
  is_failure (latency_threshold cfg) latency = false ->
  incidents (db w) = rows ++ [r0] ->
  current_incident_id td = Some (inc_id r0) ->
  inc_id r0 <> 0 ->
  Forall (fun r' => inc_id r' < inc_id r0) rows ->
  let r := NetPulse.classify_and_track clock db_up smtp_up cfg
             target_name latency td w in
  exists r0',
    incidents (db r.2) = rows ++ [r0'] /\
    inc_resolved r0' = true /\
    inc_incident_type r0' = inc_incident_type r0 /\
    inc_target_name r0' = inc_target_name r0.
Proof.
  intros Hcf Hfail Hrows Hid Hnz Hlt.
  unfold NetPulse.classify_and_track, NetPulse.end_incident.
  unfold_monad. cbv zeta. unfold is_failure in Hfail.
  destruct latency as [l|]; [rewrite Hfail|discriminate].
  destruct (consecutive_failures td) as [|n]; [congruence|]. simpl.
  rewrite Hid. simpl. apply Nat.eqb_neq in Hnz. rewrite Hnz. simpl.
  rewrite db_ok. simpl. rewrite Hrows.
  rewrite (find_last_row (inc_id r0) rows r0 eq_refl Hlt). simpl.
  use_alert_db. simpl.
  rewrite fmap_app, close_incident_row_other by exact Hlt.
  rewrite list_fmap_singleton. unfold NetPulse.close_incident_row.
  rewrite Nat.eqb_refl. eexists. split; [reflexivity|]. repeat split.
Qed.

End Incidents.

Lemma iteration_incidents clock db_up smtp_up cfg target_name ping td w old new :
  (forall k, db_up k = true) ->
  incidents (db w) = old ++ new ->
  streak_rows td old new ->
  Forall (fun r => inc_target_name r = target_name) new ->
  let r := NetPulse.monitor_target_iteration clock db_up smtp_up cfg
             target_name ping td w in
  exists new',
    incidents (db r.2) = old ++ new' /\
    streak_rows r.1 old new' /\
    Forall (fun r => inc_target_name r = target_name) new' /\
    inc_incident_type <$> new' =
      (inc_incident_type <$> new) ++
        (if is_failure (latency_threshold cfg) (NetPulse.ping_target ping)
         then (if consecutive_failures td =? 0
               then [kind_of_latency (NetPulse.ping_target ping)] else [])
         else []).
Proof.
  intros db_ok Hold Hrows Hnames.
  pose proof (iteration_counter clock db_up smtp_up cfg target_name ping td w) as Hcf.
  revert Hcf.
  unfold NetPulse.monitor_target_iteration, bind, NetPulse.now.
  cbv beta iota zeta.
  match goal with
  | |- context [NetPulse.classify_and_track _ _ _ _ ?n ?l ?td0 ?w0] =>
      pose proof (classify_opens clock db_up smtp_up cfg db_ok n l td0 w0) as Hopen;
      pose proof (classify_idle clock db_up smtp_up cfg n l td0 w0) as Hidle;
      pose proof (classify_closes clock db_up smtp_up cfg db_ok n l td0 w0) as Hclose;
      pose proof (classify_streak_frame clock db_up smtp_up cfg n l td0 w0) as Hkeep;
      cbv zeta in Hopen, Hidle, Hclose, Hkeep;
      destruct (NetPulse.classify_and_track clock db_up smtp_up cfg n l td0 w0)
        as [[st td'] w']
  end.
  simpl in Hopen, Hidle, Hclose, Hkeep. cbv beta iota.
  pose proof (record_result_frame clock db_up cfg target_name
                (NetPulse.ping_target ping) st td' w') as Hr.
  cbv zeta in Hr. destruct Hr as (Hcf' & _ & Hid' & _ & Hinc' & _).
  set (r := NetPulse.record_result _ _ _ _ _ _ _ _) in *.
  intros Hcf. rewrite Hinc'. unfold streak_rows in *. rewrite Hid', Hcf.
  destruct (is_failure _ _) eqn:Efail;
    destruct (consecutive_failures td) as [|n] eqn:Ecf; simpl.
  - (* a streak starts *)
    destruct (Hopen eq_refl eq_refl)
      as (r0 & Hinc & Hkind & Hname & Hres & Hcid & Hnz & Hlt).
    exists (new ++ [r0]). rewrite Hinc, Hold, app_assoc.
    split; [reflexivity|]. split; [|split].
    + exists new, r0. rewrite <- Hold. auto 10.
    + apply Forall_app. split; [exact Hnames|]. apply Forall_singleton. exact Hname.
    + rewrite fmap_app, list_fmap_singleton, Hkind. reflexivity.
  - (* the streak goes on *)
    destruct Hkeep as [Hcid Hdb]; [lia | reflexivity|].
    exists new. rewrite Hdb, Hold, Hcid, app_nil_r. auto.
  - (* nothing to do *)
    exists new. rewrite Hidle, Hold, app_nil_r by reflexivity. auto.
  - (* the streak ends *)
    destruct Hrows as (rows & r0 & -> & Hres & Hopen0 & Hcid & Hnz & Hlt).
    rewrite app_assoc in Hold.
    destruct (Hclose (old ++ rows) r0) as (r0' & Hinc & Hres' & Hkind & Hname);
      [discriminate | reflexivity | exact Hold | exact Hcid | exact Hnz
      | exact Hlt |].
    exists (rows ++ [r0']). rewrite Hinc, app_assoc, app_nil_r.
    split; [reflexivity|]. split; [|split].
    + apply Forall_app. split; [exact Hres|]. apply Forall_singleton. exact Hres'.
    + destruct (proj1 (Forall_app _ _ _) Hnames) as [Hn1 Hn2].
      apply Forall_app. split; [exact Hn1|]. apply Forall_singleton.
      rewrite Hname. exact (proj1 (Forall_singleton _ _) Hn2).
    + rewrite !fmap_app, !list_fmap_singleton, Hkind. reflexivity.
Qed.

(** X7.  When the transactions of the store go through, a run of the loop
    from the initial state of a target leaves the incidents that were in
    the table as they were and adds one incident for each streak of
    failing probes, of the kind of the first probe of the streak and under
    the name of the target; all of them are resolved, except the last one
    while a streak is still running, whose id the target holds. *)
Theorem X7_one_incident_per_streak
    clock db_up smtp_up cfg target_name tc pings w :
  (forall k, db_up k = true) ->
  let r := NetPulse.monitor_target clock db_up smtp_up cfg target_name pings
             (NetPulse.initial_target_data tc) w in
  exists new,
    incidents (db r.2) = incidents (db w) ++ new /\
    inc_incident_type <$> new =
      streak_kinds (latency_threshold cfg) false (NetPulse.ping_target <$> pings) /\
    Forall (fun row => inc_target_name row = target_name) new /\
    streak_rows r.1 (incidents (db w)) new.
Proof.
  intros db_ok. cbv zeta.
  assert (H : let r := NetPulse.monitor_target clock db_up smtp_up cfg target_name
                         pings (NetPulse.initial_target_data tc) w in
              consecutive_failures r.1 =
                trailing_failures (latency_threshold cfg)
                  (NetPulse.ping_target <$> pings) /\
              exists new,
                incidents (db r.2) = incidents (db w) ++ new /\
                inc_incident_type <$> new =
                  streak_kinds (latency_threshold cfg) false
                    (NetPulse.ping_target <$> pings) /\
                Forall (fun row => inc_target_name row = target_name) new /\
                streak_rows r.1 (incidents (db w)) new).
  { induction pings as [|ping pings IH] using rev_ind.
    - simpl. split; [reflexivity|]. exists []. rewrite app_nil_r.
      repeat split; constructor.
    - cbv zeta in *. rewrite monitor_target_snoc. cbv zeta.
      set (r := NetPulse.monitor_target _ _ _ _ _ pings _ _) in *.
      destruct IH as (Hcf & new & Hinc & Hkinds & Hnames & Hrows).
      rewrite fmap_app, list_fmap_singleton, trailing_failures_snoc,
        streak_kinds_snoc, streak_open_trailing, <- Hcf, <- Hkinds.
      split; [apply iteration_counter|].
      destruct (iteration_incidents clock db_up smtp_up cfg target_name ping
                  r.1 r.2 _ new db_ok Hinc Hrows Hnames)
        as (new' & Hinc' & Hrows' & Hnames' & Hkinds').
      exists new'. rewrite Hkinds'.
      destruct (consecutive_failures r.1 =? 0); auto. }
  apply H.
Qed.

Lemma X7_streak_witness :
  (forall k, always_up k = true) /\
  exists new,
    incidents (db (Sample.run Sample.streak).2) = incidents (db Sample.w0) ++ new /\
    inc_incident_type <$> new =
      streak_kinds (latency_threshold Sample.cfg) false
        (NetPulse.ping_target <$> Sample.streak) /\
    Forall (fun row => inc_target_name row = "A"%string) new /\
    streak_rows (Sample.run Sample.streak).1 (incidents (db Sample.w0)) new.
Proof.
  split; [reflexivity|].
  apply (X7_one_incident_per_streak Sample.clock always_up always_up Sample.cfg
           "A" Sample.target_a Sample.streak Sample.w0).
  reflexivity.
Defined.
(** ** The mail a run sends *)

Lemma send_email_alert_outbox clock smtp_up cfg td target_name subject w :
  let r := NetPulse.send_email_alert clock smtp_up cfg td target_name subject w in
  exists sent,
    outbox r.2 = outbox w ++ sent /\
    length sent <= 1 /\
    Forall (fun a => sa_target a = target_name /\ sa_subject a = subject) sent /\
    (send_alerts cfg = false -> sent = []).
Proof.
  unfold NetPulse.send_email_alert. unfold_monad. cbv zeta.
  repeat case_step; simpl.
  all: first
    [ exists []; rewrite app_nil_r;
      split; [reflexivity | split; [simpl; lia | split; [constructor | intros; reflexivity]]]
    | eexists [_]; split; [reflexivity|];
      split; [simpl; lia|]; split; [repeat constructor | intros E; rewrite E in *; discriminate] ].
Qed.

Ltac alert_outbox_step :=
  match goal with
  | |- context [NetPulse.send_email_alert ?clock ?smtp_up ?cfg ?td ?n ?s ?w] =>
      let H := fresh "Hout" in
      pose proof (send_email_alert_outbox clock smtp_up cfg td n s w) as H;
      cbv zeta in H;
      destruct (NetPulse.send_email_alert clock smtp_up cfg td n s w) as [? ?];
      simpl in H;
      let sent := fresh "sent" in
      destruct H as (sent & ? & ? & ? & ?); exists sent
  end.

Lemma classify_outbox clock db_up smtp_up cfg target_name latency td w :
  let r := NetPulse.classify_and_track clock db_up smtp_up cfg
             target_name latency td w in
  exists sent,
    outbox r.2 = outbox w ++ sent /\
    length sent <= 1 /\
    Forall (fun a => sa_target a = target_name /\
                     sa_subject a ∈ [("PACKET LOSS: " +:+ target_name)%string;
                                     ("HIGH LATENCY: " +:+ target_name)%string;
                                     ("RECOVERED: " +:+ target_name)%string]) sent /\
    (send_alerts cfg = false -> sent = []) /\
    (consecutive_failures td = 0 ->
     is_failure (latency_threshold cfg) latency = false -> sent = []).
Proof.
  unfold NetPulse.classify_and_track, NetPulse.start_incident, NetPulse.end_incident.
  unfold_monad. cbv zeta. unfold is_failure.
  destruct latency as [l|]; [destruct (float_gtb l _)|].
  all: repeat (first [alert_outbox_step | case_step]; simpl).
  all: try (exists []; rewrite app_nil_r;
            split; [reflexivity|]; split; [simpl; lia|]; split; [constructor|];
            split; intros; reflexivity).
  all: split; [assumption|]; split; [assumption|]; split;
    [| split; [assumption
              | intros; first
                  [ discriminate
                  | exfalso;
                    match goal with
                    | H : (0 <? _) = true |- _ => apply Nat.ltb_lt in H; lia
                    end ]]].
  all: eapply Forall_impl; [eassumption|]; simpl; intros a [-> ->];
    split; [reflexivity|]; set_solver.
Qed.

Lemma iteration_outbox clock db_up smtp_up cfg target_name ping td w :
  let r := NetPulse.monitor_target_iteration clock db_up smtp_up cfg
             target_name ping td w in
  exists sent,
    outbox r.2 = outbox w ++ sent /\
    length sent <= 1 /\
    Forall (fun a => sa_target a = target_name /\
                     sa_subject a ∈ [("PACKET LOSS: " +:+ target_name)%string;
                                     ("HIGH LATENCY: " +:+ target_name)%string;
                                     ("RECOVERED: " +:+ target_name)%string]) sent /\
    (send_alerts cfg = false -> sent = []) /\
    (consecutive_failures td = 0 ->
     is_failure (latency_threshold cfg) (NetPulse.ping_target ping) = false ->
     sent = []).
Proof.
  unfold NetPulse.monitor_target_iteration, bind, NetPulse.now.
  cbv beta iota zeta.
  match goal with
  | |- context [NetPulse.classify_and_track _ _ _ _ ?n ?l ?td0 ?w0] =>
      pose proof (classify_outbox clock db_up smtp_up cfg n l td0 w0) as Hc;
      cbv zeta in Hc;
      destruct (NetPulse.classify_and_track clock db_up smtp_up cfg n l td0 w0)
        as [[st td'] w']
  end.
  simpl in Hc. cbv beta iota.
  pose proof (record_result_frame clock db_up cfg target_name
                (NetPulse.ping_target ping) st td' w') as Hr.
  cbv zeta in Hr. destruct Hr as (_ & _ & _ & _ & _ & _ & Hout).
  rewrite Hout. exact Hc.
Qed.

(** X8.  Whatever the store and the mail server do, a run of the loop
    opens at most one SMTP session per probe, each for the target and under
    one of its three subjects; it opens none when alerts are switched off,
    and none while a target that was healthy stays healthy. *)
Theorem X8_mail_sent_by_a_run
    clock db_up smtp_up cfg target_name pings td w :
  let r := NetPulse.monitor_target clock db_up smtp_up cfg target_name pings td w in
  exists sent,
    outbox r.2 = outbox w ++ sent /\
    length sent <= length pings /\
    Forall (fun a => sa_target a = target_name /\
                     sa_subject a ∈ [("PACKET LOSS: " +:+ target_name)%string;
                                     ("HIGH LATENCY: " +:+ target_name)%string;
                                     ("RECOVERED: " +:+ target_name)%string]) sent /\
    (send_alerts cfg = false -> sent = []) /\
    (consecutive_failures td = 0 ->
     Forall (fun ping => is_failure (latency_threshold cfg)
                           (NetPulse.ping_target ping) = false) pings ->
     sent = []).
Proof.
  cbv zeta. revert td w. induction pings as [|ping pings IH]; intros td w.
  - simpl. exists []. rewrite app_nil_r.
    split; [reflexivity|]. split; [simpl; lia|]. split; [constructor|].
    split; intros; reflexivity.
  - rewrite monitor_target_cons. cbv zeta.
    pose proof (iteration_counter clock db_up smtp_up cfg target_name ping td w)
      as Hcf.
    destruct (iteration_outbox clock db_up smtp_up cfg target_name ping td w)
      as (sent1 & Hout1 & Hlen1 & Hall1 & Hoff1 & Hidle1).
    set (r := NetPulse.monitor_target_iteration _ _ _ _ _ _ _ _) in *.
    destruct (IH r.1 r.2) as (sent2 & Hout2 & Hlen2 & Hall2 & Hoff2 & Hidle2).
    exists (sent1 ++ sent2). rewrite Hout2, Hout1, <- app_assoc.
    split; [reflexivity|]. split; [rewrite length_app; simpl; lia|].
    split; [apply Forall_app; split; assumption|].
    split.
    + intros Hoff. rewrite Hoff1, Hoff2 by exact Hoff. reflexivity.
    + intros Hzero Hhealthy.
      destruct (proj1 (Forall_cons _ _ _) Hhealthy) as [Hp Hrest].
      rewrite Hp in Hcf.
      rewrite Hidle1, Hidle2 by assumption. reflexivity.
Qed.
(** ** [initialize_targets] *)

Lemma dict_set_keys {A} k (v : A) d :
  (NetPulse.dict_set k v d).*1 = if decide (k ∈ d.*1) then d.*1 else d.*1 ++ [k].
Proof.
  induction d as [|[k' v'] d IH]; [reflexivity|].
  cbn [NetPulse.dict_set]. destruct (String.eqb k' k) eqn:E.
  - apply String.eqb_eq in E. subst k'. rewrite !fmap_cons. cbn [fst].
    rewrite decide_True by (left). reflexivity.
  - apply String.eqb_neq in E. rewrite !fmap_cons. cbn [fst]. rewrite IH.
    destruct (decide (k ∈ d.*1)) as [Hin|Hin].
    + rewrite decide_True by (right; exact Hin). reflexivity.
    + rewrite decide_False; [reflexivity|].
      intros Hin'. apply elem_of_cons in Hin'. destruct Hin'; congruence.
Qed.

Lemma dict_set_elem_of {A} k (v : A) d n x :
  (n, x) ∈ NetPulse.dict_set k v d -> (n, x) = (k, v) \/ (n, x) ∈ d.
Proof.
  induction d as [|[k' v'] d IH]; simpl.
  - intros H. apply list_elem_of_singleton in H. auto.
  - destruct (String.eqb k' k) eqn:E.
    + apply String.eqb_eq in E. subst k'. intros H.
      apply elem_of_cons in H. destruct H as [H|H]; [auto|].
      right. right. exact H.
    + intros H. apply elem_of_cons in H. destruct H as [H|H].
      * right. rewrite H. left.
      * destruct (IH H); [auto|]. right. right. assumption.
Qed.

Lemma initialize_targets_from_spec tcs : forall targets,
  NoDup targets.*1 ->
  let r := NetPulse.initialize_targets_from tcs targets in
  NoDup r.*1 /\
  (forall n, n ∈ r.*1 <->
     n ∈ targets.*1 \/
     exists tc, tc ∈ tcs /\ tc_name tc = n /\ tc_enabled tc <> Some false) /\
  (forall n td, (n, td) ∈ r ->
     (n, td) ∈ targets \/
     exists tc, tc ∈ tcs /\ tc_name tc = n /\ tc_enabled tc <> Some false /\
                td = NetPulse.initial_target_data tc).
Proof.
  induction tcs as [|tc tcs IH]; intros targets Hnd; simpl.
  - split; [exact Hnd|]. split.
    + intros n. split; [auto|]. intros [H|(tc & H & _)]; [exact H|].
      inversion H.
    + auto.
  - destruct (tc_enabled tc) as [[|]|] eqn:Een; simpl.
    2: { destruct (IH targets Hnd) as (Hnd' & Hkeys & Hvals).
         split; [exact Hnd'|]. split.
         - intros n. rewrite Hkeys. split.
           + intros [H|(tc' & Hin & Hn & He)]; [auto|].
             right. exists tc'. split; [right; exact Hin | auto].
           + intros [H|(tc' & Hin & Hn & He)]; [auto|].
             right. exists tc'. apply elem_of_cons in Hin.
             destruct Hin as [->|Hin]; [congruence | auto].
         - intros n td H. destruct (Hvals n td H) as [?|(tc' & Hin & ?)]; [auto|].
           right. exists tc'. split; [right; exact Hin | assumption]. }
    all: assert (Hnd1 : NoDup (NetPulse.dict_set (tc_name tc)
                                 (NetPulse.initial_target_data tc) targets).*1)
      by (rewrite dict_set_keys; destruct (decide (tc_name tc ∈ targets.*1));
          [exact Hnd | apply NoDup_app; split; [exact Hnd|]; split;
             [intros x Hx Hx'; apply list_elem_of_singleton in Hx'; congruence
             | apply NoDup_singleton]]).
    all: destruct (IH _ Hnd1) as (Hnd' & Hkeys & Hvals).
    all: split; [exact Hnd'|]; split.
    all: try (intros n; rewrite Hkeys, dict_set_keys; split;
      [ intros [H|(tc' & Hin & Hn & He)];
        [ destruct (decide (tc_name tc ∈ targets.*1));
          [auto|]; apply elem_of_app in H; destruct H as [H|H]; [auto|];
          apply list_elem_of_singleton in H; right; exists tc;
          split; [left | split; [congruence | congruence]]
        | right; exists tc'; split; [right; exact Hin | auto] ]
      | intros [H|(tc' & Hin & Hn & He)];
        [ left; destruct (decide (tc_name tc ∈ targets.*1));
          [exact H | apply elem_of_app; left; exact H]
        | apply elem_of_cons in Hin; destruct Hin as [->|Hin];
          [ left; subst n; destruct (decide (tc_name tc ∈ targets.*1));
            [assumption | apply elem_of_app; right; left]
          | right; exists tc'; auto ] ] ]).
    all: intros n td H; destruct (Hvals n td H) as [H'|(tc' & Hin & ?)];
      [ apply dict_set_elem_of in H'; destruct H' as [H'|H']; [|auto];
        right; exists tc; injection H' as -> ->;
        split; [left | split; [reflexivity | split; [congruence | reflexivity]]]
      | right; exists tc'; split; [right; exact Hin | assumption] ].
Qed.

(** X9.  [initialize_targets] gives each target name one entry; the names
    are those of the configured targets that are not switched off (a
    target without the [enabled] key counts as enabled), and every entry
    is the initial state of such a target: no failures, no checks, no
    incident, status unknown. *)
Theorem X9_targets_are_the_enabled_ones cfg :
  let targets := NetPulse.initialize_targets cfg in
  NoDup targets.*1 /\
  (forall n, n ∈ targets.*1 <->
     exists tc, tc ∈ cfg_targets cfg /\ tc_name tc = n /\
                tc_enabled tc <> Some false) /\
  (forall n td, (n, td) ∈ targets ->
     exists tc, tc ∈ cfg_targets cfg /\ tc_name tc = n /\
                tc_enabled tc <> Some false /\
                td = NetPulse.initial_target_data tc).
Proof.
  cbv zeta. unfold NetPulse.initialize_targets.
  destruct (initialize_targets_from_spec (cfg_targets cfg) [] (NoDup_nil_2))
    as (Hnd & Hkeys & Hvals).
  split; [exact Hnd|]. split.
  - intros n. rewrite Hkeys. split; [|auto].
    intros [H|H]; [inversion H | exact H].
  - intros n td H. destruct (Hvals n td H) as [H'|H']; [inversion H' | exact H'].
Qed.
(** ** The websocket clients *)

Lemma broadcast_cycle_clients round2 t targets send (websocket_clients : gset nat) c :
  c ∈ (NetPulse.broadcast_cycle round2 t targets send websocket_clients).1 <->
  c ∈ websocket_clients /\ send c = NetPulse.Sent.
Proof.
  unfold NetPulse.broadcast_cycle.
  destruct (decide (websocket_clients = ∅)) as [->|Hne].
  { simpl. split; [intros H | intros [H _]];
      apply not_elem_of_empty in H; contradiction. }
  pose proof (send_loop_spec send (NetPulse.dashboard_data round2 t targets)
                (elements websocket_clients) (∅, []) c) as Hloop.
  cbv zeta in Hloop.
  destruct (foldl _ _ (elements websocket_clients)) as [disconnected sent].
  simpl in *. destruct Hloop as [Hd _].
  rewrite elem_of_difference, Hd, elem_of_elements. split.
  - intros [Hin Hnot]. split; [exact Hin|].
    destruct (decide (send c = NetPulse.Sent)) as [E|E]; [exact E|].
    exfalso. apply Hnot. right. auto.
  - intros [Hin Hs]. split; [exact Hin|].
    intros [H|[_ H]]; [apply not_elem_of_empty in H; exact H | congruence].
Qed.

Lemma broadcast_cycle_snapshots
    round2 t targets send (websocket_clients : gset nat) :
  let r := NetPulse.broadcast_cycle round2 t targets send websocket_clients in
  (forall c, c ∈ r.1 <-> c ∈ websocket_clients /\ send c = NetPulse.Sent) /\
  r.2.*1 ≡ₚ elements r.1 /\
  Forall (fun m => m.2 = NetPulse.dashboard_data round2 t targets) r.2.
Proof.
  cbv zeta. split; [apply broadcast_cycle_clients|].
  pose proof (broadcast_cycle_clients round2 t targets send websocket_clients)
    as Hmem.
  revert Hmem. unfold NetPulse.broadcast_cycle.
  destruct (decide (websocket_clients = ∅)) as [->|Hne].
  { simpl. intros _. split; [rewrite elements_empty; reflexivity | constructor]. }
  set (msg := NetPulse.dashboard_data round2 t targets).
  pose proof (send_loop_messages send msg (elements websocket_clients) (∅, []))
    as Hmsgs.
  destruct (foldl _ _ (elements websocket_clients)) as [disconnected sent].
  simpl in *. subst sent. intros Hmem. split.
  - rewrite fmap_fst_pair.
    apply NoDup_Permutation.
    + apply NoDup_filter, NoDup_elements.
    + apply NoDup_elements.
    + intros c. rewrite list_elem_of_filter, elem_of_elements, elem_of_elements, Hmem.
      tauto.
  - apply Forall_fmap, Forall_forall. reflexivity.
Qed.

(** X10.  In a broadcast cycle during which no handler changes the client
    set, the loop goes through: every client that stays in the set gets
    exactly one message, the snapshot of the cycle, and nothing is sent to
    anybody else; the set after the cycle holds the clients whose send
    went through. *)
Theorem X10_one_snapshot_for_each_remaining_client
    round2 send during t targets (websocket_clients : gset nat) :
  (forall c, c ∈ websocket_clients ->
     Broadcaster.quiet websocket_clients (during c)) ->
  exists clients sent,
    Broadcaster.broadcast_cycle round2 send during t targets websocket_clients =
      Broadcaster.Completed clients sent /\
    (forall c, c ∈ clients <-> c ∈ websocket_clients /\ send c = NetPulse.Sent) /\
    sent.*1 ≡ₚ elements clients /\
    Forall (fun m => m.2 = NetPulse.dashboard_data round2 t targets) sent.
Proof.
  intros Hq. rewrite broadcast_cycle_quiet by exact Hq. cbv zeta.
  eexists _, _. split; [reflexivity|].
  exact (broadcast_cycle_snapshots round2 t targets send websocket_clients).
Qed.

Lemma X10_quiet_cycle_witness :
  exists clients sent,
    Broadcaster.broadcast_cycle Qred Sample.send (fun _ => [Broadcaster.Closes 7])
      0 Sample.targets Sample.clients = Broadcaster.Completed clients sent /\
    (forall c, c ∈ clients <-> c ∈ Sample.clients /\ Sample.send c = NetPulse.Sent) /\
    sent.*1 ≡ₚ elements clients /\
    Forall (fun m => m.2 = NetPulse.dashboard_data Qred 0 Sample.targets) sent.
Proof.
  apply (X10_one_snapshot_for_each_remaining_client Qred Sample.send
           (fun _ => [Broadcaster.Closes 7]) 0 Sample.targets Sample.clients).
  intros c _. vm_compute. reflexivity.
Defined.

(** X11.  When the cleanup of [websocket_handler] runs after a broadcast
    cycle, it removes the client if its send went through, and raises
    [KeyError] if the cycle has dropped the client already. *)
Theorem X11_handler_cleanup_after_a_broadcast
    round2 t targets send (websocket_clients : gset nat) client :
  client ∈ websocket_clients ->
  let r := NetPulse.broadcast_cycle round2 t targets send websocket_clients in
  Websocket.handler_finally client r.1 =
    match send client with
    | NetPulse.Sent => Some (r.1 ∖ {[client]})
    | _ => None
    end.
Proof.
  intros Hin. cbv zeta. unfold Websocket.handler_finally.
  pose proof (broadcast_cycle_clients round2 t targets send websocket_clients
                client) as Hmem.
  destruct (send client) eqn:E.
  - rewrite decide_True; [reflexivity|]. apply Hmem. auto.
  - rewrite decide_False; [reflexivity|]. rewrite Hmem. intros [_ H]. discriminate.
  - rewrite decide_False; [reflexivity|]. rewrite Hmem. intros [_ H]. discriminate.
Qed.

Lemma X11_dropped_client_witness :
  2 ∈ Sample.clients /\
  Websocket.handler_finally 2
    (NetPulse.broadcast_cycle (fun q => q) 0 Sample.targets Sample.send
       Sample.clients).1 = None.
Proof.
  split; [vm_compute; reflexivity|].
  apply (X11_handler_cleanup_after_a_broadcast (fun q => q) 0 Sample.targets
           Sample.send Sample.clients 2).
  set_solver.
Defined.
(** ** What the dashboard shows *)

Lemma last_n_last_n {A} (a b : nat) (l : list A) :
  NetPulse.last_n a (NetPulse.last_n b l) = NetPulse.last_n (Nat.min a b) l.
Proof.
  unfold NetPulse.last_n. rewrite drop_drop, length_drop. f_equal. lia.
Qed.

Lemma fmap_last_n {A B} (f : A -> B) (n : nat) (l : list A) :
  f <$> NetPulse.last_n n l = NetPulse.last_n n (f <$> l).
Proof. unfold NetPulse.last_n. rewrite fmap_drop, length_fmap. reflexivity. Qed.

(** X12.  After a run of the loop, the entry of the target in the
    dashboard shows the latencies of the latest probes, at most 50 of them
    and at most as many as the rolling window holds, oldest first, together
    with the number of probes made. *)
Theorem X12_dashboard_shows_the_latest_probes
    round2 clock db_up smtp_up cfg target_name tc pings w :
  let r := NetPulse.monitor_target clock db_up smtp_up cfg target_name pings
             (NetPulse.initial_target_data tc) w in
  let view := NetPulse.target_view_of round2 target_name r.1 in
  dp_latency <$> NetPulse.tv_recent_data view =
    NetPulse.last_n (Nat.min 50 (max_data_points cfg))
      (NetPulse.ping_target <$> pings) /\
  length (NetPulse.tv_recent_data view) <= 50 /\
  NetPulse.tv_total_checks view = length pings.
Proof.
  cbv zeta. cbn [NetPulse.target_view_of NetPulse.tv_recent_data NetPulse.tv_total_checks].
  destruct (monitor_target_window clock db_up smtp_up cfg target_name tc pings w)
    as [Hw Htc].
  split; [|split; [|exact Htc]].
  - rewrite fmap_last_n, Hw. apply last_n_last_n.
  - unfold NetPulse.last_n. rewrite length_drop. lia.
Qed.
(** ** The figures of a daily report *)

Lemma length_omap_filter (rows : list ping_row) :
  Forall loss_flag_consistent rows ->
  length rows =
    length (omap pr_latency rows) +
    length (filter (fun r => pr_packet_loss r = 1) rows).
Proof.
  induction 1 as [|r rows Hr _ IH]; [reflexivity|].
  rewrite filter_cons. unfold loss_flag_consistent in Hr.
  cbn [omap list_omap].
  destruct (pr_latency r) as [l|]; rewrite Hr.
  - rewrite decide_False by discriminate. simpl. lia.
  - rewrite decide_True by reflexivity. simpl. lia.
Qed.

Lemma length_omap_le {A B} (f : A -> option B) (l : list A) :
  length (omap f l) <= length l.
Proof.
  induction l as [|a l IH]; [reflexivity|].
  cbn [omap list_omap]. fold (omap f l). destruct (f a); simpl; lia.
Qed.

(** X13.  In a store whose loss flags agree with the latencies, the row
    the aggregation writes for a target and a day with probes counts every
    probe once, as successful or as lost, and its uptime lies between 0
    and 100 percent. *)
Theorem X13_report_counts_add_up id target_name report_date (d : database) :
  Forall loss_flag_consistent (ping_results d) ->
  NetPulse.pings_of_day target_name report_date d <> [] ->
  let r := NetPulse.daily_report_of id target_name report_date d in
  dr_total_checks r = dr_successful_checks r + dr_packet_loss_count r /\
  0 < dr_total_checks r /\
  (0 <= dr_uptime_percentage r <= 100)%Q.
Proof.
  intros Hrows Hne. cbv zeta. unfold NetPulse.daily_report_of. simpl.
  assert (Hday : Forall loss_flag_consistent
                   (NetPulse.pings_of_day target_name report_date d)).
  { unfold NetPulse.pings_of_day. apply Forall_forall. intros r Hr.
    apply list_elem_of_filter in Hr. destruct Hr as [_ Hr].
    revert r Hr. apply Forall_forall. exact Hrows. }
  assert (Hpos : 0 < length (NetPulse.pings_of_day target_name report_date d)).
  { destruct (NetPulse.pings_of_day _ _ _); [congruence | simpl; lia]. }
  split; [apply length_omap_filter; exact Hday|]. split; [exact Hpos|].
  apply (share_bounds (omap pr_latency
                         (NetPulse.pings_of_day target_name report_date d))
           (NetPulse.pings_of_day target_name report_date d));
    [apply length_omap_le | exact Hpos].
Qed.

Lemma X13_report_witness :
  Forall loss_flag_consistent (ping_results (db Sample.probed)) /\
  NetPulse.pings_of_day "A" 0 (db Sample.probed) <> [] /\
  dr_total_checks (NetPulse.daily_report_of 1 "A" 0 (db Sample.probed)) =
    dr_successful_checks (NetPulse.daily_report_of 1 "A" 0 (db Sample.probed)) +
    dr_packet_loss_count (NetPulse.daily_report_of 1 "A" 0 (db Sample.probed)) /\
  0 < dr_total_checks (NetPulse.daily_report_of 1 "A" 0 (db Sample.probed)) /\
  (0 <= dr_uptime_percentage (NetPulse.daily_report_of 1 "A" 0 (db Sample.probed))
     <= 100)%Q.
Proof.
  assert (H1 : Forall loss_flag_consistent (ping_results (db Sample.probed)))
    by (vm_compute; repeat constructor).
  assert (H2 : NetPulse.pings_of_day "A" 0 (db Sample.probed) <> [])
    by (vm_compute; discriminate).
  split; [exact H1|]. split; [exact H2|].
  exact (X13_report_counts_add_up 1 "A" 0 (db Sample.probed) H1 H2).
Defined.
(** ** A failing transaction in the report loop *)

Lemma generate_reports_for_app db_up report_date done names : forall w,
  (forall i, i < length done -> db_up (db_opens w + i) = true) ->
  NetPulse.generate_reports_for db_up report_date (done ++ names) w =
  NetPulse.generate_reports_for db_up report_date names
    {| clock_reads := clock_reads w; db_opens := db_opens w + length done;
       db := report_all report_date done (db w); outbox := outbox w |}.
Proof.
  induction done as [|n done IH]; intros w Hup.
  - simpl. rewrite Nat.add_0_r. destruct w; reflexivity.
  - simpl. unfold_monad.
    pose proof (Hup 0 ltac:(simpl; lia)) as H0. rewrite Nat.add_0_r in H0.
    rewrite H0. simpl. rewrite IH.
    + simpl. do 2 f_equal. f_equal. lia.
    + intros i Hi. simpl. rewrite <- Nat.add_succ_r. apply Hup. simpl. lia.
Qed.

(** X14.  The report loop stops at the first transaction that fails: the
    targets before it have their reports written, the target it fails for
    and all the targets after it get none, even if the store is back. *)
Theorem X14_a_failed_transaction_ends_the_report_loop
    db_up report_date done failed rest w :
  (forall i, i < length done -> db_up (db_opens w + i) = true) ->
  db_up (db_opens w + length done) = false ->
  db (NetPulse.generate_reports_for db_up report_date
        (done ++ failed :: rest) w).2 =
  report_all report_date done (db w).
Proof.
  intros Hup Hdown. rewrite generate_reports_for_app by exact Hup.
  simpl. unfold_monad. simpl. rewrite Hdown. reflexivity.
Qed.

Lemma X14_failed_transaction_witness :
  (forall i, i < length ["A"%string] ->
             up_except (S (db_opens Sample.probed)) (db_opens Sample.probed + i) = true) /\
  up_except (S (db_opens Sample.probed)) (db_opens Sample.probed + length ["A"%string]) = false /\
  db (NetPulse.generate_reports_for (up_except (S (db_opens Sample.probed))) 0
        (["A"%string] ++ "B"%string :: []) Sample.probed).2 =
  report_all 0 ["A"%string] (db Sample.probed).
Proof.
  assert (H1 : forall i, i < length ["A"%string] ->
                         up_except (S (db_opens Sample.probed)) (db_opens Sample.probed + i) = true).
  { intros i Hi. destruct i as [|i]; [vm_compute; reflexivity | simpl in Hi; lia]. }
  assert (H2 : up_except (S (db_opens Sample.probed)) (db_opens Sample.probed + length ["A"%string]) = false)
    by (vm_compute; reflexivity).
  split; [exact H1|]. split; [exact H2|].
  exact (X14_a_failed_transaction_ends_the_report_loop (up_except (S (db_opens Sample.probed))) 0
           ["A"%string] "B"%string [] Sample.probed H1 H2).
Defined.
(** ** Pruning twice, and pruning after the final reports *)

Lemma date_of_mono t1 t2 : (t1 <= t2)%Z -> (date_of t1 <= date_of t2)%Z.
Proof.
  intros H. unfold date_of. apply Z.div_le_mono; [reflexivity | exact H].
Qed.

(** X15.  Pruning with one cutoff and then with another leaves what a
    single pruning with the later of the two cutoffs leaves. *)
Theorem X15_pruning_twice_is_pruning_with_the_later_cutoff c1 c2 (d : database) :
  NetPulse.delete_older_than c2 (NetPulse.delete_older_than c1 d) =
  NetPulse.delete_older_than (Z.max c1 c2) d.
Proof.
  unfold NetPulse.delete_older_than. simpl.
  rewrite !list_filter_filter. f_equal.
  - apply list_filter_iff. intros r. lia.
  - apply list_filter_iff. intros r. lia.
  - apply list_filter_iff. intros r.
    destruct (Z.max_spec c1 c2) as [[Hlt ->]|[Hle ->]].
    + pose proof (date_of_mono c1 c2 ltac:(lia)). lia.
    + pose proof (date_of_mono c2 c1 Hle). lia.
Qed.

Lemma cleanup_keeps_reports_of clock db_up cfg target_name report_date w :
  (date_of (clock (clock_reads w) - timedelta_days (retention_days cfg))
     <= report_date)%Z ->
  report_key_rows target_name report_date
    (db (NetPulse.cleanup_old_data clock db_up cfg w).2) =
  report_key_rows target_name report_date (db w).
Proof.
  intros Hle. unfold NetPulse.cleanup_old_data. unfold_monad. simpl.
  destruct (db_up (db_opens w)); simpl; [|reflexivity].
  unfold report_key_rows. simpl. rewrite list_filter_filter.
  apply list_filter_iff. intros r. split; [tauto|].
  intros [Hn Hd]. split; [auto|]. lia.
Qed.

Lemma generate_reports_for_clock db_up report_date names : forall w,
  clock_reads (NetPulse.generate_reports_for db_up report_date names w).2 =
  clock_reads w.
Proof.
  induction names as [|n names IH]; intros w; [reflexivity|].
  simpl. unfold_monad. destruct (db_up (db_opens w)); [|reflexivity].
  rewrite IH. reflexivity.
Qed.

(** X16.  When the clock does not advance by more than the retention
    period between its two readings in [stop_monitoring], the pruning at
    the end keeps every report of the day the final reports were written
    for, whatever the store does. *)
Theorem X16_final_reports_survive_the_pruning
    clock db_up cfg targets target_name w :
  (clock (S (clock_reads w)) - timedelta_days (retention_days cfg)
     <= clock (clock_reads w))%Z ->
  let report_date := date_of (clock (clock_reads w)) in
  report_key_rows target_name report_date
    (db (Lifecycle.stop_monitoring clock db_up cfg targets w).2) =
  report_key_rows target_name report_date
    (db (NetPulse.generate_daily_reports clock db_up targets w).2).
Proof.
  intros Hclock. cbv zeta. unfold Lifecycle.stop_monitoring, bind.
  assert (Hreads : clock_reads
                     (NetPulse.generate_daily_reports clock db_up targets w).2 =
                   S (clock_reads w)).
  { unfold NetPulse.generate_daily_reports. unfold_monad.
    rewrite generate_reports_for_clock. reflexivity. }
  destruct (NetPulse.generate_daily_reports clock db_up targets w) as [[] w1].
  simpl in *. apply cleanup_keeps_reports_of. rewrite Hreads.
  apply date_of_mono. exact Hclock.
Qed.

Lemma X16_final_reports_witness :
  (Sample.clock (S (clock_reads Sample.probed))
     - timedelta_days (retention_days Sample.cfg)
   <= Sample.clock (clock_reads Sample.probed))%Z /\
  report_key_rows "A" (date_of (Sample.clock (clock_reads Sample.probed)))
    (db (Lifecycle.stop_monitoring Sample.clock always_up Sample.cfg
           Sample.targets Sample.probed).2) =
  report_key_rows "A" (date_of (Sample.clock (clock_reads Sample.probed)))
    (db (NetPulse.generate_daily_reports Sample.clock always_up Sample.targets
           Sample.probed).2).
Proof.
  assert (H : (Sample.clock (S (clock_reads Sample.probed))
                 - timedelta_days (retention_days Sample.cfg)
               <= Sample.clock (clock_reads Sample.probed))%Z)
    by (vm_compute; discriminate).
  split; [exact H|].
  exact (X16_final_reports_survive_the_pruning Sample.clock always_up Sample.cfg
           Sample.targets "A" Sample.probed H).
Defined.
(** ** Merging the user's configuration into the defaults *)

Lemma merge_value_dicts dict1 dict2 :
  Config.merge_value (Some (Config.JDict dict1)) (Config.JDict dict2) =
  Config.JDict (Config.merge_dicts dict1 dict2).
Proof. reflexivity. Qed.

Lemma merge_value_other old value :
  Config.is_dict value = false \/
  (forall d, old <> Some (Config.JDict d)) ->
  Config.merge_value old value = value.
Proof.
  intros [H|H].
  - destruct value; try discriminate H; destruct old as [[]|]; reflexivity.
  - destruct old as [[]|]; try (destruct value; reflexivity).
    exfalso. eapply H. reflexivity.
Qed.

Lemma dict_get_set {A} k k' (v : A) d :
  Config.dict_get k' (NetPulse.dict_set k v d) =
  if String.eqb k k' then Some v else Config.dict_get k' d.
Proof.
  induction d as [|[k0 v0] d IH]; simpl.
  - reflexivity.
  - destruct (String.eqb k0 k) eqn:E0; simpl.
    + apply String.eqb_eq in E0. subst k0.
      destruct (String.eqb k k'); reflexivity.
    + rewrite IH. destruct (String.eqb k0 k') eqn:E1; [|reflexivity].
      apply String.eqb_eq in E1. subst k0.
      destruct (String.eqb k k') eqn:E2; [|reflexivity].
      apply String.eqb_eq in E2. subst k'. rewrite String.eqb_refl in E0.
      discriminate E0.
Qed.

Lemma dict_get_None {A} k (d : list (string * A)) :
  Config.dict_get k d = None <-> k ∉ d.*1.
Proof.
  induction d as [|[k0 v0] d IH]; simpl.
  - split; [intros _ H; inversion H | reflexivity].
  - destruct (String.eqb k0 k) eqn:E.
    + apply String.eqb_eq in E. subst k0. split; [discriminate|].
      intros H. exfalso. apply H. left.
    + apply String.eqb_neq in E. rewrite IH. rewrite not_elem_of_cons.
      split; [intros H; split; [congruence | exact H] | intros [_ H]; exact H].
Qed.

Lemma merge_dicts_lookup dict2 : forall dict1 k,
  NoDup dict2.*1 ->
  Config.dict_get k (Config.merge_dicts dict1 dict2) =
    match Config.dict_get k dict2 with
    | Some value => Some (Config.merge_value (Config.dict_get k dict1) value)
    | None => Config.dict_get k dict1
    end.
Proof.
  induction dict2 as [|[key value] rest IH]; intros dict1 k Hnd; [reflexivity|].
  rewrite fmap_cons in Hnd. apply NoDup_cons in Hnd. destruct Hnd as [Hkey Hnd].
  cbn [Config.merge_dicts Config.dict_get]. rewrite IH by exact Hnd.
  rewrite dict_get_set.
  destruct (String.eqb key k) eqn:E.
  - apply String.eqb_eq in E. subst k.
    apply dict_get_None in Hkey. simpl in Hkey. rewrite Hkey. reflexivity.
  - reflexivity.
Qed.

Lemma merge_dicts_keys dict2 : forall dict1,
  exists extra, (Config.merge_dicts dict1 dict2).*1 = dict1.*1 ++ extra.
Proof.
  induction dict2 as [|[key value] rest IH]; intros dict1.
  - exists []. rewrite app_nil_r. reflexivity.
  - cbn [Config.merge_dicts].
    destruct (IH (NetPulse.dict_set key
                    (Config.merge_value (Config.dict_get key dict1) value) dict1))
      as [extra ->].
    rewrite dict_set_keys. destruct (decide (key ∈ dict1.*1)); [eauto|].
    rewrite <- app_assoc. eauto.
Qed.

(** X17.  After [merge_dicts], with no key twice in the second dict, a
    key of the second dict holds its value, merged with what was there
    when both are dicts, and every other key holds what it held; the keys
    that were there keep their places. *)
Theorem X17_merge_dicts_key_by_key dict1 dict2 k :
  NoDup dict2.*1 ->
  Config.dict_get k (Config.merge_dicts dict1 dict2) =
    match Config.dict_get k dict2 with
    | Some value =>
        match Config.dict_get k dict1, value with
        | Some (Config.JDict old), Config.JDict new =>
            Some (Config.JDict (Config.merge_dicts old new))
        | _, _ => Some value
        end
    | None => Config.dict_get k dict1
    end /\
  exists extra, (Config.merge_dicts dict1 dict2).*1 = dict1.*1 ++ extra.
Proof.
  intros Hnd. split; [|apply merge_dicts_keys].
  rewrite merge_dicts_lookup by exact Hnd.
  destruct (Config.dict_get k dict2) as [value|]; [|reflexivity].
  destruct (Config.dict_get k dict1) as [[]|]; destruct value; reflexivity.
Qed.

Lemma X17_merge_witness :
  NoDup [("monitoring"%string,
          Config.JDict [("latency_threshold"%string, Config.JInt 250)])].*1 /\
  Config.dict_get "monitoring"
    (Config.merge_dicts Config.netpulse_default_config
       [("monitoring"%string,
         Config.JDict [("latency_threshold"%string, Config.JInt 250)])]) =
  Some (Config.JDict
          [("latency_threshold", Config.JInt 250); ("check_interval", Config.JInt 2);
           ("ping_timeout", Config.JInt 5); ("max_data_points", Config.JInt 1000);
           ("report_generation_interval", Config.JInt 3600)]%string).
Proof.
  assert (H : NoDup [("monitoring"%string,
                      Config.JDict [("latency_threshold"%string,
                                     Config.JInt 250)])].*1)
    by (apply NoDup_singleton).
  split; [exact H|].
  destruct (X17_merge_dicts_key_by_key Config.netpulse_default_config
              [("monitoring"%string,
                Config.JDict [("latency_threshold"%string, Config.JInt 250)])]
              "monitoring" H) as [Hget _].
  rewrite Hget. reflexivity.
Defined.

Lemma dict_get_elem_of {A} k (v : A) d :
  Config.dict_get k d = Some v -> (k, v) ∈ d.
Proof.
  induction d as [|[k0 v0] d IH]; simpl; [discriminate|].
  destruct (String.eqb k0 k) eqn:E.
  - apply String.eqb_eq in E. subst k0. intros [= ->]. left.
  - intros H. right. apply IH. exact H.
Qed.

Lemma wf_json_dict_get k d v :
  Config.wf_json (Config.JDict d) ->
  Config.dict_get k d = Some v ->
  NoDup d.*1 /\ Config.wf_json v.
Proof.
  intros Hwf Hget. inversion Hwf as [| | | | | |d' Hnd Hall]; subst.
  split; [exact Hnd|].
  apply dict_get_elem_of in Hget.
  rewrite Forall_forall in Hall. apply (Hall _ Hget).
Qed.

Lemma get_path_not_dict path k v :
  Config.is_dict v = false -> Config.get_path (k :: path) v = None.
Proof. destruct v; [reflexivity..|discriminate]. Qed.

Lemma get_path_unmentioned path : forall user,
  Config.unmentioned path user -> Config.get_path path user = None.
Proof.
  induction path as [|k rest IH]; intros user H; [destruct H|].
  destruct user; try destruct H. simpl in *.
  destruct (Config.dict_get k d) as [v|]; [|reflexivity]. apply IH. exact H.
Qed.

Lemma get_path_merge_value path : forall old user v,
  Config.wf_json user ->
  Config.get_path path user = Some v ->
  Config.get_path path (Config.merge_value old user) =
  Some (Config.merge_value (old ≫= Config.get_path path) v).
Proof.
  induction path as [|k rest IH]; intros old user v Hwf Hget.
  - simpl in *. injection Hget as <-. destruct old; reflexivity.
  - destruct user as [| | | | | |u]; try discriminate Hget.
    cbn [Config.get_path] in Hget.
    destruct (Config.dict_get k u) as [uk|] eqn:Ek; [|discriminate Hget].
    destruct (wf_json_dict_get k u uk Hwf Ek) as [Hnd Hwfk].
    destruct old as [[| | | | | |a]|];
      try (cbn [Config.merge_value Config.get_path mbind option_bind];
           rewrite Ek, Hget; destruct v; reflexivity).
    rewrite merge_value_dicts. cbn [Config.get_path mbind option_bind].
    rewrite merge_dicts_lookup, Ek by exact Hnd.
    rewrite (IH _ _ _ Hwfk Hget).
    destruct (Config.dict_get k a); reflexivity.
Qed.

Lemma get_path_merge_unmentioned path : forall old user,
  Config.wf_json user ->
  Config.unmentioned path user ->
  Config.get_path path (Config.merge_value old user) =
  old ≫= Config.get_path path.
Proof.
  induction path as [|k rest IH]; intros old user Hwf Hun; [destruct Hun|].
  destruct user as [| | | | | |u]; try destruct Hun.
  cbn [Config.unmentioned] in Hun.
  destruct old as [[| | | | | |a]|];
    try (cbn [Config.merge_value mbind option_bind];
         rewrite (get_path_unmentioned (k :: rest) (Config.JDict u)) by exact Hun;
         reflexivity).
  rewrite merge_value_dicts. cbn [Config.get_path mbind option_bind].
  destruct (Config.dict_get k u) as [uk|] eqn:Ek.
  - destruct (wf_json_dict_get k u uk Hwf Ek) as [Hnd Hwfk].
    rewrite merge_dicts_lookup, Ek by exact Hnd.
    rewrite (IH _ _ Hwfk Hun). destruct (Config.dict_get k a); reflexivity.
  - inversion Hwf as [| | | | | |d' Hnd Hall]; subst.
    rewrite merge_dicts_lookup, Ek by exact Hnd. reflexivity.
Qed.

Lemma load_config_parsed default_config user k path v :
  Config.get_path (k :: path) user = Some v ->
  Config.JDict (Config.load_config default_config (Config.Parsed user)).1 =
  Config.merge_value (Some (Config.JDict default_config)) user.
Proof. destruct user; try discriminate. reflexivity. Qed.

(** X18.  A setting of the user's file wins: at a path where the file has
    a value, the loaded configuration has that value, merged key by key
    with the default at the path when both are dicts, and the value itself
    when it is not a dict. *)
Theorem X18_a_setting_of_the_file_wins default_config user k path v :
  Config.wf_json user ->
  Config.get_path (k :: path) user = Some v ->
  let loaded :=
    Config.JDict (Config.load_config default_config (Config.Parsed user)).1 in
  Config.get_path (k :: path) loaded =
    Some (Config.merge_value
            (Config.get_path (k :: path) (Config.JDict default_config)) v) /\
  (Config.is_dict v = false -> Config.get_path (k :: path) loaded = Some v).
Proof.
  intros Hwf Hget. cbv zeta.
  rewrite (load_config_parsed default_config user k path v Hget).
  rewrite (get_path_merge_value (k :: path) _ user v Hwf Hget).
  split; [reflexivity|]. intros Hv.
  rewrite merge_value_other by (left; exact Hv). reflexivity.
Qed.

Lemma sample_user_config_wf : Config.wf_json Config.sample_user_config.
Proof.
  repeat first
    [ apply Config.wf_JDict | apply Config.wf_JInt | apply NoDup_singleton
    | apply Forall_singleton ].
Qed.

Lemma X18_threshold_witness :
  Config.wf_json Config.sample_user_config /\
  Config.get_path ["monitoring"; "latency_threshold"]%string
    Config.sample_user_config = Some (Config.JInt 250) /\
  Config.get_path ["monitoring"; "latency_threshold"]%string
    (Config.JDict (Config.load_config Config.netpulse_default_config
                     (Config.Parsed Config.sample_user_config)).1) =
  Some (Config.JInt 250).
Proof.
  split; [exact sample_user_config_wf|]. split; [reflexivity|].
  apply (X18_a_setting_of_the_file_wins Config.netpulse_default_config
           Config.sample_user_config "monitoring" ["latency_threshold"%string]
           (Config.JInt 250) sample_user_config_wf eq_refl).
  reflexivity.
Defined.

(** X19.  A default survives where the user's file says nothing: at a
    path for which the file has, on the way down, a dict without the next
    key, the loaded configuration has what the defaults have there. *)
Theorem X19_defaults_survive_where_the_file_is_silent default_config user path :
  Config.wf_json user ->
  Config.unmentioned path user ->
  Config.get_path path
    (Config.JDict (Config.load_config default_config (Config.Parsed user)).1) =
  Config.get_path path (Config.JDict default_config).
Proof.
  intros Hwf Hun.
  assert (Hdict : Config.JDict
                    (Config.load_config default_config (Config.Parsed user)).1 =
                  Config.merge_value (Some (Config.JDict default_config)) user).
  { destruct user; try (destruct path; destruct Hun). reflexivity. }
  rewrite Hdict, (get_path_merge_unmentioned path _ user Hwf Hun). reflexivity.
Qed.

Lemma X19_interval_witness :
  Config.wf_json Config.sample_user_config /\
  Config.unmentioned ["monitoring"; "check_interval"]%string
    Config.sample_user_config /\
  Config.get_path ["monitoring"; "check_interval"]%string
    (Config.JDict (Config.load_config Config.netpulse_default_config
                     (Config.Parsed Config.sample_user_config)).1) =
  Some (Config.JInt 2).
Proof.
  split; [exact sample_user_config_wf|]. split; [exact I|].
  rewrite (X19_defaults_survive_where_the_file_is_silent
             Config.netpulse_default_config Config.sample_user_config
             ["monitoring"; "check_interval"]%string sample_user_config_wf I).
  reflexivity.
Defined.
(** ** The older program: one check *)

Lemma float_truthy_scale (x : Q) : float_truthy (x * 1000) = float_truthy x.
Proof.
  unfold float_truthy. f_equal.
  destruct (Qeq_bool x 0) eqn:E.
  - apply Qeq_bool_iff in E. apply Qeq_bool_iff. rewrite E. reflexivity.
  - apply not_true_iff_false. intros H. apply Qeq_bool_iff in H.
    apply not_true_iff_false in E. apply E. apply Qeq_bool_iff.
    destruct (Qmult_integral _ _ H) as [Hx|Hk]; [exact Hx | discriminate Hk].
Qed.

(** The ping wrapper never gives a latency of 0. *)
Lemma isp_ping_target_truthy ping :
  opt_float_truthy (ISP.ping_target ping) =
  match ISP.ping_target ping with Some _ => true | None => false end.
Proof.
  destruct ping as [s| | |]; try reflexivity.
  unfold ISP.ping_target. destruct (float_truthy s) eqn:E; [|reflexivity].
  simpl. rewrite float_truthy_scale. exact E.
Qed.

Lemma isp_send_email_state clock smtp_up cfg subject m w :
  let r := ISP.send_email clock smtp_up cfg subject m w in
  exists sent, r.1.2 = ISP.set_last_email_sent sent m.
Proof.
  unfold ISP.send_email, ISP.now, ISP.smtp_session. unfold_monad. cbv zeta.
  repeat (case_step; simpl); eauto.
  all: exists (ISP.last_email_sent m); destruct m; reflexivity.
Qed.

Ltac isp_state_step :=
  match goal with
  | |- context [ISP.send_email ?c ?s ?cfg ?sub ?m0 ?w0] =>
      let H := fresh "Hsend" in
      pose proof (isp_send_email_state c s cfg sub m0 w0) as H;
      cbv zeta in H;
      destruct (ISP.send_email c s cfg sub m0 w0) as [[? ?] ?];
      simpl in H; destruct H as [? ->]
  end.

Lemma check_connectivity_books clock smtp_up cfg format_0f ping m w :
  let r := ISP.check_connectivity clock smtp_up cfg format_0f ping m w in
  let latency := ISP.ping_target ping in
  let threshold := ISP.latency_threshold cfg in
  ISP.consecutive_failures r.1 =
    (if is_failure threshold latency then S (ISP.consecutive_failures m) else 0) /\
  ISP.total_checks r.1 = S (ISP.total_checks m) /\
  exists t,
    ISP.timestamps r.1 = deque_append ISP.max_data_points t (ISP.timestamps m) /\
    ISP.latencies r.1 =
      deque_append ISP.max_data_points (ISP.latency_or_zero latency)
        (ISP.latencies m) /\
    ISP.packet_loss r.1 =
      deque_append ISP.max_data_points (loss_flag latency) (ISP.packet_loss m) /\
    ISP.status_codes r.1 =
      deque_append ISP.max_data_points (isp_status_code threshold latency)
        (ISP.status_codes m) /\
    ISP.csv_file r.1 =
      ISP.csv_file m ++
        [{| ISP.csv_timestamp := t;
            ISP.csv_status := ISP.format_ping_result cfg format_0f latency |}] /\
    ISP.detailed_csv r.1 =
      ISP.detailed_csv m ++
        [{| ISP.det_timestamp := t;
            ISP.det_latency_ms := ISP.latency_or_zero latency;
            ISP.det_status := ISP.format_ping_result cfg format_0f latency;
            ISP.det_consecutive_failures := ISP.consecutive_failures r.1;
            ISP.det_notes := isp_note threshold latency |}].
Proof.
  cbv zeta. unfold ISP.check_connectivity.
  rewrite isp_ping_target_truthy.
  destruct (ISP.ping_target ping) as [l|] eqn:El.
  - assert (Ht : float_truthy l = true).
    { pose proof (isp_ping_target_truthy ping) as H. rewrite El in H. exact H. }
    unfold is_failure, isp_note, isp_status_code, loss_flag.
    unfold ISP.log_to_csv, ISP.now. unfold_monad. cbv zeta. simpl.
    destruct (float_gtb l (ISP.latency_threshold cfg)) eqn:Egt.
    + repeat (first [isp_state_step | case_step]; simpl).
      all: rewrite ?Egt.
      all: split; [reflexivity|]; split; [reflexivity|]; eexists;
        repeat split; reflexivity.
    + repeat (first [isp_state_step | case_step]; simpl).
      all: rewrite ?Egt.
      all: try match goal with
           | H : (0 <? ?x) = false |- _ =>
               apply Nat.ltb_ge in H;
               let E0 := fresh "E0" in
               assert (E0 : x = 0) by lia; rewrite ?E0
           end.
      all: split; [reflexivity|]; split; [reflexivity|]; eexists;
        repeat split; reflexivity.
  - unfold is_failure, isp_note, isp_status_code, loss_flag.
    unfold ISP.log_to_csv, ISP.now. unfold_monad. cbv zeta. simpl.
    repeat (first [isp_state_step | case_step]; simpl).
    all: split; [reflexivity|]; split; [reflexivity|]; eexists;
      repeat split; reflexivity.
Qed.
(** ** The older program: a run of the loop *)

Lemma monitoring_loop_cons clock smtp_up cfg format_0f ping rest m w :
  ISPLoop.monitoring_loop clock smtp_up cfg format_0f (ping :: rest) m w =
  let r := ISP.check_connectivity clock smtp_up cfg format_0f ping m w in
  ISPLoop.monitoring_loop clock smtp_up cfg format_0f rest r.1 r.2.
Proof.
  simpl. unfold bind at 1.
  destruct (ISP.check_connectivity _ _ _ _ _ _ _); reflexivity.
Qed.

Lemma monitoring_loop_snoc clock smtp_up cfg format_0f pings ping m w :
  ISPLoop.monitoring_loop clock smtp_up cfg format_0f (pings ++ [ping]) m w =
  let r := ISPLoop.monitoring_loop clock smtp_up cfg format_0f pings m w in
  ISP.check_connectivity clock smtp_up cfg format_0f ping r.1 r.2.
Proof.
  revert m w. induction pings as [|p rest IH]; intros m w.
  - simpl. unfold bind, ret.
    destruct (ISP.check_connectivity _ _ _ _ _ _ _); reflexivity.
  - rewrite <- app_comm_cons, !monitoring_loop_cons. cbv zeta. apply IH.
Qed.

(** With both files written at every check, the two logs grow in step,
    one row per check. *)
Lemma monitoring_loop_logs clock smtp_up cfg format_0f pings m w :
  let r := ISPLoop.monitoring_loop clock smtp_up cfg format_0f pings m w in
  let latencies := ISP.ping_target <$> pings in
  let threshold := ISP.latency_threshold cfg in
  exists rows,
    ISP.detailed_csv r.1 = ISP.detailed_csv m ++ rows /\
    ISP.csv_file r.1 =
      ISP.csv_file m ++
        ((fun row => {| ISP.csv_timestamp := ISP.det_timestamp row;
                        ISP.csv_status := ISP.det_status row |}) <$> rows) /\
    (fun row => (ISP.det_latency_ms row, ISP.det_status row, ISP.det_notes row))
      <$> rows =
    (fun l => (ISP.latency_or_zero l, ISP.format_ping_result cfg format_0f l,
               isp_note threshold l)) <$> latencies /\
    ISP.det_consecutive_failures <$> rows =
      running_failures threshold (ISP.consecutive_failures m) latencies.
Proof.
  cbv zeta. revert m w. induction pings as [|ping pings IH]; intros m w.
  - exists []. simpl. rewrite !app_nil_r. repeat split; reflexivity.
  - rewrite monitoring_loop_cons. cbv zeta.
    destruct (check_connectivity_books clock smtp_up cfg format_0f ping m w)
      as (Hcf & _ & t & _ & _ & _ & _ & Hcsv & Hdet).
    set (r := ISP.check_connectivity _ _ _ _ _ _ _) in *.
    destruct (IH r.1 r.2) as (rows & Hrows & Hplain & Hvals & Hcount).
    eexists (_ :: rows). rewrite Hrows, Hplain, Hdet, Hcsv, <- !app_assoc.
    split; [reflexivity|]. split; [reflexivity|].
    rewrite !fmap_cons, Hvals, Hcount. cbn [running_failures].
    rewrite <- Hcf. split; reflexivity.
Qed.

(** ** The older program: the two logs when a write fails *)

Lemma files_check_books clock smtp_up cfg format_0f csv_up detailed_up ping m w :
  let r := ISPFiles.check_connectivity clock smtp_up cfg format_0f csv_up
             detailed_up ping m w in
  let latency := ISP.ping_target ping in
  let threshold := ISP.latency_threshold cfg in
  let k := S (ISP.total_checks m) in
  ISP.consecutive_failures r.1 =
    (if is_failure threshold latency then S (ISP.consecutive_failures m) else 0) /\
  ISP.total_checks r.1 = k /\
  exists t,
    ISP.csv_file r.1 =
      ISP.csv_file m ++
        (if csv_up k then
           [{| ISP.csv_timestamp := t;
               ISP.csv_status := ISP.format_ping_result cfg format_0f latency |}]
         else []) /\
    ISP.detailed_csv r.1 =
      ISP.detailed_csv m ++
        (if detailed_up k then
           [{| ISP.det_timestamp := t;
               ISP.det_latency_ms := ISP.latency_or_zero latency;
               ISP.det_status := ISP.format_ping_result cfg format_0f latency;
               ISP.det_consecutive_failures := ISP.consecutive_failures r.1;
               ISP.det_notes := isp_note threshold latency |}]
         else []).
Proof.
  cbv zeta. unfold ISPFiles.check_connectivity.
  rewrite isp_ping_target_truthy.
  destruct (ISP.ping_target ping) as [l|] eqn:El.
  all: unfold is_failure, isp_note.
  all: unfold ISPFiles.log_to_csv, ISP.now; unfold_monad; cbv zeta; simpl.
  all: try destruct (float_gtb l (ISP.latency_threshold cfg)) eqn:Egt.
  all: repeat (first [isp_state_step | case_step]; simpl).
  all: rewrite ?Egt.
  all: try match goal with
       | H : (0 <? ?x) = false |- _ =>
           apply Nat.ltb_ge in H;
           let E0 := fresh "E0" in
           assert (E0 : x = 0) by lia; rewrite ?E0
       end.
  all: split; [reflexivity|]; split; [reflexivity|].
  all: first [ exists 0%Z; split; rewrite ?app_nil_r; reflexivity
             | eexists; split; rewrite ?app_nil_r; reflexivity ].
Qed.

Lemma files_loop_cons clock smtp_up cfg format_0f csv_up detailed_up ping rest m w :
  ISPFiles.monitoring_loop clock smtp_up cfg format_0f csv_up detailed_up
    (ping :: rest) m w =
  let r := ISPFiles.check_connectivity clock smtp_up cfg format_0f csv_up
             detailed_up ping m w in
  ISPFiles.monitoring_loop clock smtp_up cfg format_0f csv_up detailed_up
    rest r.1 r.2.
Proof.
  simpl. unfold bind at 1.
  destruct (ISPFiles.check_connectivity _ _ _ _ _ _ _ _ _); reflexivity.
Qed.

Lemma written_all {A} (up : nat -> bool) (rows : list A) :
  (forall k, up k = true) -> forall k, written up k rows = rows.
Proof.
  intros Hup. induction rows as [|row rows IH]; intros k; [reflexivity|].
  simpl. rewrite Hup, IH. reflexivity.
Qed.

(** X20.  A run of the older program's loop makes one row per check for
    each of its two logs: the detailed row has the time and the status
    line of the plain one, the latency read (0 for none), the note of its
    class, and the failure counter as it stands after the check.  Each log
    receives, in order, the rows of the checks during which its own write
    went through; a write that fails costs that log that row and nothing
    else. *)
Theorem X20_the_two_logs_of_a_run
    clock smtp_up cfg format_0f csv_up detailed_up pings m w :
  let r := ISPFiles.monitoring_loop clock smtp_up cfg format_0f csv_up
             detailed_up pings m w in
  let latencies := ISP.ping_target <$> pings in
  let threshold := ISP.latency_threshold cfg in
  exists rows,
    ISP.detailed_csv r.1 =
      ISP.detailed_csv m ++ written detailed_up (ISP.total_checks m) rows /\
    ISP.csv_file r.1 =
      ISP.csv_file m ++ written csv_up (ISP.total_checks m) (plain_row <$> rows) /\
    (fun row => (ISP.det_latency_ms row, ISP.det_status row, ISP.det_notes row))
      <$> rows =
    (fun l => (ISP.latency_or_zero l, ISP.format_ping_result cfg format_0f l,
               isp_note threshold l)) <$> latencies /\
    ISP.det_consecutive_failures <$> rows =
      running_failures threshold (ISP.consecutive_failures m) latencies.
Proof.
  cbv zeta. revert m w. induction pings as [|ping pings IH]; intros m w.
  - exists []. simpl. rewrite !app_nil_r. repeat split; reflexivity.
  - rewrite files_loop_cons. cbv zeta.
    destruct (files_check_books clock smtp_up cfg format_0f csv_up detailed_up
                ping m w) as (Hcf & Htc & t & Hcsv & Hdet).
    set (r := ISPFiles.check_connectivity _ _ _ _ _ _ _ _ _) in *.
    destruct (IH r.1 r.2) as (rows & Hrows & Hplain & Hvals & Hcount).
    exists ({| ISP.det_timestamp := t;
               ISP.det_latency_ms := ISP.latency_or_zero (ISP.ping_target ping);
               ISP.det_status :=
                 ISP.format_ping_result cfg format_0f (ISP.ping_target ping);
               ISP.det_consecutive_failures := ISP.consecutive_failures r.1;
               ISP.det_notes :=
                 isp_note (ISP.latency_threshold cfg) (ISP.ping_target ping) |}
              :: rows).
    rewrite Hrows, Hplain, Hdet, Hcsv, Htc, <- !app_assoc.
    rewrite fmap_cons. cbn [written].
    split; [reflexivity|]. split; [reflexivity|].
    rewrite !fmap_cons, Hvals, Hcount. cbn [running_failures].
    rewrite <- Hcf. split; reflexivity.
Qed.

(** With both files writable throughout, the loop is the one of
    [ISPLoop]. *)
Lemma files_check_all_written clock smtp_up cfg format_0f csv_up detailed_up ping m w :
  (forall k, csv_up k = true) -> (forall k, detailed_up k = true) ->
  ISPFiles.check_connectivity clock smtp_up cfg format_0f csv_up detailed_up
    ping m w =
  ISP.check_connectivity clock smtp_up cfg format_0f ping m w.
Proof.
  intros Hcsv Hdet.
  unfold ISPFiles.check_connectivity, ISP.check_connectivity.
  unfold ISPFiles.log_to_csv, ISP.log_to_csv, ISP.now. unfold_monad. cbv zeta.
  simpl.
  repeat (first [progress rewrite ?Hcsv, ?Hdet | isp_state_step | case_step];
          simpl).
  all: reflexivity.
Qed.

Lemma files_loop_all_written clock smtp_up cfg format_0f csv_up detailed_up pings :
  (forall k, csv_up k = true) -> (forall k, detailed_up k = true) ->
  forall m w,
  ISPFiles.monitoring_loop clock smtp_up cfg format_0f csv_up detailed_up
    pings m w =
  ISPLoop.monitoring_loop clock smtp_up cfg format_0f pings m w.
Proof.
  intros Hcsv Hdet. induction pings as [|ping pings IH]; intros m w; [reflexivity|].
  rewrite files_loop_cons, monitoring_loop_cons. cbv zeta.
  rewrite files_check_all_written by assumption. apply IH.
Qed.

(** Three checks, the detailed log unwritable during the second: the
    plain log has three rows and the detailed one two. *)
Example detailed_log_misses_a_row :
  let r := ISPFiles.monitoring_loop Sample.clock always_up Sample.isp_cfg
             Sample.format_0f always_up detailed_fails_once
             [Sample.reply_120; PingTimeout; Sample.reply_90]
             ISP.initial_monitor Sample.w0 in
  length (ISP.csv_file r.1) = 3 /\
  ISP.det_notes <$> ISP.detailed_csv r.1 = ["OK"; "OK"]%string /\
  ISP.total_checks r.1 = 3.
Proof. vm_compute. repeat split; reflexivity. Qed.

Lemma monitoring_loop_series clock smtp_up cfg format_0f pings w :
  let r := ISPLoop.monitoring_loop clock smtp_up cfg format_0f pings
             ISP.initial_monitor w in
  let latencies := ISP.ping_target <$> pings in
  let threshold := ISP.latency_threshold cfg in
  ISP.consecutive_failures r.1 = trailing_failures threshold latencies /\
  ISP.total_checks r.1 = length pings /\
  length (ISP.timestamps r.1) = Nat.min (length pings) ISP.max_data_points /\
  ISP.latencies r.1 =
    NetPulse.last_n ISP.max_data_points (ISP.latency_or_zero <$> latencies) /\
  ISP.packet_loss r.1 =
    NetPulse.last_n ISP.max_data_points (loss_flag <$> latencies) /\
  ISP.status_codes r.1 =
    NetPulse.last_n ISP.max_data_points (isp_status_code threshold <$> latencies).
Proof.
  cbv zeta. induction pings as [|ping pings IH] using rev_ind.
  - simpl. unfold NetPulse.last_n. repeat split; reflexivity.
  - rewrite monitoring_loop_snoc. cbv zeta.
    set (r := ISPLoop.monitoring_loop _ _ _ _ pings _ _) in *.
    destruct (check_connectivity_books clock smtp_up cfg format_0f ping r.1 r.2)
      as (Hcf & Htc & t & Hts & Hlat & Hloss & Hcodes & _).
    destruct IH as (IHcf & IHtc & IHts & IHlat & IHloss & IHcodes).
    rewrite Hcf, Htc, Hts, Hlat, Hloss, Hcodes.
    rewrite IHcf, IHtc, IHlat, IHloss, IHcodes.
    rewrite !fmap_app, !list_fmap_singleton, trailing_failures_snoc.
    rewrite !deque_append_last_n, length_app.
    split; [reflexivity|]. split; [simpl; lia|]. split; [|auto].
    unfold deque_append. rewrite length_drop, !length_app, IHts.
    unfold ISP.max_data_points. simpl. lia.
Qed.

(** X21.  From its initial state, the four series the older program keeps
    for its graphs always have the same length, the number of checks made
    up to 200; the latency, loss and status series hold the values of the
    latest 200 checks, oldest first. *)
Theorem X21_graph_series_stay_aligned clock smtp_up cfg format_0f pings w :
  let r := ISPLoop.monitoring_loop clock smtp_up cfg format_0f pings
             ISP.initial_monitor w in
  let latencies := ISP.ping_target <$> pings in
  let n := Nat.min (length pings) 200 in
  length (ISP.timestamps r.1) = n /\
  length (ISP.latencies r.1) = n /\
  length (ISP.packet_loss r.1) = n /\
  length (ISP.status_codes r.1) = n /\
  ISP.latencies r.1 = NetPulse.last_n 200 (ISP.latency_or_zero <$> latencies) /\
  ISP.packet_loss r.1 = NetPulse.last_n 200 (loss_flag <$> latencies) /\
  ISP.status_codes r.1 =
    NetPulse.last_n 200 (isp_status_code (ISP.latency_threshold cfg) <$> latencies).
Proof.
  cbv zeta.
  destruct (monitoring_loop_series clock smtp_up cfg format_0f pings w)
    as (_ & _ & Hts & Hlat & Hloss & Hcodes).
  change ISP.max_data_points with 200 in *.
  rewrite Hlat, Hloss, Hcodes.
  unfold NetPulse.last_n. rewrite !length_drop, !length_fmap.
  repeat split; first [exact Hts | lia].
Qed.

Lemma monitor_target_counter clock db_up smtp_up cfg target_name tc pings w :
  consecutive_failures
    (NetPulse.monitor_target clock db_up smtp_up cfg target_name pings
       (NetPulse.initial_target_data tc) w).1 =
  trailing_failures (latency_threshold cfg) (NetPulse.ping_target <$> pings).
Proof.
  induction pings as [|ping pings IH] using rev_ind; [reflexivity|].
  rewrite monitor_target_snoc. cbv zeta.
  rewrite fmap_app, list_fmap_singleton, trailing_failures_snoc.
  rewrite iteration_counter, IH. reflexivity.
Qed.

(** X22.  With the same threshold, the two programs count alike: after
    the same sequence of ping outcomes, each from its initial state, the
    failure counter and the number of checks are the same in both,
    whatever the clocks, the store and the mail servers do. *)
Theorem X22_both_programs_count_alike
    clock smtp_up isp_cfg format_0f w
    clock' db_up smtp_up' cfg target_name tc w' pings :
  ISP.latency_threshold isp_cfg = latency_threshold cfg ->
  let r := ISPLoop.monitoring_loop clock smtp_up isp_cfg format_0f pings
             ISP.initial_monitor w in
  let r' := NetPulse.monitor_target clock' db_up smtp_up' cfg target_name pings
              (NetPulse.initial_target_data tc) w' in
  ISP.consecutive_failures r.1 = consecutive_failures r'.1 /\
  ISP.total_checks r.1 = total_checks r'.1.
Proof.
  intros Hthr. cbv zeta.
  destruct (monitoring_loop_series clock smtp_up isp_cfg format_0f pings w)
    as (Hcf & Htc & _).
  destruct (monitor_target_window clock' db_up smtp_up' cfg target_name tc pings w')
    as [_ Htc'].
  rewrite Hcf, Htc, Htc', monitor_target_counter, Hthr.
  split; reflexivity.
Qed.

Lemma X22_count_alike_witness :
  ISP.latency_threshold Sample.isp_cfg = latency_threshold Sample.cfg /\
  ISP.consecutive_failures
    (ISPLoop.monitoring_loop Sample.clock always_up Sample.isp_cfg
       Sample.format_0f Sample.streak ISP.initial_monitor Sample.w0).1 =
  consecutive_failures (Sample.run Sample.streak).1 /\
  ISP.total_checks
    (ISPLoop.monitoring_loop Sample.clock always_up Sample.isp_cfg
       Sample.format_0f Sample.streak ISP.initial_monitor Sample.w0).1 =
  total_checks (Sample.run Sample.streak).1.
Proof.
  split; [reflexivity|].
  apply (X22_both_programs_count_alike Sample.clock always_up Sample.isp_cfg
           Sample.format_0f Sample.w0 Sample.clock always_up always_up Sample.cfg
           "A" Sample.target_a Sample.w0 Sample.streak).
  reflexivity.
Defined.

(** X23.  The startup notification starts the cooldown: when it has been
    delivered and the first check fails while the cooldown that began with
    it is still running, the failure is counted, but no alert is sent for
    it.  (The times compared are the one read when the alert is about to
    go out and the one recorded for the startup mail: the ninth and the
    third reading of the clock.) *)
Theorem X23_startup_mail_starts_the_cooldown
    clock smtp_up cfg format_0f ping w :
  ISP.send_every_failure cfg = true ->
  ISP.to_email_list cfg <> [] ->
  smtp_up (length (outbox w)) = true ->
  is_failure (ISP.latency_threshold cfg) (ISP.ping_target ping) = true ->
  (total_seconds (clock (8 + clock_reads w)%nat - clock (2 + clock_reads w)%nat)
     < ISP.cooldown_seconds cfg)%Q ->
  let r := ISPLoop.start_monitoring clock smtp_up cfg format_0f [ping]
             ISP.initial_monitor w in
  outbox r.2 =
    outbox w ++
      [{| sa_target := ISP.target_ip cfg;
          sa_subject := "ISP Monitor Started - " +:+ ISP.target_ip cfg;
          sa_delivered := true |}] /\
  ISP.consecutive_failures r.1 = 1.
Proof.
  intros Hon Hto Hup Hfail Hcool. cbv zeta.
  apply float_ltb_true in Hcool. cbn [Nat.add] in Hcool.
  unfold is_failure in Hfail.
  destruct (ISP.to_email_list cfg) as [|a l] eqn:Eto; [congruence|].
  split.
  all: unfold ISPLoop.start_monitoring, ISPLoop.monitoring_loop,
         ISP.send_email at 1.
  all: rewrite Hon, Eto.
  all: unfold ISP.now, ISP.smtp_session; unfold_monad; simpl.
  all: rewrite lookup_empty; simpl; rewrite Hup; simpl.
  all: unfold ISP.check_connectivity; rewrite isp_ping_target_truthy.
  all: destruct (ISP.ping_target ping) as [lat|];
         cbn [default from_option id]; cbv iota; [rewrite Hfail|].
  all: unfold ISP.log_to_csv, ISP.send_email, ISP.now.
  all: unfold_monad; simpl; rewrite Hon; simpl.
  all: rewrite lookup_insert_eq; simpl.
  all: rewrite Hcool; simpl; reflexivity.
Qed.

Lemma X23_startup_cooldown_witness :
  ISP.send_every_failure Sample.isp_cfg = true /\
  ISP.to_email_list Sample.isp_cfg <> [] /\
  (total_seconds (Sample.clock (8 + clock_reads Sample.w0)%nat
                    - Sample.clock (2 + clock_reads Sample.w0)%nat)
     < ISP.cooldown_seconds Sample.isp_cfg)%Q /\
  outbox (ISPLoop.start_monitoring Sample.clock always_up Sample.isp_cfg
            Sample.format_0f [PingTimeout] ISP.initial_monitor Sample.w0).2 =
    outbox Sample.w0 ++
      [{| sa_target := ISP.target_ip Sample.isp_cfg;
          sa_subject := "ISP Monitor Started - " +:+ ISP.target_ip Sample.isp_cfg;
          sa_delivered := true |}] /\
  ISP.consecutive_failures
    (ISPLoop.start_monitoring Sample.clock always_up Sample.isp_cfg
       Sample.format_0f [PingTimeout] ISP.initial_monitor Sample.w0).1 = 1.
Proof.
  assert (H1 : ISP.to_email_list Sample.isp_cfg <> []) by discriminate.
  assert (H2 : (total_seconds (Sample.clock (8 + clock_reads Sample.w0)%nat
                                 - Sample.clock (2 + clock_reads Sample.w0)%nat)
                  < ISP.cooldown_seconds Sample.isp_cfg)%Q) by reflexivity.
  split; [reflexivity|]. split; [exact H1|]. split; [exact H2|].
  exact (X23_startup_mail_starts_the_cooldown Sample.clock always_up
           Sample.isp_cfg Sample.format_0f PingTimeout Sample.w0
           eq_refl H1 eq_refl eq_refl H2).
Defined.
(** ** Reading a list of recipients back *)

Lemma lstrip_starts_well p s : Mail.starts_well p s -> Text.lstrip p s = s.
Proof. destruct s as [|c s]; [intros []|]. simpl. intros ->. reflexivity. Qed.

Lemma rstrip_ends_well p s : Mail.ends_well p s -> Text.rstrip p s = s.
Proof.
  induction s as [|c s IH]; [intros []|].
  cbn [Mail.ends_well Text.rstrip]. destruct s as [|c' s].
  - simpl. intros ->. reflexivity.
  - intros H. rewrite (IH H). reflexivity.
Qed.

Lemma starts_well_weaken (p q : ascii -> bool) s :
  (forall c, p c = false -> q c = false) ->
  Mail.starts_well p s -> Mail.starts_well q s.
Proof. intros Hpq. destruct s; [trivial|]. simpl. apply Hpq. Qed.

Lemma ends_well_weaken (p q : ascii -> bool) s :
  (forall c, p c = false -> q c = false) ->
  Mail.ends_well p s -> Mail.ends_well q s.
Proof.
  intros Hpq. induction s as [|c s IH]; [trivial|].
  cbn [Mail.ends_well]. destruct s; [apply Hpq | exact IH].
Qed.

Lemma stripped_isspace c : Mail.stripped c = false -> Text.isspace c = false.
Proof.
  unfold Mail.stripped. intros H.
  apply orb_false_iff in H. destruct H as [H _].
  apply orb_false_iff in H. apply H.
Qed.

Lemma stripped_double_quote c :
  Mail.stripped c = false -> Ascii.eqb Text.double_quote c = false.
Proof.
  unfold Mail.stripped. intros H.
  apply orb_false_iff in H. destruct H as [H _].
  apply orb_false_iff in H. apply H.
Qed.

Lemma stripped_quote c : Mail.stripped c = false -> Ascii.eqb "'" c = false.
Proof. unfold Mail.stripped. intros H. apply orb_false_iff in H. apply H. Qed.

Lemma strip_chars_well p s :
  Mail.starts_well p s -> Mail.ends_well p s ->
  Text.lstrip p (Text.rstrip p s) = s.
Proof.
  intros Hs He. rewrite rstrip_ends_well by exact He.
  apply lstrip_starts_well. exact Hs.
Qed.

(** A plain address is left alone by the three strippings. *)
Lemma plain_address_strip a :
  Mail.plain_address a ->
  Text.strip a = a /\
  Text.strip_char "'" (Text.strip_char Text.double_quote (Text.strip a)) = a.
Proof.
  intros (Hs & He & _).
  assert (H1 : Text.strip a = a).
  { apply strip_chars_well;
      [ apply (starts_well_weaken _ _ _ stripped_isspace Hs)
      | apply (ends_well_weaken _ _ _ stripped_isspace He) ]. }
  assert (H2 : Text.strip_char Text.double_quote a = a).
  { apply strip_chars_well;
      [ apply (starts_well_weaken _ _ _ stripped_double_quote Hs)
      | apply (ends_well_weaken _ _ _ stripped_double_quote He) ]. }
  assert (H3 : Text.strip_char "'" a = a).
  { apply strip_chars_well;
      [ apply (starts_well_weaken _ _ _ stripped_quote Hs)
      | apply (ends_well_weaken _ _ _ stripped_quote He) ]. }
  split; [exact H1|]. rewrite H1, H2, H3. reflexivity.
Qed.

Lemma ends_well_nonempty p s : Mail.ends_well p s -> s <> EmptyString.
Proof. destruct s; [intros [] | discriminate]. Qed.

Lemma ends_well_cons p c s :
  s <> EmptyString -> Mail.ends_well p (String c s) = Mail.ends_well p s.
Proof. destruct s; [congruence | reflexivity]. Qed.

Lemma ends_well_app p s1 s2 :
  Mail.ends_well p s2 -> Mail.ends_well p (s1 +:+ s2).
Proof.
  intros H. induction s1 as [|c s1 IH]; [exact H|].
  change (String c s1 +:+ s2) with (String c (s1 +:+ s2)).
  rewrite ends_well_cons; [exact IH|].
  apply (ends_well_nonempty p). exact IH.
Qed.

Lemma starts_well_app p s1 s2 :
  Mail.starts_well p s1 -> Mail.starts_well p (s1 +:+ s2).
Proof. destruct s1; [intros []|]. trivial. Qed.

Lemma rstrip_cons p c s :
  Text.rstrip p s <> EmptyString ->
  Text.rstrip p (String c s) = String c (Text.rstrip p s).
Proof. cbn [Text.rstrip]. destruct (Text.rstrip p s); [congruence | reflexivity]. Qed.

(** A space in front of a plain address is stripped. *)
Lemma strip_space_address a :
  Mail.plain_address a -> Text.strip (" " +:+ a) = a.
Proof.
  intros (Hs & He & _).
  assert (Hr : Text.rstrip Text.isspace a = a).
  { apply rstrip_ends_well. apply (ends_well_weaken _ _ _ stripped_isspace He). }
  unfold Text.strip. change (" " +:+ a) with (String " " a).
  rewrite rstrip_cons, Hr by (rewrite Hr; apply (ends_well_nonempty _ _ He)).
  cbn [Text.lstrip]. change (Text.isspace " ") with true. cbv iota.
  apply lstrip_starts_well.
  apply (starts_well_weaken _ _ _ stripped_isspace Hs).
Qed.

Lemma contains_app ch s1 s2 :
  Text.contains ch (s1 +:+ s2) = Text.contains ch s1 || Text.contains ch s2.
Proof.
  induction s1 as [|c s1 IH]; [reflexivity|].
  simpl. rewrite IH, orb_assoc. reflexivity.
Qed.

Lemma split_cons ch c s :
  Ascii.eqb c ch = false ->
  Text.split ch (String c s) =
  match Text.split ch s with
  | piece :: pieces => String c piece :: pieces
  | [] => [String c EmptyString]
  end.
Proof. intros H. simpl. rewrite H. reflexivity. Qed.

Lemma split_app_plain ch s1 s2 :
  Text.contains ch s1 = false ->
  Text.split ch (s1 +:+ String ch s2) = s1 :: Text.split ch s2.
Proof.
  induction s1 as [|c s1 IH]; intros H.
  - simpl. rewrite Ascii.eqb_refl. reflexivity.
  - simpl in H. apply orb_false_iff in H. destruct H as [Hc Hs].
    change (String c s1 +:+ String ch s2) with (String c (s1 +:+ String ch s2)).
    rewrite split_cons by exact Hc. rewrite (IH Hs). reflexivity.
Qed.

Lemma split_plain ch s : Text.contains ch s = false -> Text.split ch s = [s].
Proof.
  induction s as [|c s IH]; intros H; [reflexivity|].
  simpl in H. apply orb_false_iff in H. destruct H as [Hc Hs].
  rewrite split_cons by exact Hc. rewrite (IH Hs). reflexivity.
Qed.

(** Splitting what [", ".join] has put together. *)
Lemma split_join a l :
  Forall (fun a => Text.contains "," a = false) (a :: l) ->
  Text.split "," (Text.join ", " (a :: l)) = a :: ((fun b => " " +:+ b) <$> l).
Proof.
  revert a. induction l as [|b l IH]; intros a Hall.
  - simpl. apply split_plain. exact (Forall_inv Hall).
  - change (Text.join ", " (a :: b :: l))
      with (a +:+ String "," (" " +:+ Text.join ", " (b :: l))).
    rewrite split_app_plain by exact (Forall_inv Hall).
    f_equal.
    pose proof (IH b (Forall_inv_tail Hall)) as Hrest.
    change (" " +:+ Text.join ", " (b :: l))
      with (String " " (Text.join ", " (b :: l))).
    rewrite split_cons by reflexivity. rewrite Hrest. reflexivity.
Qed.

Lemma strip_split_join a l :
  Forall Mail.plain_address (a :: l) ->
  Text.strip <$> Text.split "," (Text.join ", " (a :: l)) = a :: l.
Proof.
  intros Hall.
  rewrite split_join
    by (eapply Forall_impl; [exact Hall|]; intros b Hb; apply Hb).
  rewrite fmap_cons.
  rewrite (proj1 (plain_address_strip a (Forall_inv Hall))). f_equal.
  pose proof (Forall_inv_tail Hall) as Hl. clear Hall.
  induction Hl as [|b l Hb _ IH]; [reflexivity|].
  rewrite !fmap_cons, IH, strip_space_address by exact Hb. reflexivity.
Qed.

Lemma join_edges sep a l :
  Forall Mail.plain_address (a :: l) ->
  Mail.starts_well Mail.stripped (Text.join sep (a :: l)) /\
  Mail.ends_well Mail.stripped (Text.join sep (a :: l)).
Proof.
  revert a. induction l as [|b l IH]; intros a Hall.
  - destruct (Forall_inv Hall) as (Hs & He & _). split; assumption.
  - destruct (Forall_inv Hall) as (Hs & _).
    destruct (IH b (Forall_inv_tail Hall)) as [_ He].
    change (Text.join sep (a :: b :: l))
      with (a +:+ (sep +:+ Text.join sep (b :: l))).
    split; [apply starts_well_app; exact Hs|].
    apply ends_well_app, ends_well_app. exact He.
Qed.

Lemma filter_plain l :
  Forall Mail.plain_address l ->
  filter (fun email => email <> EmptyString /\ Text.contains "@" email = true) l = l.
Proof.
  induction 1 as [|a l Ha _ IH]; [reflexivity|].
  rewrite filter_cons, IH. rewrite decide_True; [reflexivity|].
  destruct Ha as (_ & He & Hat & _).
  split; [apply (ends_well_nonempty _ _ He) | exact Hat].
Qed.

Lemma fmap_strip_plain l :
  Forall Mail.plain_address l ->
  (fun email =>
     Text.strip_char "'" (Text.strip_char Text.double_quote (Text.strip email)))
    <$> l = l.
Proof.
  induction 1 as [|a l Ha _ IH]; [reflexivity|].
  rewrite fmap_cons, IH, (proj2 (plain_address_strip a Ha)). reflexivity.
Qed.

(** X24.  A list of plain addresses written out with [", ".join], as the
    programs do for the [To] header, is read back as it was: by
    [parse_email_recipients] of the older program, and, when the list is
    not empty, by the comma split of the newer one. *)
Theorem X24_plain_addresses_are_read_back (l : list string) :
  Forall Mail.plain_address l ->
  Mail.parse_email_recipients (Text.join ", " l) = l /\
  (l <> [] -> Mail.to_emails (Text.join ", " l) = l).
Proof.
  intros Hall. destruct l as [|a l]; [split; [reflexivity | congruence]|].
  split; [|intros _; apply strip_split_join; exact Hall].
  destruct (join_edges ", " a l Hall) as [Hs He].
  unfold Mail.parse_email_recipients.
  destruct (String.eqb (Text.join ", " (a :: l)) "") eqn:Eempty.
  { apply String.eqb_eq in Eempty. rewrite Eempty in Hs. destruct Hs. }
  assert (Hstrip : Text.strip (Text.join ", " (a :: l)) = Text.join ", " (a :: l)).
  { apply strip_chars_well;
      [ apply (starts_well_weaken _ _ _ stripped_isspace Hs)
      | apply (ends_well_weaken _ _ _ stripped_isspace He) ]. }
  cbv zeta. rewrite Hstrip.
  destruct l as [|b l].
  - destruct (Forall_inv Hall) as (_ & _ & _ & Hcomma & Hsemi).
    cbn [Text.join]. rewrite Hcomma, Hsemi.
    rewrite fmap_strip_plain, filter_plain by exact Hall. reflexivity.
  - assert (Hcomma : Text.contains "," (Text.join ", " (a :: b :: l)) = true).
    { change (Text.join ", " (a :: b :: l))
        with (a +:+ (String "," (" " +:+ Text.join ", " (b :: l)))).
      rewrite contains_app. apply orb_true_r. }
    rewrite Hcomma, strip_split_join by exact Hall.
    rewrite fmap_strip_plain, filter_plain by exact Hall. reflexivity.
Qed.

Lemma X24_two_addresses_witness :
  Forall Mail.plain_address ["ops@example.org"; "noc@example.org"]%string /\
  Mail.parse_email_recipients
    (Text.join ", " ["ops@example.org"; "noc@example.org"]%string) =
  ["ops@example.org"; "noc@example.org"]%string.
Proof.
  assert (H : Forall Mail.plain_address
                ["ops@example.org"; "noc@example.org"]%string)
    by (repeat constructor).
  split; [exact H|].
  exact (proj1 (X24_plain_addresses_are_read_back _ H)).
Defined.
(** ** Reading the log back *)

(** X25.  For a positive [count], [get_last_results] gives the last
    [count] rows of the log below its header line (all of them when there
    are fewer), stripped and one per line, and never the header; for a
    [count] of 0 it gives the whole file, header included; and when the
    file cannot be read it gives a fixed text. *)
Theorem X25_last_results_leave_the_header_out count header rows :
  ((0 < count)%Z ->
   Logs.get_last_results count (Some (header :: rows)) =
     Text.join (String Text.line_feed EmptyString)
       (Text.strip <$> NetPulse.last_n (Z.to_nat count) rows)) /\
  Logs.get_last_results 0 (Some (header :: rows)) =
    Text.join (String Text.line_feed EmptyString)
      (Text.strip <$> header :: rows) /\
  Logs.get_last_results count None = "No previous results available"%string.
Proof.
  split; [|split; reflexivity].
  intros Hpos. unfold Logs.get_last_results, Text.slice_from, NetPulse.last_n.
  do 2 f_equal. cbn [length].
  destruct (count <? Z.of_nat (S (length rows)))%Z eqn:E.
  - apply Z.ltb_lt in E.
    destruct (- count <? 0)%Z eqn:E'; [|apply Z.ltb_ge in E'; lia].
    replace (Z.to_nat (Z.max (Z.of_nat (S (length rows)) + - count) 0))
      with (S (length rows - Z.to_nat count)) by lia.
    reflexivity.
  - apply Z.ltb_ge in E. simpl.
    replace (length rows - Z.to_nat count) with 0 by lia. reflexivity.
Qed.
(** ** The first alert of each kind *)

Lemma send_email_alert_new_key clock smtp_up cfg td target_name subject w :
  send_alerts cfg = true ->
  last_email_sent td !! NetPulse.email_key target_name subject = None ->
  let r := NetPulse.send_email_alert clock smtp_up cfg td target_name subject w in
  outbox r.2 =
    outbox w ++ [{| sa_target := target_name; sa_subject := subject;
                    sa_delivered := smtp_up (length (outbox w)) |}] /\
  (forall k, k <> NetPulse.email_key target_name subject ->
             last_email_sent r.1 !! k = last_email_sent td !! k) /\
  consecutive_failures r.1 = consecutive_failures td.
Proof.
  intros Hon Hnone. unfold NetPulse.send_email_alert.
  rewrite Hon, Hnone. unfold_monad. simpl.
  destruct (smtp_up (length (outbox w))); simpl.
  - split; [reflexivity|]. split; [|reflexivity].
    intros k Hk. apply lookup_insert_ne. congruence.
  - repeat split; reflexivity.
Qed.

Ltac alert_new_step Hon Hnone :=
  match goal with
  | |- context [NetPulse.send_email_alert ?clock ?smtp_up ?cfg ?td ?n ?s ?w] =>
      let H := fresh "Hnew" in
      pose proof (send_email_alert_new_key clock smtp_up cfg td n s w Hon Hnone)
        as H;
      cbv zeta in H;
      destruct (NetPulse.send_email_alert clock smtp_up cfg td n s w) as [? ?];
      simpl in H; destruct H as (? & ? & ?)
  end.

Lemma classify_alert clock db_up smtp_up cfg target_name latency td w :
  send_alerts cfg = true ->
  let subject := alert_subject (latency_threshold cfg) target_name latency in
  is_failure (latency_threshold cfg) latency = true \/
    0 < consecutive_failures td ->
  last_email_sent td !! NetPulse.email_key target_name subject = None ->
  let r := NetPulse.classify_and_track clock db_up smtp_up cfg
             target_name latency td w in
  (exists d, outbox r.2 =
               outbox w ++ [{| sa_target := target_name; sa_subject := subject;
                               sa_delivered := d |}]) /\
  (forall k, k <> NetPulse.email_key target_name subject ->
             last_email_sent r.1.2 !! k = last_email_sent td !! k).
Proof.
  intros Hon subject Hdue Hnone. subst subject.
  unfold NetPulse.classify_and_track, NetPulse.start_incident, NetPulse.end_incident.
  unfold_monad. cbv zeta. unfold alert_subject, is_failure in *.
  destruct latency as [l|]; [destruct (float_gtb l _) eqn:Egt|].
  all: repeat (first [alert_new_step Hon Hnone | case_step]; simpl).
  all: try (split; [eexists; eassumption | assumption]).
  all: exfalso; destruct Hdue as [Hdue|Hdue]; [discriminate Hdue|];
    match goal with
    | H : (0 <? _) = false |- _ => apply Nat.ltb_ge in H; lia
    end.
Qed.

Lemma send_email_alert_other_keys clock smtp_up cfg td target_name subject w k :
  k <> NetPulse.email_key target_name subject ->
  last_email_sent
    (NetPulse.send_email_alert clock smtp_up cfg td target_name subject w).1 !! k =
  last_email_sent td !! k.
Proof.
  intros Hk. unfold NetPulse.send_email_alert. unfold_monad. cbv zeta.
  repeat (case_step; simpl); try reflexivity.
  all: apply lookup_insert_ne; congruence.
Qed.

Ltac alert_keys_step k Hk :=
  match goal with
  | |- context [NetPulse.send_email_alert ?clock ?smtp_up ?cfg ?td ?n ?s ?w] =>
      let H := fresh "Hkeys" in
      pose proof (send_email_alert_other_keys clock smtp_up cfg td n s w k Hk) as H;
      destruct (NetPulse.send_email_alert clock smtp_up cfg td n s w) as [? ?];
      simpl in H
  end.

Lemma classify_other_keys clock db_up smtp_up cfg target_name latency td w k :
  k <> NetPulse.email_key target_name
         (alert_subject (latency_threshold cfg) target_name latency) ->
  last_email_sent
    (NetPulse.classify_and_track clock db_up smtp_up cfg
       target_name latency td w).1.2 !! k =
  last_email_sent td !! k.
Proof.
  intros Hk.
  unfold NetPulse.classify_and_track, NetPulse.start_incident, NetPulse.end_incident.
  unfold_monad. cbv zeta. unfold alert_subject in Hk.
  destruct latency as [l|]; [destruct (float_gtb l _) eqn:Egt|].
  all: repeat (first [alert_keys_step k Hk | case_step]; simpl).
  all: first [assumption | reflexivity].
Qed.

Lemma append_cancel (s a b : string) : s +:+ a = s +:+ b -> a = b.
Proof.
  induction s as [|c s IH]; [trivial|]. simpl. intros [= H]. apply IH. exact H.
Qed.

(** The failure alerts and the recovery alert of a target have keys of
    their own. *)
Lemma recovery_key_differs threshold target_name latency :
  is_failure threshold latency = true ->
  NetPulse.email_key target_name ("RECOVERED: " +:+ target_name) <>
  NetPulse.email_key target_name (alert_subject threshold target_name latency).
Proof.
  unfold is_failure, alert_subject, NetPulse.email_key. intros Hfail H.
  apply append_cancel in H.
  destruct latency as [l|]; [rewrite Hfail in H|]; discriminate H.
Qed.

Lemma iteration_other_keys clock db_up smtp_up cfg target_name ping td w k :
  k <> NetPulse.email_key target_name
         (alert_subject (latency_threshold cfg) target_name
            (NetPulse.ping_target ping)) ->
  last_email_sent
    (NetPulse.monitor_target_iteration clock db_up smtp_up cfg
       target_name ping td w).1 !! k =
  last_email_sent td !! k.
Proof.
  intros Hk.
  unfold NetPulse.monitor_target_iteration, bind, NetPulse.now.
  cbv beta iota zeta.
  match goal with
  | |- context [NetPulse.classify_and_track _ _ _ _ ?n ?l ?td0 ?w0] =>
      pose proof (classify_other_keys clock db_up smtp_up cfg n l td0 w0 k Hk)
        as Hc;
      destruct (NetPulse.classify_and_track clock db_up smtp_up cfg n l td0 w0)
        as [[st td'] w']
  end.
  simpl in Hc. cbv beta iota.
  pose proof (record_result_frame clock db_up cfg target_name
                (NetPulse.ping_target ping) st td' w') as Hr.
  cbv zeta in Hr. destruct Hr as (_ & _ & _ & Hsent & _).
  rewrite Hsent. exact Hc.
Qed.

Lemma iteration_alert clock db_up smtp_up cfg target_name ping td w :
  send_alerts cfg = true ->
  let subject := alert_subject (latency_threshold cfg) target_name
                   (NetPulse.ping_target ping) in
  is_failure (latency_threshold cfg) (NetPulse.ping_target ping) = true \/
    0 < consecutive_failures td ->
  last_email_sent td !! NetPulse.email_key target_name subject = None ->
  let r := NetPulse.monitor_target_iteration clock db_up smtp_up cfg
             target_name ping td w in
  exists d, outbox r.2 =
              outbox w ++ [{| sa_target := target_name; sa_subject := subject;
                              sa_delivered := d |}].
Proof.
  intros Hon subject Hdue Hnone. subst subject.
  unfold NetPulse.monitor_target_iteration, bind, NetPulse.now.
  cbv beta iota zeta.
  match goal with
  | |- context [NetPulse.classify_and_track _ _ _ _ ?n ?l ?td0 ?w0] =>
      pose proof (classify_alert clock db_up smtp_up cfg n l td0 w0 Hon Hdue Hnone)
        as Hc;
      cbv zeta in Hc;
      destruct (NetPulse.classify_and_track clock db_up smtp_up cfg n l td0 w0)
        as [[st td'] w']
  end.
  simpl in Hc. cbv beta iota. destruct Hc as [Hc _].
  pose proof (record_result_frame clock db_up cfg target_name
                (NetPulse.ping_target ping) st td' w') as Hr.
  cbv zeta in Hr. destruct Hr as (_ & _ & _ & _ & _ & _ & Hout).
  rewrite Hout. exact Hc.
Qed.

Lemma failing_run_keeps_recovery_key
    clock db_up smtp_up cfg target_name fails : forall td w,
  Forall (fun ping => is_failure (latency_threshold cfg)
                        (NetPulse.ping_target ping) = true) fails ->
  last_email_sent td
    !! NetPulse.email_key target_name ("RECOVERED: " +:+ target_name) = None ->
  let r := NetPulse.monitor_target clock db_up smtp_up cfg target_name fails td w in
  last_email_sent r.1
    !! NetPulse.email_key target_name ("RECOVERED: " +:+ target_name) = None /\
  consecutive_failures r.1 = consecutive_failures td + length fails.
Proof.
  induction fails as [|ping fails IH]; intros td w Hall Hnone.
  - simpl. split; [exact Hnone | lia].
  - rewrite monitor_target_cons. cbv zeta.
    pose proof (iteration_counter clock db_up smtp_up cfg target_name ping td w)
      as Hcf.
    rewrite (Forall_inv Hall) in Hcf.
    pose proof (iteration_other_keys clock db_up smtp_up cfg target_name ping td w
                  _ (recovery_key_differs _ target_name _ (Forall_inv Hall)))
      as Hkey.
    set (r := NetPulse.monitor_target_iteration _ _ _ _ _ _ _ _) in *.
    destruct (IH r.1 r.2 (Forall_inv_tail Hall)) as [Hnone' Hcf'].
    { rewrite Hkey. exact Hnone. }
    split; [exact Hnone'|]. rewrite Hcf', Hcf. simpl. lia.
Qed.

(** X26.  In the newer program the first recovery of a target is always
    announced: with alerts switched on, after a streak of failing probes
    from the initial state, the healthy probe that ends the streak opens an
    SMTP session for the recovery alert, however short the streak was and
    whatever the cooldown of the failure alerts. *)
Theorem X26_the_first_recovery_is_announced
    clock db_up smtp_up cfg target_name tc fails good w :
  send_alerts cfg = true ->
  fails <> [] ->
  Forall (fun ping => is_failure (latency_threshold cfg)
                        (NetPulse.ping_target ping) = true) fails ->
  is_failure (latency_threshold cfg) (NetPulse.ping_target good) = false ->
  let r := NetPulse.monitor_target clock db_up smtp_up cfg target_name
             (fails ++ [good]) (NetPulse.initial_target_data tc) w in
  exists delivered,
    last (outbox r.2) =
      Some {| sa_target := target_name;
              sa_subject := "RECOVERED: " +:+ target_name;
              sa_delivered := delivered |}.
Proof.
  intros Hon Hne Hfails Hgood. cbv zeta.
  rewrite monitor_target_snoc. cbv zeta.
  destruct (failing_run_keeps_recovery_key clock db_up smtp_up cfg target_name
              fails (NetPulse.initial_target_data tc) w Hfails)
    as [Hnone Hcf]; [reflexivity|].
  set (r := NetPulse.monitor_target _ _ _ _ _ fails _ _) in *.
  assert (Hsubject : alert_subject (latency_threshold cfg) target_name
                       (NetPulse.ping_target good) =
                     ("RECOVERED: " +:+ target_name)%string).
  { unfold alert_subject, is_failure in *.
    destruct (NetPulse.ping_target good); [rewrite Hgood; reflexivity|discriminate]. }
  destruct (iteration_alert clock db_up smtp_up cfg target_name good r.1 r.2 Hon)
    as [d Hout].
  - right. rewrite Hcf. destruct fails; [congruence | simpl; lia].
  - rewrite Hsubject. exact Hnone.
  - exists d. rewrite Hout, Hsubject. apply last_snoc.
Qed.

Lemma X26_recovery_witness :
  send_alerts Sample.cfg = true /\
  [PingTimeout] <> [] /\
  exists delivered,
    last (outbox (Sample.run ([PingTimeout] ++ [Sample.reply_90])).2) =
      Some {| sa_target := "A"; sa_subject := "RECOVERED: A";
              sa_delivered := delivered |}.
Proof.
  assert (H : [PingTimeout] <> []) by discriminate.
  split; [reflexivity|]. split; [exact H|].
  apply (X26_the_first_recovery_is_announced Sample.clock always_up always_up
           Sample.cfg "A" Sample.target_a [PingTimeout] Sample.reply_90 Sample.w0
           eq_refl H).
  - repeat constructor.
  - reflexivity.
Defined.
(** ** The cooldown of the older program *)

Lemma isp_send_email_in_cooldown clock smtp_up cfg subject m w t0 :
  ISP.last_email_sent m !! ISP.general_key = Some t0 ->
  (total_seconds (clock (clock_reads w) - t0) < ISP.cooldown_seconds cfg)%Q ->
  let r := ISP.send_email clock smtp_up cfg subject m w in
  r.1.2 = m /\ outbox r.2 = outbox w /\
  clock_reads w <= clock_reads r.2 <= S (clock_reads w).
Proof.
  intros Hlast Hcool. apply float_ltb_true in Hcool.
  unfold ISP.send_email, ISP.now. unfold_monad. cbv zeta.
  destruct (ISP.send_every_failure cfg); simpl.
  - rewrite Hlast. simpl. rewrite Hcool. simpl. repeat split; lia.
  - repeat split; lia.
Qed.

Ltac isp_cooldown_step Hlast Hcool :=
  match goal with
  | |- context [ISP.send_email ?c ?s ?cfg ?sub ?m0 ?w0] =>
      let H := fresh "Hsend" in
      assert (H := isp_send_email_in_cooldown c s cfg sub m0 w0 _ Hlast);
      cbv zeta in H;
      destruct (ISP.send_email c s cfg sub m0 w0) as [[? ?] ?];
      simpl in H;
      destruct H as (-> & ? & ? & ?); [apply Hcool; simpl; lia|]
  end.

Lemma check_connectivity_in_cooldown clock smtp_up cfg format_0f ping m w t0 :
  ISP.last_email_sent m !! ISP.general_key = Some t0 ->
  (forall k, clock_reads w <= k < clock_reads w + 6 ->
             (total_seconds (clock k - t0) < ISP.cooldown_seconds cfg)%Q) ->
  let r := ISP.check_connectivity clock smtp_up cfg format_0f ping m w in
  ISP.last_email_sent r.1 = ISP.last_email_sent m /\
  outbox r.2 = outbox w /\
  clock_reads w <= clock_reads r.2 <= clock_reads w + 6.
Proof.
  intros Hlast Hcool.
  unfold ISP.check_connectivity, ISP.log_to_csv, ISP.now. unfold_monad. cbv zeta.
  simpl.
  repeat (first [isp_cooldown_step Hlast Hcool | case_step]; simpl).
  all: repeat split; first [assumption | reflexivity | simpl in *; lia].
Qed.

(** X27.  In the older program one cooldown covers every subject: while
    the time read stays within [cooldown_seconds] of the time recorded for
    the last mail, a run of the loop sends no mail at all, neither alerts
    nor the announcement of a recovery, whatever the checks find.  (Six
    readings of the clock per check are enough to cover the run.) *)
Theorem X27_nothing_is_mailed_while_the_cooldown_runs
    clock smtp_up cfg format_0f pings m w t0 :
  ISP.last_email_sent m !! ISP.general_key = Some t0 ->
  (forall k, clock_reads w <= k < clock_reads w + 6 * length pings ->
             (total_seconds (clock k - t0) < ISP.cooldown_seconds cfg)%Q) ->
  let r := ISPLoop.monitoring_loop clock smtp_up cfg format_0f pings m w in
  outbox r.2 = outbox w /\
  ISP.last_email_sent r.1 = ISP.last_email_sent m.
Proof.
  cbv zeta. revert m w. induction pings as [|ping pings IH]; intros m w Hlast Hcool.
  - split; reflexivity.
  - rewrite monitoring_loop_cons. cbv zeta.
    destruct (check_connectivity_in_cooldown clock smtp_up cfg format_0f ping m w
                t0 Hlast) as (Hsent & Hout & Hlo & Hhi).
    { intros k Hk. apply Hcool. simpl. lia. }
    set (r := ISP.check_connectivity _ _ _ _ _ _ _) in *.
    destruct (IH r.1 r.2) as [Hout' Hsent'].
    + rewrite Hsent. exact Hlast.
    + intros k Hk. apply Hcool. simpl. lia.
    + split; congruence.
Qed.

Lemma X27_cooldown_witness :
  ISP.last_email_sent after_first_alert.1.2 !! ISP.general_key = Some 1000000%Z /\
  outbox (ISPLoop.monitoring_loop Sample.clock always_up Sample.isp_cfg
            Sample.format_0f [PingTimeout; Sample.reply_90]
            after_first_alert.1.2 after_first_alert.2).2 =
  outbox after_first_alert.2.
Proof.
  assert (H1 : ISP.last_email_sent after_first_alert.1.2 !! ISP.general_key =
               Some 1000000%Z) by (vm_compute; reflexivity).
  split; [exact H1|].
  apply (X27_nothing_is_mailed_while_the_cooldown_runs Sample.clock always_up
           Sample.isp_cfg Sample.format_0f [PingTimeout; Sample.reply_90]
           after_first_alert.1.2 after_first_alert.2 1000000%Z H1).
  change (clock_reads after_first_alert.2) with 2.
  intros k Hk. simpl in Hk.
  unfold total_seconds, Sample.clock, us_per_second, Qlt. simpl. lia.
Defined.
(** ** A recipient field without addresses *)

Lemma contains_lstrip ch p s :
  Text.contains ch (Text.lstrip p s) = true -> Text.contains ch s = true.
Proof.
  induction s as [|c s IH]; [trivial|].
  cbn [Text.lstrip]. destruct (p c); [|trivial].
  intros H. simpl. rewrite (IH H). apply orb_true_r.
Qed.

Lemma contains_rstrip ch p s :
  Text.contains ch (Text.rstrip p s) = true -> Text.contains ch s = true.
Proof.
  induction s as [|c s IH]; [trivial|].
  simpl. destruct (Text.rstrip p s) as [|c' r].
  - destruct (p c); [discriminate|]. simpl. rewrite orb_false_r.
    intros ->. reflexivity.
  - intros H. cbn [Text.contains] in H. apply orb_true_iff in H.
    destruct H as [->|H]; [reflexivity|]. rewrite (IH H). apply orb_true_r.
Qed.

Lemma contains_split ch sep s : forall piece,
  piece ∈ Text.split sep s ->
  Text.contains ch piece = true -> Text.contains ch s = true.
Proof.
  induction s as [|c s IH]; intros piece Hin Hc.
  - simpl in Hin. apply list_elem_of_singleton in Hin. subst piece. discriminate Hc.
  - simpl in Hin. destruct (Ascii.eqb c sep).
    + apply elem_of_cons in Hin. destruct Hin as [->|Hin]; [discriminate Hc|].
      simpl. rewrite (IH piece Hin Hc). apply orb_true_r.
    + destruct (Text.split sep s) as [|p ps] eqn:E.
      * apply list_elem_of_singleton in Hin. subst piece. simpl in Hc.
        rewrite orb_false_r in Hc. simpl. rewrite Hc. reflexivity.
      * apply elem_of_cons in Hin. destruct Hin as [->|Hin].
        -- cbn [Text.contains] in Hc. apply orb_true_iff in Hc.
           destruct Hc as [Hc|Hc]; simpl; [rewrite Hc; reflexivity|].
           rewrite (IH p) by (try left; assumption). apply orb_true_r.
        -- simpl. rewrite (IH piece) by (try right; assumption).
           apply orb_true_r.
Qed.

Lemma contains_strip ch s :
  Text.contains ch (Text.strip s) = true -> Text.contains ch s = true.
Proof. intros H. apply contains_lstrip, contains_rstrip in H. exact H. Qed.

Lemma contains_strip_char ch q s :
  Text.contains ch (Text.strip_char q s) = true -> Text.contains ch s = true.
Proof. intros H. apply contains_lstrip, contains_rstrip in H. exact H. Qed.

(** Without an [@] in the field there is no recipient. *)
Lemma parse_email_recipients_none to_email :
  Text.contains "@" to_email = false ->
  Mail.parse_email_recipients to_email = [].
Proof.
  intros Hno. unfold Mail.parse_email_recipients.
  destruct (String.eqb to_email ""); [reflexivity|]. cbv zeta.
  apply elem_of_nil_inv. intros e He.
  apply list_elem_of_filter in He. destruct He as [[_ Hat] He].
  apply list_elem_of_fmap in He. destruct He as (piece & -> & Hpiece).
  apply contains_strip_char, contains_strip_char, contains_strip in Hat.
  assert (Hs : Text.contains "@" (Text.strip to_email) = true);
    [|apply contains_strip in Hs; congruence].
  destruct (Text.contains "," (Text.strip to_email));
    [|destruct (Text.contains ";" (Text.strip to_email))].
  - apply list_elem_of_fmap in Hpiece. destruct Hpiece as (p & -> & Hp).
    apply contains_strip in Hat. eapply contains_split; eauto.
  - apply list_elem_of_fmap in Hpiece. destruct Hpiece as (p & -> & Hp).
    apply contains_strip in Hat. eapply contains_split; eauto.
  - apply list_elem_of_singleton in Hpiece. subst piece. exact Hat.
Qed.

Lemma isp_send_email_no_recipient clock smtp_up cfg subject m w :
  ISP.to_email_list cfg = [] ->
  outbox (ISP.send_email clock smtp_up cfg subject m w).2 = outbox w.
Proof.
  intros Hnone. unfold ISP.send_email, ISP.now. unfold_monad. cbv zeta.
  rewrite Hnone. repeat (case_step; simpl); reflexivity.
Qed.

Ltac isp_no_recipient_step Hnone :=
  match goal with
  | |- context [ISP.send_email ?c ?s ?cfg ?sub ?m0 ?w0] =>
      let H := fresh "Hsend" in
      pose proof (isp_send_email_no_recipient c s cfg sub m0 w0 Hnone) as H;
      destruct (ISP.send_email c s cfg sub m0 w0) as [[? ?] ?];
      simpl in H
  end.

Lemma check_connectivity_no_recipient clock smtp_up cfg format_0f ping m w :
  ISP.to_email_list cfg = [] ->
  outbox (ISP.check_connectivity clock smtp_up cfg format_0f ping m w).2 =
  outbox w.
Proof.
  intros Hnone.
  unfold ISP.check_connectivity, ISP.log_to_csv, ISP.now. unfold_monad. cbv zeta.
  simpl.
  repeat (first [isp_no_recipient_step Hnone | case_step]; simpl).
  all: first [assumption | reflexivity].
Qed.

Lemma monitoring_loop_no_recipient clock smtp_up cfg format_0f pings :
  ISP.to_email_list cfg = [] ->
  forall m w,
  outbox (ISPLoop.monitoring_loop clock smtp_up cfg format_0f pings m w).2 =
  outbox w.
Proof.
  intros Hnone. induction pings as [|ping pings IH]; intros m w; [reflexivity|].
  rewrite monitoring_loop_cons. cbv zeta. rewrite IH.
  apply check_connectivity_no_recipient. exact Hnone.
Qed.

(** X28.  A recipient field without any [@] silences the older program:
    [parse_email_recipients] finds no address in it, and then neither the
    startup notification nor any alert of a run opens an SMTP session. *)
Theorem X28_no_address_no_mail
    clock smtp_up cfg format_0f to_email pings m w :
  Text.contains "@" to_email = false ->
  ISP.to_email_list cfg = Mail.parse_email_recipients to_email ->
  Mail.parse_email_recipients to_email = [] /\
  outbox (ISPLoop.start_monitoring clock smtp_up cfg format_0f pings m w).2 =
  outbox w.
Proof.
  intros Hno Hcfg.
  pose proof (parse_email_recipients_none to_email Hno) as Hparse.
  split; [exact Hparse|]. rewrite Hparse in Hcfg.
  unfold ISPLoop.start_monitoring, ISP.now. unfold_monad. simpl.
  isp_no_recipient_step Hcfg.
  rewrite monitoring_loop_no_recipient by exact Hcfg. exact Hsend.
Qed.

Lemma X28_no_address_witness :
  Text.contains "@" "ops.example.org" = false /\
  ISP.to_email_list isp_cfg_no_address =
    Mail.parse_email_recipients "ops.example.org" /\
  outbox (ISPLoop.start_monitoring Sample.clock always_up isp_cfg_no_address
            Sample.format_0f [PingTimeout; Sample.reply_90]
            ISP.initial_monitor Sample.w0).2 =
  outbox Sample.w0.
Proof.
  split; [reflexivity|]. split; [reflexivity|].
  apply (X28_no_address_no_mail Sample.clock always_up isp_cfg_no_address
           Sample.format_0f "ops.example.org" [PingTimeout; Sample.reply_90]
           ISP.initial_monitor Sample.w0 eq_refl eq_refl).
Defined.
(** ** What the graphs are drawn from *)

Lemma every_length_eq {A B} step (xs : list A) : forall skip (ys : list B),
  length xs = length ys ->
  length (Graphs.every step skip xs) = length (Graphs.every step skip ys).
Proof.
  induction xs as [|x xs IH]; intros skip [|y ys] Hlen; try discriminate Hlen.
  - reflexivity.
  - injection Hlen as Hlen. simpl. destruct skip; simpl; auto.
Qed.

Lemma every_length_bound {A} step (xs : list A) : forall skip,
  0 < step ->
  length (Graphs.every step skip xs) * step < length xs - skip + step.
Proof.
  induction xs as [|x xs IH]; intros skip Hstep; simpl; [lia|].
  destruct skip as [|skip]; simpl.
  - specialize (IH (step - 1) Hstep).
    destruct (le_lt_dec (step - 1) (length xs)) as [Hle|Hlt].
    + replace (length xs - (step - 1) + step) with (length xs + 1) in IH by lia.
      lia.
    + replace (length xs - (step - 1) + step) with step in IH by lia.
      assert (length (Graphs.every step (step - 1) xs) = 0) as -> by nia.
      lia.
  - apply IH. exact Hstep.
Qed.

Lemma limit_points_length_eq {A B} n (xs : list A) (ys : list B) :
  length xs = length ys ->
  length (Graphs.limit_points n xs) = length (Graphs.limit_points n ys).
Proof.
  intros Hlen. unfold Graphs.limit_points.
  destruct (100 <? n); [apply every_length_eq|]; exact Hlen.
Qed.

Lemma limit_points_bound {A} (xs : list A) :
  xs <> [] ->
  0 < length (Graphs.limit_points (length xs) xs) <= 199.
Proof.
  intros Hne. unfold Graphs.limit_points.
  destruct (100 <? length xs) eqn:E.
  - apply Nat.ltb_lt in E.
    assert (Hstep : 0 < length xs / 100)
      by (apply Nat.div_str_pos; lia).
    pose proof (every_length_bound (length xs / 100) xs 0 Hstep) as Hb.
    pose proof (Nat.div_mod_eq (length xs) 100) as Hd.
    pose proof (Nat.mod_upper_bound (length xs) 100 ltac:(lia)) as Hm.
    split.
    + destruct xs; [congruence | simpl; lia].
    + nia.
  - apply Nat.ltb_ge in E. destruct xs; [congruence | simpl in *; lia].
Qed.

(** Below 200 points the limit leaves every point in. *)
Lemma every_one {A} (xs : list A) : Graphs.every 1 0 xs = xs.
Proof. induction xs as [|x xs IH]; [reflexivity|]. simpl. rewrite IH. reflexivity. Qed.

Lemma limit_points_below_200 {A} (xs : list A) :
  length xs < 200 -> Graphs.limit_points (length xs) xs = xs.
Proof.
  intros Hlt. unfold Graphs.limit_points.
  destruct (100 <? length xs) eqn:E; [|reflexivity].
  apply Nat.ltb_lt in E.
  replace (length xs / 100) with 1; [apply every_one|].
  apply Nat.div_unique with (length xs - 100); lia.
Qed.

Lemma pick_in_range {A} (indices : list nat) (xs : list A) :
  Forall (fun i => i < length xs) indices ->
  exists l, Graphs.pick indices xs = Some l /\ length l = length indices.
Proof.
  intros Hall. unfold Graphs.pick.
  destruct (mapM (fun i => xs !! i) indices) as [l|] eqn:E.
  - exists l. split; [reflexivity|]. apply length_mapM in E. lia.
  - exfalso. apply mapM_None_1 in E. 
    apply Exists_exists in E. destruct E as (i & Hi & Hnone).
    rewrite Forall_forall in Hall. specialize (Hall i Hi).
    apply lookup_ge_None in Hnone. lia.
Qed.

Lemma recent_indices_in_range (cutoff_time : Z) (timestamps : list Z) :
  Forall (fun i => i < length timestamps)
    (filter (fun p : nat * Z => (cutoff_time <= p.2)%Z)
            (imap (fun i ts => (i, ts)) timestamps)).*1.
Proof.
  apply Forall_forall. intros i Hi.
  apply list_elem_of_fmap in Hi. destruct Hi as ([i' ts] & -> & Hi).
  apply list_elem_of_filter in Hi. destruct Hi as [_ Hi].
  apply elem_of_lookup_imap in Hi. destruct Hi as (j & y & [= -> ->] & Hj).
  simpl. apply lookup_lt_Some in Hj. exact Hj.
Qed.

Lemma update_graphs_aligned clock graph_window_hours m w :
  length (ISP.latencies m) = length (ISP.timestamps m) ->
  length (ISP.packet_loss m) = length (ISP.timestamps m) ->
  length (ISP.status_codes m) = length (ISP.timestamps m) ->
  let r := Graphs.update_graphs clock graph_window_hours m w in
  r.1 <> Graphs.GraphError /\
  forall s, r.1 = Graphs.Drawn s ->
    0 < length (Graphs.recent_times s) <= 199 /\
    length (Graphs.recent_latencies s) = length (Graphs.recent_times s) /\
    length (Graphs.recent_packet_loss s) = length (Graphs.recent_times s) /\
    length (Graphs.recent_status s) = length (Graphs.recent_times s).
Proof.
  intros Hlat Hloss Hcodes. cbv zeta. unfold Graphs.update_graphs.
  destruct (length (ISP.timestamps m) <? 2);
    [split; [discriminate | intros s [=]]|].
  unfold_monad. cbv zeta.
  pose proof (recent_indices_in_range
                (clock (clock_reads w) - Graphs.timedelta_hours graph_window_hours)
                (ISP.timestamps m)) as Hrange.
  set (recent_indices := (filter _ _).*1) in *.
  destruct (decide (recent_indices = [])) as [Hnil|Hne].
  { rewrite Hnil. split; [discriminate | intros s [=]]. }
  assert (Hmatch : forall (X : Type) (a b : X),
             match recent_indices with [] => a | _ :: _ => b end = b)
    by (intros; destruct recent_indices; congruence).
  rewrite Hmatch.
  destruct (pick_in_range recent_indices (ISP.timestamps m) Hrange)
    as (times & -> & Htimes).
  destruct (pick_in_range recent_indices (ISP.latencies m))
    as (latencies & -> & Hlatencies); [rewrite Hlat; exact Hrange|].
  destruct (pick_in_range recent_indices (ISP.packet_loss m))
    as (losses & -> & Hlosses); [rewrite Hloss; exact Hrange|].
  destruct (pick_in_range recent_indices (ISP.status_codes m))
    as (codes & -> & Hstatus); [rewrite Hcodes; exact Hrange|].
  simpl. split; [discriminate|]. intros s [= <-]. simpl.
  split; [|split; [|split]].
  - apply limit_points_bound. intros ->. simpl in Htimes.
    destruct recent_indices; [congruence | discriminate Htimes].
  - apply limit_points_length_eq. congruence.
  - apply limit_points_length_eq. congruence.
  - apply limit_points_length_eq. congruence.
Qed.

(** X29.  After any run of the older program's loop from its initial
    state, [update_graphs] never fails on an index: it returns early or
    draws four series of the same length, which is at least 1 and at most
    199.  The block that limits the number of points only starts to drop
    points at 200: with fewer recent points than that, every one of them
    is drawn. *)
Theorem X29_graphs_are_drawn_from_aligned_series
    clock smtp_up cfg format_0f pings w clock' graph_window_hours w' :
  let m := (ISPLoop.monitoring_loop clock smtp_up cfg format_0f pings
              ISP.initial_monitor w).1 in
  let r := Graphs.update_graphs clock' graph_window_hours m w' in
  r.1 <> Graphs.GraphError /\
  (forall s, r.1 = Graphs.Drawn s ->
     0 < length (Graphs.recent_times s) <= 199 /\
     length (Graphs.recent_latencies s) = length (Graphs.recent_times s) /\
     length (Graphs.recent_packet_loss s) = length (Graphs.recent_times s) /\
     length (Graphs.recent_status s) = length (Graphs.recent_times s)) /\
  (forall times : list Z,
     length times < 200 -> Graphs.limit_points (length times) times = times).
Proof.
  cbv zeta.
  destruct (monitoring_loop_series clock smtp_up cfg format_0f pings w)
    as (_ & _ & Hts & Hlat & Hloss & Hcodes).
  set (m := (ISPLoop.monitoring_loop _ _ _ _ _ _ _).1) in *.
  assert (Hlen : forall {A} (l : list A),
             length l = length pings ->
             length (NetPulse.last_n ISP.max_data_points l) =
             length (ISP.timestamps m)).
  { intros A l Hl. unfold NetPulse.last_n. rewrite length_drop, Hts, Hl. lia. }
  destruct (update_graphs_aligned clock' graph_window_hours m w') as [Herr Hdrawn].
  - rewrite Hlat. apply Hlen. rewrite !length_fmap. reflexivity.
  - rewrite Hloss. apply Hlen. rewrite !length_fmap. reflexivity.
  - rewrite Hcodes. apply Hlen. rewrite !length_fmap. reflexivity.
  - split; [exact Herr|]. split; [exact Hdrawn|].
    intros times. apply limit_points_below_200.
Qed.
(** ** The rolling average *)




